(** * Fear & Greed dashboard ([streamlit_app.py]): model and properties.

    The script is one Streamlit page over one HTTP GET.  It is embedded
    here as executable Rocq definitions:

    - Python values coming out of [resp.json()] are the inductive [json];
      a JSON object is a [gmap string json], a number is a Python [int]
      (unbounded, [Z]) or a Python [float] (IEEE-754 binary64, the
      Standard Library's [spec_float] at precision 53);
    - Python exceptions are the [Raise] results of the [result] monad;
    - Streamlit calls ([st.title], [st.error], [st.stop], ...) are
      commands of the [script] monad, which threads a [world]: the
      elements put on the page so far, the [st.cache_data] slot and the
      number of HTTP requests sent;
    - pandas' frame of a list of objects and its [sort_values], down to
      numpy's [argsort], are modelled; what else the script leaves to
      pandas and datetime is an [externals] record; requests is answered
      by an oracle of the environment. *)

From Stdlib Require Import ZArith QArith Bool Ascii String List Lia.
From Stdlib Require Import Floats.SpecFloat.
From Stdlib Require Import Sorting.Sorted Sorting.Permutation.
From stdpp Require Import base option gmap strings list fin_maps pretty sorting.

Set Warnings "-register-all".
#[local] Open Scope string_scope.
#[local] Open Scope Z_scope.
#[local] Open Scope list_scope.

(** ** Python numbers *)

Module Py.

(** binary64 *)
Definition prec : Z := 53.
Definition emax : Z := 1024.

Abbreviation float := spec_float.

(** A Python number as [json.loads] builds it: [int] or [float]. *)
Inductive number :=
| PInt (z : Z)
| PFloat (f : float).

(** [float(z)]: the nearest binary64, [None] where Python raises
    OverflowError. *)
Definition int_to_float (z : Z) : option float :=
  match binary_normalize prec emax z 0 false with
  | S754_infinity _ => None
  | f => Some f
  end.

(** The binary64 nearest to [n / 10^k]: how a decimal literal such as
    [25.01] is read ([n] and [10^k] below [2^53]). *)
Definition dec (n : Z) (k : nat) : number :=
  PFloat (SFdiv prec emax (binary_normalize prec emax n 0 false)
                          (binary_normalize prec emax (10 ^ Z.of_nat k) 0 false)).

Definition float_is_finite (f : float) : bool :=
  match f with
  | S754_zero _ | S754_finite _ _ _ => true
  | _ => false
  end.

Definition is_finite (x : number) : bool :=
  match x with
  | PInt _ => true
  | PFloat f => float_is_finite f
  end.

Definition is_nan (x : number) : bool :=
  match x with
  | PFloat S754_nan => true
  | _ => false
  end.

(** The real number a finite number stands for. *)
Definition value (x : number) : option Q :=
  match x with
  | PInt z => Some (inject_Z z)
  | PFloat (S754_zero _) => Some 0%Q
  | PFloat (S754_finite s m e) =>
      Some match e with
           | Z.neg p => Qmake (cond_Zopp s (Z.pos m)) (2 ^ p)%positive
           | _ => inject_Z (cond_Zopp s (Z.pos m) * 2 ^ e)
           end
  | PFloat _ => None
  end.

(** Python compares a [float] with an [int] exactly (no conversion of
    the int): [m * 2^e] against [k], both sides scaled by [2^-e] when
    [e] is negative.  [None] is the unordered result of a NaN. *)
Definition float_compare_int (f : float) (k : Z) : option comparison :=
  match f with
  | S754_nan => None
  | S754_infinity s => Some (if s then Lt else Gt)
  | S754_zero _ => Some (0 ?= k)
  | S754_finite s m e =>
      Some match e with
           | Z.neg p => cond_Zopp s (Z.pos m) ?= k * 2 ^ Z.pos p
           | _ => cond_Zopp s (Z.pos m) * 2 ^ e ?= k
           end
  end.

Definition compare (a b : number) : option comparison :=
  match a, b with
  | PInt x, PInt y => Some (x ?= y)
  | PFloat f, PInt y => float_compare_int f y
  | PInt x, PFloat g => CompOpp <$> float_compare_int g x
  | PFloat f, PFloat g => SFcompare f g
  end.

(** [a <= b] and [a < b]; every comparison with a NaN is [False]. *)
Definition leb (a b : number) : bool :=
  match compare a b with
  | Some Lt | Some Eq => true
  | _ => false
  end.

Definition ltb (a b : number) : bool :=
  match compare a b with
  | Some Lt => true
  | _ => false
  end.

(** Truth value of a number: zero (of either sign) is false, NaN is
    true. *)
Definition number_truth (x : number) : bool :=
  match x with
  | PInt z => negb (z =? 0)
  | PFloat (S754_zero _) => false
  | PFloat _ => true
  end.

(** *** Arithmetic used by the script: [a - b] and [round(x, 1)] *)

Inductive exn :=
| TypeError
| AttributeError
| KeyError
| ValueError
| OverflowError
| LibraryError (msg : string).   (* raised inside requests, pandas, datetime *)

Inductive result (A : Type) :=
| Ok (a : A)
| Raise (e : exn).
Arguments Ok {A} a.
Arguments Raise {A} e.

Definition bind {A B} (m : result A) (k : A -> result B) : result B :=
  match m with
  | Ok a => k a
  | Raise e => Raise e
  end.

Definition to_float (x : number) : result float :=
  match x with
  | PFloat f => Ok f
  | PInt z => match int_to_float z with
              | Some f => Ok f
              | None => Raise OverflowError
              end
  end.

(** [a - b]: exact on two ints, otherwise both operands as floats. *)
Definition sub (a b : number) : result number :=
  match a, b with
  | PInt x, PInt y => Ok (PInt (x - y))
  | _, _ =>
      bind (to_float a) (fun fa =>
      bind (to_float b) (fun fb =>
      Ok (PFloat (SFsub prec emax fa fb))))
  end.

(** Nearest integer to [a / b] for [0 < b], ties to the even one. *)
Definition round_half_even_div (a b : Z) : Z :=
  let q := a / b in
  match 2 * (a mod b) ?= b with
  | Lt => q
  | Gt => q + 1
  | Eq => if Z.even q then q else q + 1
  end.

(** [round(f, 1)] on a float: the exact value of [f] is rounded to one
    decimal digit, ties to even, and the decimal [n / 10] is read back as
    the nearest binary64; the sign is kept, NaN and the infinities round
    to themselves. *)
Definition float_round1 (f : float) : float :=
  match f with
  | S754_finite s m e =>
      let n := match e with
               | Z.neg p => round_half_even_div (Z.pos m * 10) (2 ^ Z.pos p)
               | _ => Z.pos m * 10 * 2 ^ e
               end in
      match n with
      | Z.pos p => SFdiv prec emax (S754_finite s p 0) (S754_finite false 10 0)
      | _ => S754_zero s
      end
  | _ => f
  end.

(** [round(x, 1)]: an int rounds to itself. *)
Definition round1 (x : number) : number :=
  match x with
  | PInt z => PInt z
  | PFloat f => PFloat (float_round1 f)
  end.

(** A number that is zero: [0], [0.0] or [-0.0]. *)
Definition is_zero (x : number) : bool := negb (number_truth x).

End Py.

Export Py(number, PInt, PFloat, result, Ok, Raise, exn).

#[global] Instance result_ret : MRet result := @Ok.
#[global] Instance result_bind : MBind result := fun A B k m => Py.bind m k.

(** ** Python values and the operations the script applies to them *)

(** What [resp.json()] returns. *)
Inductive json :=
| JNull
| JBool (b : bool)
| JNum (n : number)
| JStr (s : string)
| JArr (l : list json)
| JObj (m : gmap string json).

Module Value.

(** [d.get(key, dflt)]: only a dict has [get]. *)
Definition get (d : json) (key : string) (dflt : json) : result json :=
  match d with
  | JObj m => Ok (default dflt (m !! key))
  | _ => Raise Py.AttributeError
  end.

(** [bool(v)], as [if v:] and [not v] take it. *)
Definition truth (v : json) : bool :=
  match v with
  | JNull => false
  | JBool b => b
  | JNum n => Py.number_truth n
  | JStr s => negb (String.eqb s "")
  | JArr l => match l with [] => false | _ => true end
  | JObj m => negb (bool_decide (m = ∅))
  end.

(** [v is None] *)
Definition is_none (v : json) : bool :=
  match v with JNull => true | _ => false end.

(** The operand of an arithmetic operator or a comparison with a number:
    [bool] is a subclass of [int]; anything else raises TypeError. *)
Definition as_number (v : json) : result number :=
  match v with
  | JNum n => Ok n
  | JBool b => Ok (PInt (if b then 1 else 0))
  | _ => Raise Py.TypeError
  end.

(** The receiver of a [str] method: anything else has no such attribute. *)
Definition as_str (v : json) : result string :=
  match v with
  | JStr s => Ok s
  | _ => Raise Py.AttributeError
  end.

End Value.

(** ** [str.replace("_", " ")] and [str.title()] *)

Module Str.

Definition is_upper (c : ascii) : bool :=
  let n := nat_of_ascii c in (65 <=? n)%nat && (n <=? 90)%nat.

Definition is_lower (c : ascii) : bool :=
  let n := nat_of_ascii c in (97 <=? n)%nat && (n <=? 122)%nat.

Definition is_cased (c : ascii) : bool := is_upper c || is_lower c.

Definition upper (c : ascii) : ascii :=
  if is_lower c then ascii_of_nat (nat_of_ascii c - 32) else c.

Definition lower (c : ascii) : ascii :=
  if is_upper c then ascii_of_nat (nat_of_ascii c + 32) else c.

(** [s.replace("_", " ")] *)
Fixpoint replace_underscores (s : string) : string :=
  match s with
  | EmptyString => EmptyString
  | String c r =>
      String (if Ascii.eqb c "_" then " "%char else c) (replace_underscores r)
  end.

(** [s.title()]: a character that follows a cased one is lowercased,
    any other is uppercased. *)
Fixpoint title_from (previous_is_cased : bool) (s : string) : string :=
  match s with
  | EmptyString => EmptyString
  | String c r =>
      String (if previous_is_cased then lower c else upper c)
             (title_from (is_cased c) r)
  end.

Definition title (s : string) : string := title_from false s.

End Str.

(** ** Number formatting: [f"{x:.1f}"] and [f"{x:+.1f}"] *)

Module Format.

(** Tenths of [m * 2^e], rounded to the nearest, ties to even. *)
Definition tenths (m : positive) (e : Z) : Z :=
  match e with
  | Z.neg p => Py.round_half_even_div (Z.pos m * 10) (2 ^ Z.pos p)
  | _ => Z.pos m * 10 * 2 ^ e
  end.

Definition sign_text (plus negative : bool) : string :=
  if negative then "-" else if plus then "+" else "".

Definition float_f1 (plus : bool) (f : Py.float) : string :=
  match f with
  | S754_nan => sign_text plus false +:+ "nan"
  | S754_infinity s => sign_text plus s +:+ "inf"
  | S754_zero s => sign_text plus s +:+ "0.0"
  | S754_finite s m e =>
      let n := tenths m e in
      sign_text plus s +:+ pretty (n / 10) +:+ "." +:+ pretty (n mod 10)
  end.

(** The format code [f] on a number: an int is converted to float first. *)
Definition f1 (plus : bool) (x : number) : result string :=
  f ← Py.to_float x; Ok (float_f1 plus f).

(** [f"{v:.1f}"] on any value: a str has no format code [f] (ValueError),
    None, lists and dicts take no format string (TypeError). *)
Definition value_f1 (v : json) : result string :=
  match v with
  | JNum n => f1 false n
  | JBool b => f1 false (PInt (if b then 1 else 0))
  | JStr _ => Raise Py.ValueError
  | _ => Raise Py.TypeError
  end.

End Format.

(** ** The script's constants and its classifier *)

Definition CNN_API_URL : string :=
  "https://production.dataviz.cnn.io/index/fearandgreed/graphdata".

Definition RATING_COLORS : gmap string string :=
  <["Extreme Fear" := "#d32f2f"]>
  (<["Fear" := "#f57c00"]>
  (<["Neutral" := "#fdd835"]>
  (<["Greed" := "#7cb342"]>
  (<["Extreme Greed" := "#2e7d32"]> ∅)))).

(** [{"range": [lo, hi], "color": c}] *)
Definition GAUGE_STEPS : list (Z * Z * string) :=
  [ (0, 25, "#d32f2f");
    (25, 45, "#f57c00");
    (45, 55, "#fdd835");
    (55, 75, "#7cb342");
    (75, 100, "#2e7d32") ].

Definition _rating_label (score : number) : string :=
  if Py.leb score (PInt 25) then "Extreme Fear"
  else if Py.leb score (PInt 45) then "Fear"
  else if Py.leb score (PInt 55) then "Neutral"
  else if Py.leb score (PInt 75) then "Greed"
  else "Extreme Greed".

(** [_rating_label(v)] on a value that need not be a number: the first
    comparison raises TypeError on None, a str, a list or a dict. *)
Definition rating_label_of (v : json) : result string :=
  score ← Value.as_number v; Ok (_rating_label score).

Definition INDICATOR_INFO : gmap string string :=
  <["Market Momentum" := "S&P 500 vs its 125-day moving average."]>
  (<["Stock Price Strength" := "Net new 52-week highs vs lows on the NYSE."]>
  (<["Stock Price Breadth" := "Volume of advancing vs declining shares."]>
  (<["Put and Call Options" := "Put/call ratio — high put volume signals fear."]>
  (<["Market Volatility" := "VIX level relative to its 50-day moving average."]>
  (<["Safe Haven Demand" := "Bond returns vs stock returns over 20 days."]>
  (<["Junk Bond Demand" :=
       "Yield spread between junk bonds and investment-grade bonds."]> ∅)))))).

Definition INDICATOR_KEYS : list (string * string) :=
  [ ("market_momentum_sp500", "Market Momentum");
    ("stock_price_strength", "Stock Price Strength");
    ("stock_price_breadth", "Stock Price Breadth");
    ("put_call_options", "Put and Call Options");
    ("market_volatility_vix", "Market Volatility");
    ("safe_haven_demand", "Safe Haven Demand");
    ("junk_bond_demand", "Junk Bond Demand") ].

(** [k in d] and [d.get(k, dflt)] on the two colour/description dicts. *)
Definition dict_in (k : string) (d : gmap string string) : bool :=
  bool_decide (is_Some (d !! k)).

Definition dict_get (d : gmap string string) (k dflt : string) : string :=
  default dflt (d !! k).

(** The rating shown for a label and a score (lines 178-180 for the
    index, 245-247 for an indicator):
    [r = rating.replace("_", " ").title()], and
    [_rating_label(score)] instead when [r not in RATING_COLORS]. *)
Definition normalise_rating (rating score : json) : result string :=
  label ← Value.as_str rating;
  let display := Str.title (Str.replace_underscores label) in
  if negb (dict_in display RATING_COLORS)
  then rating_label_of score
  else Ok display.

(** ** Figures and page elements *)

(** [datetime64[ns]]: nanoseconds since the epoch, [None] for NaT. *)
Definition datetime64 : Type := option Z.

(** [go.Indicator]: the number shown, the axis range, the coloured
    steps and the threshold marker. *)
Record gauge := {
  gauge_title : string;
  gauge_value : number;
  gauge_axis : Z * Z;
  gauge_steps : list (Z * Z * string);
  gauge_threshold : number;
}.

(** One point of the history trace: [df["date"]], [df["score"]]; a row
    of the frame without [y] has no score. *)
Definition point : Type := datetime64 * option json.

(** A [pd.DataFrame] as the script uses it: the labels of its columns
    that are strings, and its rows, each holding its cells by label; a
    missing cell (NaN) is absent from its row. *)
Record frame := {
  frame_columns : list string;
  frame_rows : list (gmap string json);
}.

(** [go.Scatter] trace with the five [add_hrect] bands. *)
Record history_chart := {
  trace : list point;
  hrects : list (Z * Z * string);
  yaxis_range : Z * Z;
}.

(** Where an element is drawn: the page itself or a column of a
    [st.columns] row. *)
Inductive container :=
| Page
| ColGauge
| ColInfo
| RowCol (i : nat).

Inductive widget :=
| Title (text : string)
| Caption (text : string)
| StError (text : string)
| StWarning (text : string)
| StInfo (text : string)
| Markdown (text : string)
| Heading (color text : string)
| Metric (label value delta : string)
| Gauge (fig : gauge)
| History (fig : history_chart)
| Divider
| Subheader (text : string)
| Card (label score color rating description : string).

Definition element : Type := container * widget.

(** Is the element a message to the user ([st.error], [st.warning],
    [st.info])? *)
Definition is_message (e : element) : bool :=
  match e.2 with
  | StError _ | StWarning _ | StInfo _ => true
  | _ => false
  end.

(** ** The outside world *)

(** What the script takes from pandas and datetime. *)
Record externals := {
  (** [pd.to_datetime(column, unit="ms")]; a missing cell is [None] *)
  to_datetime : list (option json) -> result (list datetime64);
  (** [pd.DataFrame(hist)] for a value that is not a list of objects *)
  other_frame : json -> result frame;
  (** [fromtimestamp(ms / 1000, tz=utc).strftime("%b %d, %Y %H:%M UTC")] *)
  utc_strftime : number -> result string;
}.

(** The answer to one [requests.get]. *)
Inductive http_outcome :=
| Unreachable (cause : string)        (* no response: DNS, refused, timeout *)
| Response (status_code : Z) (reason : string) (body : string + json).
                                      (* [inl msg]: the body is not JSON *)

Record env := {
  ext : externals;
  (** the clock of the cache, in seconds *)
  now : Z;
  (** the answer to the n-th request ever sent *)
  internet : nat -> http_outcome;
}.

Record cache_entry := {
  cached_value : json;
  cached_elements : list element;   (* replayed on a hit *)
  cached_at : Z;
}.

Record world := {
  screen : list element;
  cache : option cache_entry;
  requests_sent : nat;
}.

Definition fresh_world : world :=
  {| screen := []; cache := None; requests_sent := 0 |}.

(** The world with more elements on the page. *)
Definition drawn (w : world) (out : list element) : world :=
  {| screen := screen w ++ out;
     cache := cache w;
     requests_sent := requests_sent w |}.

(** ** The script monad *)

Inductive status (A : Type) :=
| Done (a : A)
| Stopped                 (* [st.stop()] *)
| Crashed (e : exn).      (* uncaught exception *)
Arguments Done {A} a.
Arguments Stopped {A}.
Arguments Crashed {A} e.

Definition script (A : Type) : Type := env -> world -> status A * world.

#[global] Instance script_ret : MRet script := fun A a _ w => (Done a, w).
#[global] Instance script_bind : MBind script := fun A B k m e w =>
  match m e w with
  | (Done a, w') => k a e w'
  | (Stopped, w') => (Stopped, w')
  | (Crashed x, w') => (Crashed x, w')
  end.

Module St.

(** Evaluate an expression; an exception ends the run. *)
Definition eval {A} (r : result A) : script A := fun _ w =>
  match r with
  | Ok a => (Done a, w)
  | Raise x => (Crashed x, w)
  end.

Definition draw (c : container) (x : widget) : script () := fun _ w =>
  (Done (),
   {| screen := screen w ++ [(c, x)];
      cache := cache w;
      requests_sent := requests_sent w |}).

Definition stop : script () := fun _ w => (Stopped, w).

(** [try: body  except Exception as exc: handler(exc)];
    [st.stop()] is not an [Exception] and passes through. *)
Definition try_except {A} (body : script A) (handler : exn -> script A)
  : script A := fun e w =>
  match body e w with
  | (Crashed x, w') => handler x e w'
  | r => r
  end.

End St.

(** What a script draws and how it ends, started on an empty page. *)
Definition page {A} (m : script A) (e : env) : list element :=
  screen (m e fresh_world).2.

Definition outcome {A} (m : script A) (e : env) : status A :=
  (m e fresh_world).1.

(** A script that only draws: its result and its elements do not depend
    on the world, and it leaves the cache and the request count alone. *)
Class Drawing {A} (m : script A) : Prop :=
  drawing : forall e w, m e w = (outcome m e, drawn w (page m e)).

(** ** Fetching, behind [st.cache_data(ttl=300)] *)

Module Requests.

(** [requests.get(url, headers=..., timeout=10)]: one request, answered by
    the environment; no response at all raises. *)
Definition get (url : string) : script (Z * string * (string + json)) :=
  fun e w =>
  let w' := {| screen := screen w;
               cache := cache w;
               requests_sent := S (requests_sent w) |} in
  match internet e (requests_sent w) with
  | Unreachable cause => (Crashed (Py.LibraryError cause), w')
  | Response code reason body => (Done (code, reason, body), w')
  end.

(** The text of the HTTPError of [raise_for_status]. *)
Definition http_error_text (code : Z) (reason url : string) : string :=
  pretty code +:+ (if code <? 500 then " Client Error: " else " Server Error: ")
  +:+ reason +:+ " for url: " +:+ url.

(** [resp.raise_for_status()]: raises on 4xx and 5xx. *)
Definition raise_for_status (url : string) (code : Z) (reason : string)
  : script () :=
  if (400 <=? code) && (code <? 600)
  then St.eval (Raise (Py.LibraryError (http_error_text code reason url)))
  else mret ().

(** [resp.json()] *)
Definition json_of (body : string + json) : script json :=
  match body with
  | inl msg => St.eval (Raise (Py.LibraryError msg))
  | inr j => mret j
  end.

End Requests.

(** [str(exc)] *)
Definition exn_text (x : exn) : string :=
  match x with
  | Py.LibraryError msg => msg
  | _ => ""
  end.

(** The decorator [st.cache_data(ttl=...)] on a function without
    arguments: one slot.  A hit (the entry is younger than [ttl]) returns
    the stored value and replays the elements the function drew; a miss
    runs the function and stores what it returned, whatever it is. *)
Definition cache_data (ttl : Z) (f : script json) : script json := fun e w =>
  let miss :=
    match f e {| screen := []; cache := cache w;
                 requests_sent := requests_sent w |} with
    | (Done v, w') =>
        (Done v,
         {| screen := screen w ++ screen w';
            cache := Some {| cached_value := v;
                             cached_elements := screen w';
                             cached_at := now e |};
            requests_sent := requests_sent w' |})
    | (r, w') =>
        (r, {| screen := screen w ++ screen w';
               cache := cache w';
               requests_sent := requests_sent w' |})
    end in
  match cache w with
  | Some c =>
      if now e <? cached_at c + ttl
      then (Done (cached_value c),
            {| screen := screen w ++ cached_elements c;
               cache := cache w;
               requests_sent := requests_sent w |})
      else miss
  | None => miss
  end.

(** The URL of the request: the endpoint and the start date. *)
Definition request_url (start_date : string) : string :=
  CNN_API_URL +:+ "/" +:+ start_date.

(** The body of [fetch_fear_greed_data]; [start_date] is the ISO date of
    today minus 365 days.  [None] is [JNull]. *)
Definition fetch_body (start_date : string) : script json :=
  let url := request_url start_date in
  St.try_except
    ('(code, reason, body) ← Requests.get url;
     Requests.raise_for_status url code reason;;
     Requests.json_of body)
    (fun exc =>
       St.draw Page (StError ("Failed to fetch data from CNN: " +:+ exn_text exc));;
       mret JNull).

Definition fetch_fear_greed_data (start_date : string) : script json :=
  cache_data 300 (fetch_body start_date).

(** ** The two figures *)

Definition build_gauge (score : number) (title : string) : gauge :=
  {| gauge_title := title;
     gauge_value := score;
     gauge_axis := (0, 100);
     gauge_steps := GAUGE_STEPS;
     gauge_threshold := score |}.

(** ** numpy's indirect sort *)

(** [ndarray.argsort(kind="quicksort")], numpy's [aquicksort_]: an
    introsort.  The array of indices is sorted by the values the indices
    point to; here each index travels with its value, as an element [a]
    with its [key a], and a segment [pl..pr] of the array is the list of
    its elements. *)
Module Numpy.
Section Argsort.

Context {A : Type} (key : A -> Z).

(** [Tag::less(v[a], v[b])] *)
Definition less (a b : A) : bool := key a <? key b.

Definition SMALL_QUICKSORT : nat := 16.

(** [npy_get_msb]: the position of the highest bit set. *)
Definition npy_get_msb (num : nat) : Z := Z.log2 (Z.of_nat num).

(** *** Insertion sort *)

(** [while (pj > pl && less(vp, v[*pk])) *pj-- = *pk--; *pj = vi]: the
    element [vi] goes left past the elements greater than it.  The part
    of the segment before [pi], already in order, is given from [pi - 1]
    down to [pl]. *)
Fixpoint shift_in (vi : A) (before : list A) : list A :=
  match before with
  | [] => [vi]
  | k :: before' =>
      if less vi k then k :: shift_in vi before' else vi :: k :: before'
  end.

(** [for (pi = pl + 1; pi <= pr; ++pi)] *)
Definition insertion (seg : list A) : list A :=
  rev (foldl (fun before vi => shift_in vi before) [] seg).

(** *** The partition *)

(** The longest prefix on which [f] holds, and the rest. *)
Fixpoint span (f : A -> bool) (l : list A) : list A * list A :=
  match l with
  | [] => ([], [])
  | a :: l' =>
      if f a then let '(p, r) := span f l' in (a :: p, r) else ([], l)
  end.

(** The scan of the elements between [pi] and [pj]:
    [do ++pi; while (less(v[*pi], vp))] passes the elements less than the
    pivot and stops at the first that is not, [a];
    [do --pj; while (less(vp, v[*pj]))] passes the elements greater than
    the pivot and stops at the last that is not, [b]; when [a] comes
    before [b] the two are swapped and the scan goes on between them.
    Returns the elements as the scan leaves them and the place where [pi]
    stops, counted from the first of them; [pi] stops on the element
    after the last when all are less than the pivot. *)
Fixpoint scan (fuel : nat) (vp : Z) (mid : list A) : list A * nat :=
  match fuel with
  | O => (mid, length mid)
  | S fuel =>
      match span (fun a => key a <? vp) mid with
      | (lo, []) => (mid, length mid)
      | (lo, a :: rest) =>
          match span (fun b => vp <? key b) (rev rest) with
          | (hi, []) => (mid, length lo)
          | (hi, b :: inner) =>
              let '(inner', pi) := scan fuel vp (rev inner) in
              (lo ++ b :: inner' ++ a :: rev hi, (length lo + 1 + pi)%nat)
          end
      end
  end.

(** [if (less(v[*b], v[*a])) INTP_SWAP]: the two change places when the
    second is less than the first. *)
Definition in_order (a b : A) : A * A :=
  if less b a then (b, a) else (a, b).

(** One pass of [while ((pr - pl) > SMALL_QUICKSORT)] on a segment: the
    median of the first, the middle and the last element becomes the
    pivot and changes places with the element before the last; the scan
    runs between the first element and the pivot; the pivot then changes
    places with the element [pi] stopped on.  Returns what is left of
    [pi], the pivot, and what is right of it.  (For a segment of more
    than three elements.) *)
Definition partition (seg : list A) : option (list A * A * list A) :=
  let pm := ((length seg - 1) / 2)%nat in
  match seg, drop pm seg, rev (drop (S pm) seg) with
  | l :: after_l, m :: _, r :: before_r :: back =>
      let front := take (pm - 1) after_l in
      let back := rev back in
      let '(l, m) := in_order l m in
      let '(m, r) := in_order m r in
      let '(l, m) := in_order l m in
      let '(mid, pi) := scan (length seg) (key m) (front ++ before_r :: back) in
      match drop pi mid with
      | [] => Some (l :: mid, m, [r])
      | a :: above => Some (l :: take pi mid, m, above ++ [a; r])
      end
  | _, _, _ => None
  end.

(** *** Heapsort *)

(** [a[i]], the array counted from one; [tmp] stands in out of range. *)
Definition at1 (tmp : A) (a : list A) (i : nat) : A :=
  default tmp (a !! (i - 1)%nat).

(** [a[i] = x] *)
Definition set1 (a : list A) (i : nat) (x : A) : list A :=
  <[(i - 1)%nat := x]> a.

(** [for (i = l, j = l << 1; j <= n;) { ... } a[i] = tmp;]: [tmp] sinks
    from [i] below the greater of the children. *)
Fixpoint sift (fuel : nat) (tmp : A) (n i j : nat) (a : list A) : list A :=
  match fuel with
  | O => set1 a i tmp
  | S fuel =>
      if (n <? j)%nat then set1 a i tmp else
      let j := if (j <? n)%nat && less (at1 tmp a j) (at1 tmp a (j + 1))
               then (j + 1)%nat else j in
      if less tmp (at1 tmp a j)
      then sift fuel tmp n j (j + j)%nat (set1 a i (at1 tmp a j))
      else set1 a i tmp
  end.

(** [for (l = n >> 1; l > 0; --l) { tmp = a[l]; ... }] *)
Fixpoint heapify (l n : nat) (a : list A) : list A :=
  match l with
  | O => a
  | S l' =>
      match a !! l' with
      | Some tmp => heapify l' n (sift n tmp n l (l + l)%nat a)
      | None => a
      end
  end.

(** [for (; n > 1;) { tmp = a[n]; a[n] = a[1]; n -= 1; ... }] *)
Fixpoint extract (n : nat) (a : list A) : list A :=
  match n with
  | S (S _ as n') =>
      match a !! n', a !! 0%nat with
      | Some tmp, Some top =>
          extract n' (sift n' tmp n' 1 2 (set1 a n top))
      | _, _ => a
      end
  | _ => a
  end.

Definition aheapsort (seg : list A) : list A :=
  let n := length seg in
  extract n (heapify (n / 2) n seg).

(** *** The introsort *)

(** The work on the segment [pl..pr] with the depth left [cdepth]: while
    the segment has more than 17 elements it is partitioned, the larger
    part is pushed on the stack with the depth, one less, and the work
    goes on with the smaller part; a part taken from the stack is sorted
    by heapsort when its depth is negative; a segment of at most 17
    elements is sorted by insertion. *)
Fixpoint aquicksort_from (fuel : nat) (cdepth : Z) (seg : list A) : list A :=
  match fuel with
  | O => seg
  | S fuel =>
      match (if (SMALL_QUICKSORT <? length seg - 1)%nat
             then partition seg else None) with
      | Some (below, p, above) =>
          let cdepth := cdepth - 1 in
          let popped part :=
            if cdepth <? 0 then aheapsort part
            else aquicksort_from fuel cdepth part in
          if (length below <? length above)%nat
          then aquicksort_from fuel cdepth below ++ p :: popped above
          else popped below ++ p :: aquicksort_from fuel cdepth above
      | None => insertion seg
      end
  end.

Definition aquicksort (seg : list A) : list A :=
  aquicksort_from (S (length seg)) (npy_get_msb (length seg) * 2) seg.

End Argsort.
End Numpy.

(** ** pandas and the history chart *)

Module Pandas.

(** The rows of a list of objects, one per object. *)
Definition records (l : list json) : option (list (gmap string json)) :=
  mapM (fun j => match j with JObj m => Some m | _ => None end) l.

(** [pd.DataFrame(hist)].  A list of objects gives one row per object,
    in the order of the list, and a column for every key of an object; a
    row without the key has a missing cell.  The frame of any other value
    is the library's. *)
Definition DataFrame (x : externals) (hist : json) : result frame :=
  match hist with
  | JArr l =>
      match records l with
      | Some rs =>
          Ok {| frame_columns :=
                  concat (map (fun r => map fst (map_to_list r)) rs);
                frame_rows := rs |}
      | None => other_frame x hist
      end
  | _ => other_frame x hist
  end.

(** [df[name]]: KeyError when the frame has no such column. *)
Definition column (df : frame) (name : string)
  : result (list (option json)) :=
  if bool_decide (name ∈ frame_columns df)
  then Ok (map (fun r => r !! name) (frame_rows df))
  else Raise Py.KeyError.

(** Has the row a date, or [NaT]? *)
Definition dated (p : point) : bool :=
  match p.1 with Some _ => true | None => false end.

(** The date of a row that has one, in nanoseconds. *)
Definition date_ns (p : point) : Z := default 0 p.1.

(** [df.sort_values("date")]: ascending, [NaT] last.  pandas' [nargsort]
    sorts the rows that have a date with numpy's [argsort] of the default
    kind, quicksort, and puts the rows without date after them, in the
    order of the frame. *)
Definition sort_values (df : list point) : list point :=
  Numpy.aquicksort date_ns (List.filter dated df)
  ++ List.filter (fun p => negb (dated p)) df.

End Pandas.

(** Lines 97-106: the frame of the history points, one row per point in
    the order of the payload, with its [date] (converted from [x]) and its
    [score].  Assigning a column of another length than the frame raises.
    [df.rename(columns={"y": "score"})] gives the column [y] the label
    [score]; a frame without [y] is left as it is, and its own [score],
    when it has one, is what is plotted; a frame with both ends up with
    two columns [score], which [go.Scatter] refuses. *)
Definition history_frame (x : externals) (hist : json) : result (list point) :=
  df ← Pandas.DataFrame x hist;
  xs ← Pandas.column df "x";
  date ← to_datetime x xs;
  if negb (length date =? length (frame_rows df))%nat
  then Raise Py.ValueError else
  score ← (if bool_decide ("y" ∈ frame_columns df)
           then if bool_decide ("score" ∈ frame_columns df)
                then Raise Py.ValueError
                else Pandas.column df "y"
           else Pandas.column df "score");
  Ok (zip date score).

Definition build_history_chart (x : externals) (data : json)
  : result (option history_chart) :=
  h ← Value.get data "fear_and_greed_historical" (JObj ∅);
  hist ← Value.get h "data" JNull;
  if negb (Value.truth hist) then Ok None else
  df ← history_frame x hist;
  Ok (Some {| trace := Pandas.sort_values df;
              hrects := [ (0, 25, "#d32f2f"); (25, 45, "#f57c00");
                          (45, 55, "#fdd835"); (55, 75, "#7cb342");
                          (75, 100, "#2e7d32") ];
              yaxis_range := (0, 100) |}).

(** ** The page *)

Definition sentiment_table : string :=
  "| Range | Sentiment |
|-------|-----------|
| 0–25 | Extreme Fear |
| 25–45 | Fear |
| 45–55 | Neutral |
| 55–75 | Greed |
| 75–100 | Extreme Greed |".

(** What lines 171-187 compute from the payload. *)
Record current := {
  current_score : number;
  rating_display : string;
  color : string;
  previous_close : json;
  last_updated : string;
}.

Definition read_current (x : externals) (data : json) : result current :=
  fg ← Value.get data "fear_and_greed" (JObj ∅);
  score ← Value.get fg "score" (JNum (PInt 0));
  (* the default of the next [get] is evaluated whether or not it is used *)
  label ← rating_label_of score;
  current_rating ← Value.get fg "rating" (JStr label);
  previous_close ← Value.get fg "previous_close" score;
  timestamp_ms ← Value.get fg "timestamp" JNull;
  rating_display ← normalise_rating current_rating score;
  current_score ← Value.as_number score;
  last_updated ←
    (if Value.truth timestamp_ms
     then ms ← Value.as_number timestamp_ms; utc_strftime x ms
     else Ok "");
  Ok {| current_score := current_score;
        rating_display := rating_display;
        color := dict_get RATING_COLORS rating_display "#666";
        previous_close := previous_close;
        last_updated := last_updated |}.

(** [round(current_score - previous_close, 1)] *)
Definition delta_of (c : current) : result number :=
  pc ← Value.as_number (previous_close c);
  d ← Py.sub (current_score c) pc;
  Ok (Py.round1 d).

Definition top_row (c : current) : script () :=
  St.draw ColGauge (Gauge (build_gauge (current_score c) "Current Index"));;
  St.draw ColInfo (Markdown "### Sentiment");;
  St.draw ColInfo (Heading (color c) (rating_display c));;
  delta ← St.eval (delta_of c);
  value_text ← St.eval (Format.f1 false (current_score c));
  delta_text ← St.eval (Format.f1 true delta);
  St.draw ColInfo (Metric "Score" value_text (delta_text +:+ " vs prev close"));;
  (if negb (String.eqb (last_updated c) "")
   then St.draw ColInfo (Caption ("Last updated: " +:+ last_updated c))
   else mret ());;
  St.draw ColInfo (Markdown sentiment_table).

Definition history_section (x : externals) (data : json) : script () :=
  St.draw Page Divider;;
  hist_fig ← St.eval (build_history_chart x data);
  match hist_fig with
  | Some fig => St.draw Page (History fig)
  | None => St.draw Page (StInfo "Historical data is not available right now.")
  end.

Definition cols_per_row : nat := 2.

(** The body of the loop over [INDICATOR_KEYS] for one [(key, label)]:
    [None] where it says [continue], the card it draws otherwise. *)
Definition indicator_card (data : json) (key label : string)
  : result (option widget) :=
  indicator ← Value.get data key (JObj ∅);
  if negb (Value.truth indicator) then Ok None else
  score ← Value.get indicator "score" JNull;
  rating ← Value.get indicator "rating" (JStr "");
  if Value.is_none score then Ok None else
  ind_rating ← normalise_rating rating score;
  let ind_color := dict_get RATING_COLORS ind_rating "#666" in
  score_text ← Format.value_f1 score;
  Ok (Some (Card label score_text ind_color ind_rating
                 (dict_get INDICATOR_INFO label ""))).

(** The loop, from the key list and the [col_idx] it has reached;
    [col_idx] moves on only when a card is drawn. *)
Fixpoint indicator_loop (keys : list (string * string)) (col_idx : nat)
  (data : json) : script () :=
  match keys with
  | [] => mret ()
  | (key, label) :: rest =>
      card ← St.eval (indicator_card data key label);
      match card with
      | None => indicator_loop rest col_idx data
      | Some c =>
          St.draw (RowCol (col_idx mod cols_per_row)) c;;
          indicator_loop rest (S col_idx) data
      end
  end.

Definition indicator_section (data : json) : script () :=
  St.draw Page Divider;;
  St.draw Page (Subheader "Component Indicators");;
  indicator_loop INDICATOR_KEYS 0 data.

Definition footer : script () :=
  St.draw Page Divider;;
  St.draw Page (Caption
    "Data sourced from [CNN Fear & Greed Index](https://www.cnn.com/markets/fear-and-greed). This dashboard is for informational purposes only and does not constitute financial advice.").

(** From the top row to the footer. *)
Definition sections (x : externals) (data : json) (c : current) : script () :=
  top_row c;;
  history_section x data;;
  indicator_section data;;
  footer.

(** Everything after the fetch, for a payload that is not [None]. *)
Definition dashboard (data : json) : script () := fun e =>
  (c ← St.eval (read_current (ext e) data); sections (ext e) data c) e.

(** One run of the script. *)
Definition main (start_date : string) : script () :=
  St.draw Page (Title "📊 CNN Fear & Greed Index Dashboard");;
  St.draw Page
    (Caption "Real-time market sentiment powered by CNN's Fear & Greed Index");;
  data ← fetch_fear_greed_data start_date;
  (if Value.is_none data
   then St.draw Page
          (StWarning "Unable to load Fear & Greed data. Please try again later.");;
        St.stop
   else mret ());;
  dashboard data.

(** The page a run leaves, and how the run ended. *)
Definition run (e : env) (w : world) (start_date : string)
  : status () * world :=
  main start_date e {| screen := []; cache := cache w;
                       requests_sent := requests_sent w |}.

(** ** The vocabulary of the statements *)

(** *** The fetch *)

(** What an answer means to the fetch: the text of the exception it
    raises, or the payload. *)
Definition reading_of (url : string) (o : http_outcome) : string + json :=
  match o with
  | Unreachable cause => inl cause
  | Response code reason body =>
      if (400 <=? code) && (code <? 600)
      then inl (Requests.http_error_text code reason url)
      else body
  end.

Definition fetch_error (text : string) : element :=
  (Page, StError ("Failed to fetch data from CNN: " +:+ text)).

(** What the fetch returns and draws for an answer. *)
Definition fetched (url : string) (o : http_outcome) : json * list element :=
  match reading_of url o with
  | inl text => (JNull, [fetch_error text])
  | inr j => (j, [])
  end.

(** The three ways an answer fails: no response, an error status, a body
    that is not JSON; each with the text of its exception. *)
Inductive failed (url : string) : http_outcome -> string -> Prop :=
| transport_failure cause :
    failed url (Unreachable cause) cause
| error_status code reason body :
    400 <= code < 600 ->
    failed url (Response code reason body)
           (Requests.http_error_text code reason url)
| parse_failure code reason msg :
    ~ 400 <= code < 600 ->
    failed url (Response code reason (inl msg)) msg.

(** No entry of the cache is fresh at time [t]. *)
Definition stale (w : world) (t : Z) : Prop :=
  forall c, cache w = Some c -> cached_at c + 300 <= t.

Definition title_element : element :=
  (Page, Title "📊 CNN Fear & Greed Index Dashboard").

Definition caption_element : element :=
  (Page, Caption "Real-time market sentiment powered by CNN's Fear & Greed Index").

Definition unable_warning : element :=
  (Page, StWarning "Unable to load Fear & Greed data. Please try again later.").

(** *** The reading *)

(** The object read as [fear_and_greed] ([{}] when the key is absent). *)
Definition fear_and_greed (m : gmap string json) : json :=
  default (JObj ∅) (m !! "fear_and_greed").

(** The conditions on the other fields of the reading under which lines
    171-187 raise nothing: a rating that is absent or a string, and a
    timestamp that is falsy or that datetime accepts. *)
Definition rating_ok (fg : gmap string json) : Prop :=
  fg !! "rating" = None \/ exists label, fg !! "rating" = Some (JStr label).


(** *** The history and the cards *)

Definition history_unavailable : element :=
  (Page, StInfo "Historical data is not available right now.").

(** The element is not the last-updated caption of the top row. *)
Definition other_than_last_updated (el : element) : bool :=
  match el with
  | (ColInfo, Caption _) => false
  | _ => true
  end.

(** The key is present with an object that has a non-null score. *)
Definition has_score (m : gmap string json) (key : string) : bool :=
  match m !! key with
  | Some (JObj ind) =>
      match ind !! "score" with
      | Some score => negb (Value.is_none score)
      | None => false
      end
  | _ => false
  end.

(** An indicator value the loop body gets through: a falsy value, or an
    object whose score is absent or null, or is a number that [.1f]
    can format, next to a rating that is absent or a string. *)
Definition indicator_ok (indicator : json) : Prop :=
  Value.truth indicator = false \/
  exists ind, indicator = JObj ind /\
    (Value.is_none (default JNull (ind !! "score")) = true \/
     exists n f label,
       Value.as_number (default JNull (ind !! "score")) = Ok n /\
       Py.to_float n = Ok f /\
       default (JStr "") (ind !! "rating") = JStr label).

(** The column and the label of a card. *)
Definition slot (e : element) : container * string :=
  (e.1, match e.2 with Card label _ _ _ _ => label | _ => "" end).

Definition is_card (e : element) : Prop :=
  match e with
  | (RowCol _, Card _ _ _ _ _) => True
  | _ => False
  end.

(** The slots the listed indicators take, from column index [col_idx]
    on: one after the other, two per row. *)
Definition slots_from (col_idx : nat) (shown : list (string * string))
  : list (container * string) :=
  imap (fun i kl => (RowCol ((col_idx + i) mod cols_per_row), kl.2)) shown.

(** The widgets of a page, without their places. *)
Definition widgets (out : list element) : list widget := map snd out.

(** The widget is not the card labelled [label]. *)
Definition other_than_card (label : string) (wd : widget) : bool :=
  match wd with
  | Card l _ _ _ _ => negb (String.eqb l label)
  | _ => true
  end.

(** ** Order of the history rows *)

(** Ascending dates, NaT last ([na_position="last"]). *)
Definition date_leb (a b : datetime64) : bool :=
  match a, b with
  | Some x, Some y => x <=? y
  | _, None => true
  | None, Some _ => false
  end.

Definition date_le (a b : datetime64) : Prop := date_leb a b = true.

Definition by_date (p q : point) : Prop := date_leb p.1 q.1 = true.

Definition before (p q : point) : Prop :=
  date_leb p.1 q.1 = true /\ p.1 <> q.1.

(** What [sort_values] does for the script: the rows come back rearranged
    and ascending by date.  This says nothing of the order of rows of
    equal date (the default sort kind is not stable). *)
Definition sorts_by_date (sort : list point -> list point) : Prop :=
  forall rows, Permutation rows (sort rows) /\ Sorted by_date (sort rows).

(** ** A sample environment *)

Module Sample.

(** Epoch milliseconds to nanoseconds, inside the int64 range of
    [datetime64[ns]]; a missing or null cell is NaT. *)
Definition to_datetime_cell (c : option json) : result datetime64 :=
  match c with
  | None | Some JNull => Ok None
  | Some (JNum (PInt ms)) =>
      let ns := ms * 1000000 in
      if (- 2 ^ 63 <? ns) && (ns <? 2 ^ 63) then Ok (Some ns)
      else Raise (Py.LibraryError "OutOfBoundsDatetime")
  | Some _ => Raise (Py.LibraryError "to_datetime")
  end.

(** A number, a string, a boolean or [null]. *)
Definition scalar (j : json) : bool :=
  match j with
  | JArr _ | JObj _ => false
  | _ => true
  end.

(** The frame of an object of lists of one length, a column each. *)
Definition by_columns (m : gmap string json) : option frame :=
  cols ← mapM (fun kv => match kv.2 with
                         | JArr l => Some (kv.1, l)
                         | _ => None
                         end) (map_to_list m);
  match cols with
  | [] => None
  | (_, l) :: _ =>
      if forallb (fun kl => (length kl.2 =? length l)%nat) cols
      then Some {| frame_columns := map fst cols;
                   frame_rows :=
                     map (fun i =>
                            list_to_map
                              (omap (fun kl => pair kl.1 <$> kl.2 !! i) cols))
                         (seq 0 (length l)) |}
      else None
  end.

(** What the sample knows of [pd.DataFrame] beyond the lists of objects:
    an object of lists of one length is a frame by columns; a list of
    numbers, strings, booleans and nulls is a frame of one column,
    labelled 0; a string, a number or a boolean is refused.  Other values
    are taken to be refused too. *)
Definition frame_of (hist : json) : result frame :=
  match hist with
  | JObj m =>
      match by_columns m with
      | Some df => Ok df
      | None => Raise Py.ValueError
      end
  | JArr l =>
      if forallb scalar l
      then Ok {| frame_columns := []; frame_rows := map (fun _ => ∅) l |}
      else Raise (Py.LibraryError "DataFrame")
  | _ => Raise Py.ValueError
  end.

Definition libraries : externals :=
  {| other_frame := frame_of;
     to_datetime := mapM to_datetime_cell;
     utc_strftime := fun ms =>
       match ms with
       | PInt z => Ok ("epoch ms " +:+ pretty z)
       | PFloat _ => Raise (Py.LibraryError "fromtimestamp")
       end |}.

Definition env (t : Z) (net : nat -> http_outcome) : env :=
  {| ext := libraries; now := t; internet := net |}.

Definition obj (l : list (string * json)) : json := JObj (list_to_map l).

Definition indicator (score : number) (rating : string) : json :=
  obj [("score", JNum score); ("rating", JStr rating)].

(** The history of the sample payload, as its frame and as its rows. *)
Definition history_points : list json :=
  [ obj [("x", JNum (PInt 3000)); ("y", JNum (PInt 40))];
    obj [("x", JNum (PInt 1000)); ("y", JNum (PInt 60))];
    obj [("x", JNum (PInt 2000)); ("y", JNum (PInt 50))] ].

Definition history_rows : list point :=
  [ (Some 3000000000, Some (JNum (PInt 40)));
    (Some 1000000000, Some (JNum (PInt 60)));
    (Some 2000000000, Some (JNum (PInt 50))) ].

(** A payload of the documented shape. *)
Definition payload_fields : gmap string json :=
  list_to_map
      [ ("fear_and_greed",
         obj [("score", JNum (Py.dec 723 1)); ("rating", JStr "greed");
              ("previous_close", JNum (Py.dec 701 1));
              ("timestamp", JNum (PInt 1700000000000))]);
        ("fear_and_greed_historical",
         obj [("data", JArr history_points)]);
        ("market_momentum_sp500", indicator (Py.dec 8014 2) "extreme greed");
        ("stock_price_strength", indicator (PInt 61) "greed");
        ("stock_price_breadth", indicator (PInt 50) "neutral");
        ("put_call_options", indicator (Py.dec 305 1) "fear");
        ("market_volatility_vix", indicator (PInt 50) "neutral");
        ("safe_haven_demand", indicator (PInt 12) "extreme_fear");
        ("junk_bond_demand", indicator (PInt 70) "greed") ].

Definition payload : json := JObj payload_fields.

Definition without (key : string) (data : json) : json :=
  match data with
  | JObj m => JObj (delete key m)
  | _ => data
  end.

(** A payload whose score is too large for a binary64: it is read as
    [inf]. *)
Definition overflowing : json :=
  obj [("fear_and_greed", obj [("score", JNum (PFloat (S754_infinity false)))])].

(** A payload whose label and score disagree. *)
Definition mislabelled : json :=
  obj [("fear_and_greed",
        obj [("score", JNum (PInt 10)); ("rating", JStr "greed")])].

(** The sample payload without history, last indicator and timestamp. *)
Definition degraded : json :=
  JObj (<["fear_and_greed" :=
            obj [("score", JNum (Py.dec 723 1)); ("rating", JStr "greed");
                 ("previous_close", JNum (Py.dec 701 1))]]>
          (delete "junk_bond_demand"
             (delete "fear_and_greed_historical" payload_fields))).

(** A history in ascending order of time whose ninth and tenth points
    have the same time: the points, the payload, and the rows of the
    frame. *)
Definition tied_times : list (Z * Z) :=
  [ (1000, 1); (2000, 2); (3000, 3); (4000, 4); (5000, 5); (6000, 6);
    (7000, 7); (8000, 8); (9000, 9); (9000, 10); (10000, 11); (11000, 12);
    (12000, 13); (13000, 14); (14000, 15); (15000, 16); (16000, 17);
    (17000, 18) ].

Definition tied_points : list json :=
  map (fun xy => obj [("x", JNum (PInt xy.1)); ("y", JNum (PInt xy.2))])
      tied_times.

Definition tied : json :=
  obj [("fear_and_greed_historical", obj [("data", JArr tied_points)])].

Definition tied_rows : list point :=
  map (fun xy => (Some (xy.1 * 1000000), Some (JNum (PInt xy.2)))) tied_times.

(** A payload of a reading and nothing else but the fields given, and
    the one with [null] for its history. *)
Definition reading_and (more : list (string * json)) : json :=
  obj (("fear_and_greed", obj [("score", JNum (PInt 50))]) :: more).

Definition null_history : json :=
  reading_and [("fear_and_greed_historical", JNull)].

Definition online (data : json) : nat -> http_outcome :=
  fun _ => Response 200 "OK" (inr data).

Definition offline : nat -> http_outcome :=
  fun _ => Unreachable "Connection refused".

End Sample.

(** ** The specification's vocabulary *)

Module Spec.

Inductive SentimentBand :=
| ExtremeFear
| Fear
| Neutral
| Greed
| ExtremeGreed.

Definition band_name (b : SentimentBand) : string :=
  match b with
  | ExtremeFear => "Extreme Fear"
  | Fear => "Fear"
  | Neutral => "Neutral"
  | Greed => "Greed"
  | ExtremeGreed => "Extreme Greed"
  end.

Definition bands : list SentimentBand :=
  [ExtremeFear; Fear; Neutral; Greed; ExtremeGreed].

(** The score ranges of section 4.1, with Python's [<=] and [<]. *)
Definition in_band (s : number) (b : SentimentBand) : Prop :=
  match b with
  | ExtremeFear => Py.leb s (PInt 25) = true
  | Fear => Py.ltb (PInt 25) s = true /\ Py.leb s (PInt 45) = true
  | Neutral => Py.ltb (PInt 45) s = true /\ Py.leb s (PInt 55) = true
  | Greed => Py.ltb (PInt 55) s = true /\ Py.leb s (PInt 75) = true
  | ExtremeGreed => Py.ltb (PInt 75) s = true
  end.

(** The same ranges on the real line. *)
Definition in_range (q : Q) (b : SentimentBand) : Prop :=
  match b with
  | ExtremeFear => (q <= 25)%Q
  | Fear => (25 < q)%Q /\ (q <= 45)%Q
  | Neutral => (45 < q)%Q /\ (q <= 55)%Q
  | Greed => (55 < q)%Q /\ (q <= 75)%Q
  | ExtremeGreed => (75 < q)%Q
  end.

(** [classify]: the ordered list of (upper bound, band) pairs, first
    match wins, the last band otherwise. *)
Definition upper_bounds : list (Z * SentimentBand) :=
  [(25, ExtremeFear); (45, Fear); (55, Neutral); (75, Greed)].

Definition classify (s : number) : SentimentBand :=
  match find (fun ub => Py.leb s (PInt ub.1)) upper_bounds with
  | Some ub => ub.2
  | None => ExtremeGreed
  end.

(** Look a name up against the five canonical band names. *)
Definition band_of_name (name : string) : option SentimentBand :=
  find (fun b => String.eqb (band_name b) name) bands.

(** The normalization rule: underscores to spaces, title case, look up,
    and the classifier when the lookup fails. *)
Definition display_band (label : string) (score : number) : SentimentBand :=
  match band_of_name (Str.title (Str.replace_underscores label)) with
  | Some b => b
  | None => classify score
  end.

End Spec.

(** ** Further vocabulary *)

(** *** Shapes of a value *)

(** An [int], a [float] or a [bool]: what arithmetic and the comparisons
    with a number accept. *)
Definition is_number (v : json) : bool :=
  match v with
  | JNum _ | JBool _ => true
  | _ => false
  end.

Definition is_object (v : json) : bool :=
  match v with
  | JObj _ => true
  | _ => false
  end.

Definition is_string (v : json) : bool :=
  match v with
  | JStr _ => true
  | _ => false
  end.

(** *** Labels *)

(** The five labels from the most fearful to the greediest: the order of
    the keys of [RATING_COLORS] and of the table on the page. *)
Definition ratings : list string :=
  ["Extreme Fear"; "Fear"; "Neutral"; "Greed"; "Extreme Greed"].

(** The place of a label in that order. *)
Definition rank (label : string) : option nat :=
  fst <$> list_find (fun l => l = label) ratings.

(** [s.lower()] on the ASCII letters. *)
Fixpoint lowercase (s : string) : string :=
  match s with
  | EmptyString => EmptyString
  | String c r => String (Str.lower c) (lowercase r)
  end.

(** A label without its case and with spaces for its underscores. *)
Definition label_key (label : string) : string :=
  lowercase (Str.replace_underscores label).

(** *** Runs *)

(** The cache holds an entry younger than 300 seconds at time [t]. *)
Definition fresh (w : world) (t : Z) : bool :=
  match cache w with
  | Some c => t <? cached_at c + 300
  | None => false
  end.

(** Runs of the script one after the other at the given times, each
    from the world the run before it left: what each run returned. *)
Fixpoint session (x : externals) (net : nat -> http_outcome)
  (start_date : string) (times : list Z) (w : world)
  : list (status () * world) :=
  match times with
  | [] => []
  | t :: rest =>
      let r := run {| ext := x; now := t; internet := net |} w start_date in
      r :: session x net start_date rest r.2
  end.

(** The top row, as far as line 200: the gauge, the heading of the panel
    and the rating. *)
Definition top_row_head (c : current) : list element :=
  [ (ColGauge, Gauge (build_gauge (current_score c) "Current Index"));
    (ColInfo, Markdown "### Sentiment");
    (ColInfo, Heading (color c) (rating_display c)) ].

(** A script that does not look at its environment: neither at the
    clock, nor at the network, nor at pandas and datetime. *)
Class Closed {A} (m : script A) : Prop :=
  closed : forall e e' w, m e w = m e' w.

(** ** The start date of the request (line 50) *)

(** [datetime.date] and the parts of it the script uses, as the datetime
    module computes them: the ordinal of a day of the proleptic Gregorian
    calendar (1 for 0001-01-01) and back, the subtraction of a number of
    days, and [isoformat]. *)
Module Datetime.

Record date := { year : Z; month : Z; day : Z }.

Definition _DAYS_IN_MONTH : list Z :=
  [-1; 31; 28; 31; 30; 31; 30; 31; 31; 30; 31; 30; 31].

Definition _DAYS_BEFORE_MONTH : list Z :=
  [-1; 0; 31; 59; 90; 120; 151; 181; 212; 243; 273; 304; 334].

Definition _is_leap (y : Z) : bool :=
  (y mod 4 =? 0) && (negb (y mod 100 =? 0) || (y mod 400 =? 0)).

Definition _days_in_month (leap : bool) (m : Z) : Z :=
  if (m =? 2) && leap then 29 else nth (Z.to_nat m) _DAYS_IN_MONTH 0.

Definition _days_before_month (leap : bool) (m : Z) : Z :=
  nth (Z.to_nat m) _DAYS_BEFORE_MONTH 0 + (if (2 <? m) && leap then 1 else 0).

Definition _days_before_year (y : Z) : Z :=
  let y := y - 1 in y * 365 + y / 4 - y / 100 + y / 400.

Definition valid (d : date) : bool :=
  (1 <=? year d) && (year d <=? 9999) && (1 <=? month d) && (month d <=? 12)
  && (1 <=? day d) && (day d <=? _days_in_month (_is_leap (year d)) (month d)).

Definition toordinal (d : date) : Z :=
  _days_before_year (year d) + _days_before_month (_is_leap (year d)) (month d)
  + day d.

Definition _ord2md (leapyear : bool) (n : Z) : Z * Z :=
  let m := Z.shiftr (n + 50) 5 in
  let preceding := _days_before_month leapyear m in
  if n <? preceding
  then (m - 1, n - (preceding - _days_in_month leapyear (m - 1)) + 1)
  else (m, n - preceding + 1).

Definition fromordinal (n : Z) : date :=
  let n := n - 1 in
  let n400 := n / 146097 in
  let n := n mod 146097 in
  let n100 := n / 36524 in
  let n := n mod 36524 in
  let n4 := n / 1461 in
  let n := n mod 1461 in
  let n1 := n / 365 in
  let n := n mod 365 in
  let y := n400 * 400 + 1 + n100 * 100 + n4 * 4 + n1 in
  if (n1 =? 4) || (n100 =? 4) then {| year := y - 1; month := 12; day := 31 |}
  else
    let leapyear := (n1 =? 3) && (negb (n4 =? 24) || (n100 =? 3)) in
    let md := _ord2md leapyear n in
    {| year := y; month := md.1; day := md.2 |}.

Definition _MAXORDINAL : Z := 3652059.

(** [d - datetime.timedelta(days=n)] *)
Definition sub_days (d : date) (n : Z) : result date :=
  let o := toordinal d - n in
  if (0 <? o) && (o <=? _MAXORDINAL) then Ok (fromordinal o)
  else Raise Py.OverflowError.

Fixpoint zeros (k : nat) : string :=
  match k with
  | O => ""
  | S k => String "0"%char (zeros k)
  end.

(** [%0<width>d] of a number that is not negative. *)
Definition zfill (width : nat) (n : Z) : string :=
  let s := pretty n in zeros (width - String.length s) +:+ s.

(** ["%04d-%02d-%02d" % (year, month, day)] *)
Definition isoformat (d : date) : string :=
  zfill 4 (year d) +:+ "-" +:+ zfill 2 (month d) +:+ "-" +:+ zfill 2 (day d).

End Datetime.

(** [(datetime.date.today() - datetime.timedelta(days=365)).isoformat()] *)
Definition start_date (today : Datetime.date) : result string :=
  d ← Datetime.sub_days today 365; Ok (Datetime.isoformat d).

(** [fetch_fear_greed_data] from its first line on: the start date is
    computed inside the cached function, before the [try]. *)
Definition fetch_today (today : Datetime.date) : script json :=
  cache_data 300 (start ← St.eval (start_date today); fetch_body start).

(** *** Days of the calendar *)

Definition year_days (y : Z) : Z := if Datetime._is_leap y then 366 else 365.

(** The day after a date. *)
Definition tomorrow (d : Datetime.date) : Datetime.date :=
  if Datetime.day d
     <? Datetime._days_in_month (Datetime._is_leap (Datetime.year d))
          (Datetime.month d)
  then {| Datetime.year := Datetime.year d;
          Datetime.month := Datetime.month d;
          Datetime.day := Datetime.day d + 1 |}
  else if Datetime.month d <? 12
       then {| Datetime.year := Datetime.year d;
               Datetime.month := Datetime.month d + 1;
               Datetime.day := 1 |}
       else {| Datetime.year := Datetime.year d + 1;
               Datetime.month := 1;
               Datetime.day := 1 |}.

(** The same day of the year before, or the day after it when a
    29 February lies between the two; 1 March for a 29 February. *)
Definition a_year_back (today : Datetime.date) : Datetime.date :=
  let y := Datetime.year today in
  let m := Datetime.month today in
  let same_day := {| Datetime.year := y - 1; Datetime.month := m;
                     Datetime.day := Datetime.day today |} in
  if (m =? 2) && (Datetime.day today =? 29)
  then {| Datetime.year := y - 1; Datetime.month := 3; Datetime.day := 1 |}
  else if (if 2 <? m then Datetime._is_leap y else Datetime._is_leap (y - 1))
       then tomorrow same_day
       else same_day.

(** [f] holds for [fuel] numbers in a row from [n] on. *)
Fixpoint all_from (fuel : nat) (n : Z) (f : Z -> bool) : bool :=
  match fuel with
  | O => true
  | S k => f n && all_from k (n + 1) f
  end.

(** A day of a month is the day of the year [_ord2md] finds it back
    from. *)
Definition check_month_day (leap : bool) (m d : Z) : bool :=
  implb ((1 <=? d) && (d <=? Datetime._days_in_month leap m))
    (let k := Datetime._days_before_month leap m + d - 1 in
     (0 <=? k) && (k <? (if leap then 366 else 365))
     && ((Datetime._ord2md leap k).1 =? m)
     && ((Datetime._ord2md leap k).2 =? d)).

(** ** A view for the proofs about the sort *)

(** The order of the keys. *)
Definition key_le {A} (key : A -> Z) (a b : A) : Prop := key a <= key b.

(** The children of the place [p] in the heap are the places [2p] and
    [2p + 1]. *)
Definition child (p c : nat) : Prop := c = (2 * p)%nat \/ c = (2 * p + 1)%nat.

(** From the place [lo] on, no element of [a[1..n]] is less than its
    children. *)
Definition heap_from {A} (key : A -> Z) (lo n : nat) (a : list A) : Prop :=
  forall p c x y,
    (lo <= p)%nat -> child p c -> (c <= n)%nat ->
    a !! (c - 1)%nat = Some x -> a !! (p - 1)%nat = Some y ->
    key x <= key y.

(** The heap with [tmp] on its way down at the place [i]. *)
Definition sinking {A} (key : A -> Z) (lo n i : nat) (tmp : A) (a : list A)
  : Prop :=
  (forall p c x y,
     (lo <= p)%nat -> child p c -> (c <= n)%nat -> p <> i -> c <> i ->
     a !! (c - 1)%nat = Some x -> a !! (p - 1)%nat = Some y ->
     key x <= key y)
  /\ (forall p y,
        (lo <= p)%nat -> child p i -> a !! (p - 1)%nat = Some y ->
        key tmp <= key y /\
        forall c x,
          child i c -> (c <= n)%nat -> a !! (c - 1)%nat = Some x ->
          key x <= key y).

(** ** A view for the proofs about comparisons *)

(** Against every int, a number behaves as a fraction [a / d], as an
    infinity, or as a NaN. *)
Inductive int_view (s : number) : Prop :=
| view_ratio a d :
    0 < d -> (forall k, Py.compare s (PInt k) = Some (a ?= k * d)) -> int_view s
| view_below : (forall k, Py.compare s (PInt k) = Some Lt) -> int_view s
| view_above : (forall k, Py.compare s (PInt k) = Some Gt) -> int_view s
| view_nan : Py.is_nan s = true -> (forall k, Py.compare s (PInt k) = None) -> int_view s.

(** * Properties *)

(** ** Comparisons of a number with an int *)

Section Comparison.

Implicit Types (s : number) (k : Z).

Lemma int_view_total s : int_view s.
Proof.
  destruct s as [z | [sg | [] | | sg m [ | p | p]]].
  - apply (view_ratio _ z 1); [lia | intros k; now replace (k * 1) with k by lia].
  - apply (view_ratio _ 0 1); [lia | intros k; now replace (k * 1) with k by lia].
  - apply view_below; reflexivity.
  - apply view_above; reflexivity.
  - apply view_nan; reflexivity.
  - apply (view_ratio _ (cond_Zopp sg (Z.pos m) * 2 ^ 0) 1);
      [lia | intros k; now replace (k * 1) with k by lia].
  - apply (view_ratio _ (cond_Zopp sg (Z.pos m) * 2 ^ Z.pos p) 1);
      [lia | intros k; now replace (k * 1) with k by lia].
  - apply (view_ratio _ (cond_Zopp sg (Z.pos m)) (2 ^ Z.pos p));
      [apply Z.pow_pos_nonneg; lia | reflexivity].
Qed.

Lemma compare_flip s k :
  Py.compare (PInt k) s = CompOpp <$> Py.compare s (PInt k).
Proof.
  destruct s as [z | f]; simpl; [ | reflexivity].
  f_equal. apply Z.compare_antisym.
Qed.

Lemma leb_view s k :
  Py.leb s (PInt k) =
  match Py.compare s (PInt k) with Some Gt | None => false | _ => true end.
Proof. unfold Py.leb. destruct (Py.compare s (PInt k)) as [[] | ]; reflexivity. Qed.

Lemma ltb_view s k :
  Py.ltb (PInt k) s =
  match Py.compare s (PInt k) with Some Gt => true | _ => false end.
Proof.
  unfold Py.ltb. rewrite compare_flip.
  destruct (Py.compare s (PInt k)) as [[] | ]; reflexivity.
Qed.

Lemma ltb_view_l s k :
  Py.ltb s (PInt k) =
  match Py.compare s (PInt k) with Some Lt => true | _ => false end.
Proof. reflexivity. Qed.

(** [k < s] excludes [s <= k], and one of them holds unless [s] is a NaN. *)
Lemma ltb_not_leb s k : Py.ltb (PInt k) s = true -> Py.leb s (PInt k) = false.
Proof.
  rewrite ltb_view, leb_view.
  destruct (Py.compare s (PInt k)) as [[] | ]; congruence.
Qed.

Lemma leb_or_ltb s k :
  Py.is_nan s = false ->
  Py.leb s (PInt k) = true \/ Py.ltb (PInt k) s = true.
Proof.
  intros Hnan. rewrite ltb_view, leb_view.
  destruct (int_view_total s) as [a d Hd H | H | H | Hn H]; try rewrite H; auto.
  - destruct (a ?= k * d); auto.
  - congruence.
Qed.

Lemma leb_false_ltb s k :
  Py.is_nan s = false -> Py.leb s (PInt k) = false -> Py.ltb (PInt k) s = true.
Proof. intros Hnan Hle. destruct (leb_or_ltb s k Hnan); congruence. Qed.

(** [s <= k1] and [k1 <= k2] give [s <= k2]. *)
Lemma leb_mono s k1 k2 :
  k1 <= k2 -> Py.leb s (PInt k1) = true -> Py.leb s (PInt k2) = true.
Proof.
  intros Hk. rewrite !leb_view.
  destruct (int_view_total s) as [a d Hd H | H | H | Hn H]; rewrite !H; auto.
  destruct (Z.compare_spec a (k1 * d)), (Z.compare_spec a (k2 * d));
    auto; intros _; nia.
Qed.

Lemma ltb_mono s k1 k2 :
  k1 <= k2 -> Py.ltb (PInt k2) s = true -> Py.ltb (PInt k1) s = true.
Proof.
  intros Hk. rewrite !ltb_view.
  destruct (int_view_total s) as [a d Hd H | H | H | Hn H]; rewrite !H; auto.
  destruct (Z.compare_spec a (k1 * d)), (Z.compare_spec a (k2 * d));
    auto; intros _; nia.
Qed.

(** [s < k1 <= k2] gives [s <= k2]. *)
Lemma ltb_leb_mono s k1 k2 :
  k1 <= k2 -> Py.ltb s (PInt k1) = true -> Py.leb s (PInt k2) = true.
Proof.
  intros Hk. rewrite ltb_view_l, leb_view.
  destruct (int_view_total s) as [a d Hd H | H | H | Hn H]; rewrite !H; auto.
  destruct (Z.compare_spec a (k1 * d)), (Z.compare_spec a (k2 * d));
    auto; intros; try discriminate; nia.
Qed.

(** The comparison with an int is the comparison of the real values. *)
Lemma compare_value s q k :
  Py.value s = Some q ->
  Py.compare s (PInt k) = Some (q ?= inject_Z k)%Q.
Proof.
  unfold Qcompare.
  destruct s as [z | [sg | sg | | sg m [ | p | p]]]; try discriminate;
    intros [= <-]; simpl Py.compare; simpl Qnum; simpl Qden;
    rewrite ?Z.mul_1_r; try reflexivity.
  now rewrite Pos2Z.inj_pow.
Qed.

Lemma leb_value s q k :
  Py.value s = Some q ->
  Py.leb s (PInt k) = true <-> (q <= inject_Z k)%Q.
Proof.
  intros Hq. rewrite leb_view, (compare_value s q k Hq), Qle_alt.
  destruct (q ?= inject_Z k)%Q; split; congruence.
Qed.

Lemma ltb_value s q k :
  Py.value s = Some q ->
  Py.ltb (PInt k) s = true <-> (inject_Z k < q)%Q.
Proof.
  intros Hq. rewrite ltb_view, (compare_value s q k Hq).
  change (inject_Z k < q)%Q with (q > inject_Z k)%Q. rewrite Qgt_alt.
  destruct (q ?= inject_Z k)%Q; split; congruence.
Qed.

End Comparison.

(** ** The classifier *)

Lemma band_name_inj b b' : Spec.band_name b = Spec.band_name b' -> b = b'.
Proof. destruct b, b'; simpl; congruence. Qed.

Lemma rating_label_classify s :
  _rating_label s = Spec.band_name (Spec.classify s).
Proof.
  unfold _rating_label, Spec.classify, Spec.upper_bounds. simpl.
  repeat (destruct (Py.leb s _); [reflexivity | ]). reflexivity.
Qed.

Lemma in_band_label s b :
  Spec.in_band s b -> _rating_label s = Spec.band_name b.
Proof.
  unfold _rating_label.
  pose proof (leb_mono s 25 45 ltac:(lia)) as H25.
  pose proof (leb_mono s 45 55 ltac:(lia)) as H45.
  pose proof (leb_mono s 55 75 ltac:(lia)) as H55.
  destruct b; simpl.
  - intros ->. reflexivity.
  - intros [Hlt ->]. apply ltb_not_leb in Hlt. rewrite Hlt. reflexivity.
  - intros [Hlt ->]. apply ltb_not_leb in Hlt.
    destruct (Py.leb s (PInt 25)); [rewrite H25 in Hlt; congruence | ].
    rewrite Hlt. reflexivity.
  - intros [Hlt ->]. apply ltb_not_leb in Hlt.
    destruct (Py.leb s (PInt 45)); [rewrite H45 in Hlt; congruence | ].
    destruct (Py.leb s (PInt 25)); [discriminate H25; reflexivity | ].
    rewrite Hlt. reflexivity.
  - intros Hlt. apply ltb_not_leb in Hlt.
    destruct (Py.leb s (PInt 55)); [rewrite H55 in Hlt; congruence | ].
    destruct (Py.leb s (PInt 45)); [discriminate H45; reflexivity | ].
    destruct (Py.leb s (PInt 25)); [discriminate H25; reflexivity | ].
    rewrite Hlt. reflexivity.
Qed.

Lemma some_band s : Py.is_nan s = false -> exists b, Spec.in_band s b.
Proof.
  intros Hnan.
  destruct (Py.leb s (PInt 25)) eqn:H25; [exists Spec.ExtremeFear; exact H25 | ].
  apply (leb_false_ltb _ _ Hnan) in H25.
  destruct (Py.leb s (PInt 45)) eqn:H45; [exists Spec.Fear; split; assumption | ].
  apply (leb_false_ltb _ _ Hnan) in H45.
  destruct (Py.leb s (PInt 55)) eqn:H55; [exists Spec.Neutral; split; assumption | ].
  apply (leb_false_ltb _ _ Hnan) in H55.
  destruct (Py.leb s (PInt 75)) eqn:H75; [exists Spec.Greed; split; assumption | ].
  apply (leb_false_ltb _ _ Hnan) in H75.
  exists Spec.ExtremeGreed. exact H75.
Qed.

(** The ranges of the comparisons are the ranges of the real line. *)
Lemma in_band_range s q b :
  Py.value s = Some q -> Spec.in_band s b <-> Spec.in_range q b.
Proof.
  intros Hq. destruct b; simpl;
    rewrite ?(leb_value s q _ Hq), ?(ltb_value s q _ Hq); reflexivity.
Qed.

(** C1. [_rating_label] is a total function into the five band names; a
    score in one of the ranges [s <= 25], [25 < s <= 45], [45 < s <= 55],
    [55 < s <= 75], [75 < s] gets the band of that range, whether the
    range is read with Python's comparisons or on the real value of a
    finite score; every score but a NaN is in exactly one range; scores
    below 0 and above 100 get the outermost bands; and the four boundary
    examples come out as stated. *)
Theorem rating_label_partition (s : number) :
  (exists b, _rating_label s = Spec.band_name b)
  /\ (forall b, Spec.in_band s b -> _rating_label s = Spec.band_name b)
  /\ (forall q b, Py.value s = Some q -> Spec.in_range q b ->
                  _rating_label s = Spec.band_name b)
  /\ (Py.is_nan s = false -> exists b, Spec.in_band s b)
  /\ (forall b b', Spec.in_band s b -> Spec.in_band s b' -> b = b')
  /\ (Py.ltb s (PInt 0) = true -> _rating_label s = "Extreme Fear")
  /\ (Py.ltb (PInt 100) s = true -> _rating_label s = "Extreme Greed")
  /\ _rating_label (Py.dec 250 1) = "Extreme Fear"
  /\ _rating_label (Py.dec 2501 2) = "Fear"
  /\ _rating_label (Py.dec 750 1) = "Greed"
  /\ _rating_label (Py.dec 7501 2) = "Extreme Greed".
Proof.
  split; [exists (Spec.classify s); apply rating_label_classify | ].
  split; [apply in_band_label | ].
  split.
  { intros q b Hq Hrange. apply in_band_label.
    now apply (in_band_range s q b Hq). }
  split; [apply some_band | ].
  split.
  { intros b b' Hb Hb'. apply band_name_inj.
    rewrite <- (in_band_label s b Hb). apply in_band_label, Hb'. }
  split.
  { intros H0. apply (in_band_label s Spec.ExtremeFear).
    apply (ltb_leb_mono s 0 25); [lia | exact H0]. }
  split.
  { intros H100. apply (in_band_label s Spec.ExtremeGreed).
    apply (ltb_mono s 75 100); [lia | exact H100]. }
  repeat split; vm_compute; reflexivity.
Qed.

(** A NaN score compares false with every bound and falls through to
    the last band. *)
Lemma rating_label_nan : _rating_label (PFloat S754_nan) = "Extreme Greed".
Proof. reflexivity. Qed.

Lemma rating_label_infinities :
  _rating_label (PFloat (S754_infinity true)) = "Extreme Fear" /\
  _rating_label (PFloat (S754_infinity false)) = "Extreme Greed".
Proof. split; reflexivity. Qed.

(** ** Scripts that only draw *)

Lemma drawn_nil w : drawn w [] = w.
Proof. destruct w. unfold drawn. simpl. now rewrite app_nil_r. Qed.

Lemma drawn_app w a b : drawn (drawn w a) b = drawn w (a ++ b).
Proof. unfold drawn. simpl. now rewrite app_assoc. Qed.

Lemma drawing_intro {A} (m : script A) :
  (forall e, exists r out, forall w, m e w = (r, drawn w out)) -> Drawing m.
Proof.
  intros H e w. destruct (H e) as (r & out & Hm).
  unfold outcome, page. now rewrite !Hm.
Qed.

Lemma done_bind {A B} (m : script A) (k : A -> script B) e w a w' :
  m e w = (Done a, w') -> (m ≫= k) e w = k a e w'.
Proof. intros H. unfold mbind, script_bind. now rewrite H. Qed.

Lemma stopped_bind {A B} (m : script A) (k : A -> script B) e w w' :
  m e w = (Stopped, w') -> (m ≫= k) e w = (Stopped, w').
Proof. intros H. unfold mbind, script_bind. now rewrite H. Qed.

Lemma crashed_bind {A B} (m : script A) (k : A -> script B) e w x w' :
  m e w = (Crashed x, w') -> (m ≫= k) e w = (Crashed x, w').
Proof. intros H. unfold mbind, script_bind. now rewrite H. Qed.

(** A run of [m ≫= k] that ends well went through [m] and [k]. *)
Lemma bind_done {A B} (m : script A) (k : A -> script B) e w b w' :
  (m ≫= k) e w = (Done b, w') ->
  exists a w1, m e w = (Done a, w1) /\ k a e w1 = (Done b, w').
Proof.
  unfold mbind, script_bind. destruct (m e w) as [[a | | x] w1]; intros H.
  - exists a, w1. split; [reflexivity | exact H].
  - discriminate.
  - discriminate.
Qed.

#[global] Instance ret_drawing {A} (a : A) : Drawing (mret a : script A).
Proof.
  apply drawing_intro. intros e. exists (Done a), []. intros w.
  now rewrite drawn_nil.
Qed.

#[global] Instance eval_drawing {A} (r : result A) : Drawing (St.eval r).
Proof.
  apply drawing_intro. intros e. destruct r as [a | x].
  - exists (Done a), []. intros w. now rewrite drawn_nil.
  - exists (Crashed x), []. intros w. now rewrite drawn_nil.
Qed.

#[global] Instance draw_drawing c x : Drawing (St.draw c x).
Proof.
  apply drawing_intro. intros e. exists (Done ()), [(c, x)]. reflexivity.
Qed.

#[global] Instance stop_drawing : Drawing St.stop.
Proof.
  apply drawing_intro. intros e. exists Stopped, []. intros w.
  unfold St.stop. now rewrite drawn_nil.
Qed.

#[global] Instance bind_drawing {A B} (m : script A) (k : A -> script B) :
  Drawing m -> (forall a, Drawing (k a)) -> Drawing (m ≫= k).
Proof.
  intros Hm Hk. apply drawing_intro. intros e.
  destruct (outcome m e) as [a | | x] eqn:Hr.
  - exists (outcome (k a) e), (page m e ++ page (k a) e). intros w.
    rewrite (done_bind m k e w a (drawn w (page m e))).
    + now rewrite (Hk a), drawn_app.
    + now rewrite Hm, Hr.
  - exists Stopped, (page m e). intros w.
    apply stopped_bind. now rewrite Hm, Hr.
  - exists (Crashed x), (page m e). intros w.
    apply crashed_bind. now rewrite Hm, Hr.
Qed.

#[global] Instance if_drawing {A} (b : bool) (m1 m2 : script A) :
  Drawing m1 -> Drawing m2 -> Drawing (if b then m1 else m2).
Proof. destruct b; auto. Qed.

#[global] Instance option_drawing {A B} (o : option A) (m1 : A -> script B)
  (m2 : script B) :
  (forall a, Drawing (m1 a)) -> Drawing m2 ->
  Drawing (match o with Some a => m1 a | None => m2 end).
Proof. destruct o; auto. Qed.

#[global] Instance indicator_loop_drawing keys col data :
  Drawing (indicator_loop keys col data).
Proof.
  revert col. induction keys as [ | [key label] rest IH]; intros col; simpl.
  - apply _.
  - apply bind_drawing; [apply _ | ]. intros [c | ]; [ | apply IH].
    apply bind_drawing; [apply _ | intros _; apply IH].
Qed.

#[global] Instance top_row_drawing c : Drawing (top_row c).
Proof. unfold top_row. apply _. Qed.

#[global] Instance history_section_drawing x data :
  Drawing (history_section x data).
Proof. unfold history_section. apply _. Qed.

#[global] Instance indicator_section_drawing data :
  Drawing (indicator_section data).
Proof. unfold indicator_section. apply _. Qed.

#[global] Instance footer_drawing : Drawing footer.
Proof. unfold footer. apply _. Qed.


Lemma page_bind {A B} (m : script A) (k : A -> script B) e :
  Drawing m -> (forall a, Drawing (k a)) ->
  page (m ≫= k) e =
  page m e ++ match outcome m e with Done a => page (k a) e | _ => [] end.
Proof.
  intros Hm Hk. unfold page at 1.
  pose proof (Hm e fresh_world) as Hrun.
  destruct (outcome m e) as [a | | x].
  - rewrite (done_bind _ _ _ _ _ _ Hrun), (Hk a). reflexivity.
  - rewrite (stopped_bind _ _ _ _ _ Hrun). simpl. now rewrite app_nil_r.
  - rewrite (crashed_bind _ _ _ _ _ _ Hrun). simpl. now rewrite app_nil_r.
Qed.

Lemma outcome_bind {A B} (m : script A) (k : A -> script B) e :
  Drawing m -> (forall a, Drawing (k a)) ->
  outcome (m ≫= k) e =
  match outcome m e with
  | Done a => outcome (k a) e
  | Stopped => Stopped
  | Crashed x => Crashed x
  end.
Proof.
  intros Hm Hk. unfold outcome at 1.
  pose proof (Hm e fresh_world) as Hrun.
  destruct (outcome m e) as [a | | x].
  - rewrite (done_bind _ _ _ _ _ _ Hrun), (Hk a). reflexivity.
  - now rewrite (stopped_bind _ _ _ _ _ Hrun).
  - now rewrite (crashed_bind _ _ _ _ _ _ Hrun).
Qed.

(** ** Normalising a rating label *)

Lemma band_of_name_Some name b :
  Spec.band_of_name name = Some b -> name = Spec.band_name b.
Proof.
  unfold Spec.band_of_name. intros H. apply find_some in H as [_ H].
  symmetry. now apply String.eqb_eq.
Qed.

Lemma band_of_name_name b : Spec.band_of_name (Spec.band_name b) = Some b.
Proof. destruct b; reflexivity. Qed.

(** [name in RATING_COLORS] is the lookup against the five band names. *)
Lemma rating_colors_bands name :
  dict_in name RATING_COLORS = bool_decide (is_Some (Spec.band_of_name name)).
Proof.
  destruct (Spec.band_of_name name) as [b | ] eqn:Hb.
  - apply band_of_name_Some in Hb as ->. destruct b; reflexivity.
  - unfold dict_in, RATING_COLORS.
    assert (forall b, Spec.band_name b <> name) as Hne.
    { intros b <-. rewrite band_of_name_name in Hb. discriminate. }
    rewrite !lookup_insert_ne, lookup_empty.
    + reflexivity.
    + apply (Hne Spec.ExtremeGreed).
    + apply (Hne Spec.Greed).
    + apply (Hne Spec.Neutral).
    + apply (Hne Spec.Fear).
    + apply (Hne Spec.ExtremeFear).
Qed.

Lemma title_band_name b :
  Str.title (Str.replace_underscores (Spec.band_name b)) = Spec.band_name b.
Proof. destruct b; reflexivity. Qed.

Lemma normalise_rating_display label v s :
  Value.as_number v = Ok s ->
  normalise_rating (JStr label) v =
  Ok (Spec.band_name (Spec.display_band label s)).
Proof.
  intros Hv. unfold normalise_rating, Spec.display_band. simpl.
  rewrite rating_colors_bands.
  destruct (Spec.band_of_name _) as [b | ] eqn:Hb; simpl.
  - now apply band_of_name_Some in Hb as ->.
  - unfold rating_label_of. rewrite Hv. simpl.
    now rewrite rating_label_classify.
Qed.

Lemma display_band_name b s : Spec.display_band (Spec.band_name b) s = b.
Proof.
  unfold Spec.display_band. now rewrite title_band_name, band_of_name_name.
Qed.

(** ** Reading the current index *)

Lemma bind_ok {A B} (m : result A) (k : A -> result B) b :
  m ≫= k = Ok b -> exists a, m = Ok a /\ k a = Ok b.
Proof. destruct m as [a | x]; [eauto | discriminate]. Qed.

Lemma get_ok d key dflt v :
  Value.get d key dflt = Ok v ->
  exists m, d = JObj m /\ v = default dflt (m !! key).
Proof. destruct d; try discriminate. intros [= <-]. eauto. Qed.

Ltac bind_inv H :=
  let a := fresh "a" in
  let Ha := fresh "Ha" in
  apply bind_ok in H as (a & Ha & H).

(** What [read_current] returned, field by field. *)
Lemma read_current_inv x data c :
  read_current x data = Ok c ->
  exists m fg,
    data = JObj m /\ fear_and_greed m = JObj fg /\
    let score := default (JNum (PInt 0)) (fg !! "score") in
    let timestamp_ms := default JNull (fg !! "timestamp") in
    Value.as_number score = Ok (current_score c) /\
    previous_close c = default score (fg !! "previous_close") /\
    normalise_rating
      (default (JStr (_rating_label (current_score c))) (fg !! "rating")) score
      = Ok (rating_display c) /\
    color c = dict_get RATING_COLORS (rating_display c) "#666" /\
    (if Value.truth timestamp_ms
     then exists ms, Value.as_number timestamp_ms = Ok ms /\
                     utc_strftime x ms = Ok (last_updated c)
     else last_updated c = "").
Proof.
  unfold read_current. intros H.
  bind_inv H. apply get_ok in Ha as (m & -> & ->).
  bind_inv H. apply get_ok in Ha as (fg & Hfg & ->).
  bind_inv H. unfold rating_label_of in Ha. bind_inv Ha.
  injection Ha as <-.
  bind_inv H. apply get_ok in Ha as (fg' & Hfg' & ->).
  bind_inv H. apply get_ok in Ha as (fg'' & Hfg'' & ->).
  bind_inv H. apply get_ok in Ha as (fg''' & Hfg''' & ->).
  rewrite Hfg in Hfg', Hfg'', Hfg'''.
  injection Hfg' as <-. injection Hfg'' as <-. injection Hfg''' as <-.
  bind_inv H. bind_inv H. bind_inv H. injection H as <-. simpl.
  exists m, fg. split; [reflexivity | ]. split; [exact Hfg | ].
  rewrite Ha0 in Ha1. injection Ha1 as <-.
  split; [exact Ha0 | ]. split; [reflexivity | ].
  split; [exact Ha | ]. split; [reflexivity | ].
  destruct (Value.truth _).
  - bind_inv Ha2. eauto.
  - now injection Ha2 as <-.
Qed.

Lemma indicator_card_inv data key label r :
  indicator_card data key label = Ok r ->
  exists m, data = JObj m /\
    let indicator := default (JObj ∅) (m !! key) in
    if negb (Value.truth indicator) then r = None else
    exists ind, indicator = JObj ind /\
      let score := default JNull (ind !! "score") in
      if Value.is_none score then r = None else
      exists ind_rating score_text,
        normalise_rating (default (JStr "") (ind !! "rating")) score
          = Ok ind_rating /\
        Format.value_f1 score = Ok score_text /\
        r = Some (Card label score_text
                       (dict_get RATING_COLORS ind_rating "#666") ind_rating
                       (dict_get INDICATOR_INFO label "")).
Proof.
  unfold indicator_card. intros H.
  bind_inv H. apply get_ok in Ha as (m & -> & ->).
  exists m. split; [reflexivity | ]. simpl.
  destruct (negb (Value.truth _)); [now injection H as <- | ].
  bind_inv H. apply get_ok in Ha as (ind & Hind & ->).
  bind_inv H. apply get_ok in Ha as (ind' & Hind' & ->).
  rewrite Hind in Hind'. injection Hind' as <-.
  exists ind. split; [exact Hind | ].
  destruct (Value.is_none _); [now injection H as <- | ].
  bind_inv H. bind_inv H. injection H as <-. eauto.
Qed.

(** C2. The rating shown for an external label and a score is the band
    of the normalization rule: underscores become spaces, the label is
    title-cased and looked up among the five band names, and the
    classifier decides when the lookup fails.  This holds where the script
    normalises a label, for the index (lines 178-180) and for an indicator
    card (lines 245-247).  A canonical name is returned unchanged and
    [extreme_fear] gives Extreme Fear. *)
Theorem rating_label_normalisation (label : string) (score : number) :
  normalise_rating (JStr label) (JNum score)
    = Ok (Spec.band_name (Spec.display_band label score))
  /\ (forall b, normalise_rating (JStr (Spec.band_name b)) (JNum score)
                = Ok (Spec.band_name b))
  /\ normalise_rating (JStr "extreme_fear") (JNum score) = Ok "Extreme Fear"
  /\ (forall x m fg c,
        fear_and_greed m = JObj fg ->
        fg !! "rating" = Some (JStr label) ->
        fg !! "score" = Some (JNum score) ->
        read_current x (JObj m) = Ok c ->
        rating_display c = Spec.band_name (Spec.display_band label score))
  /\ (forall m ind key lbl card,
        m !! key = Some (JObj ind) ->
        ind !! "rating" = Some (JStr label) ->
        ind !! "score" = Some (JNum score) ->
        indicator_card (JObj m) key lbl = Ok (Some card) ->
        exists text colour info,
          card = Card lbl text colour
                      (Spec.band_name (Spec.display_band label score)) info).
Proof.
  split; [now apply normalise_rating_display | ].
  split.
  { intros b. rewrite (normalise_rating_display _ (JNum score) score eq_refl).
    now rewrite display_band_name. }
  split; [now rewrite (normalise_rating_display _ (JNum score) score eq_refl) | ].
  split.
  - intros x m fg c Hfg Hrating Hscore Hc.
    apply read_current_inv in Hc as (m' & fg' & [= <-] & Hfg' & Hc).
    rewrite Hfg in Hfg'. injection Hfg' as <-.
    simpl in Hc. rewrite Hrating, Hscore in Hc. simpl in Hc.
    destruct Hc as (_ & _ & Hnorm & _).
    rewrite (normalise_rating_display _ (JNum score) score eq_refl) in Hnorm.
    now injection Hnorm as <-.
  - intros m ind key lbl card Hkey Hrating Hscore Hcard.
    apply indicator_card_inv in Hcard as (m' & [= <-] & Hcard).
    simpl in Hcard. rewrite Hkey in Hcard. simpl in Hcard.
    destruct (negb _); [discriminate | ].
    destruct Hcard as (ind' & [= <-] & Hcard).
    rewrite Hrating, Hscore in Hcard. simpl in Hcard.
    destruct Hcard as (ind_rating & text & Hnorm & _ & [= ->]).
    rewrite (normalise_rating_display _ (JNum score) score eq_refl) in Hnorm.
    injection Hnorm as <-. eauto.
Qed.

(** An unrecognised label falls back to the classifier. *)
Lemma unrecognised_label_falls_back :
  normalise_rating (JStr "bullish") (JNum (Py.dec 723 1)) = Ok "Greed".
Proof. vm_compute. reflexivity. Qed.

(** ** The band shown for the index *)

(** C3, as stated, fails: with score 10 and the label [greed] the page
    shows Greed, while the classifier gives Extreme Fear for 10. *)
Lemma external_label_overrides_classifier :
  exists c,
    read_current Sample.libraries Sample.mislabelled = Ok c /\
    current_score c = PInt 10 /\
    rating_display c = "Greed" /\
    _rating_label (current_score c) = "Extreme Fear".
Proof. eexists. split; [vm_compute; reflexivity | ]. repeat split. Qed.

(** C3, amended.  The band shown for the index is the classifier's
    output for the score when the payload supplies no rating, and also
    when the supplied label does not normalise to one of the five band
    names; a label that does is shown as it is, whatever the score. *)
Theorem shown_band x m fg c :
  read_current x (JObj m) = Ok c ->
  fear_and_greed m = JObj fg ->
  match fg !! "rating" with
  | None => rating_display c = _rating_label (current_score c)
  | Some rating =>
      exists label, rating = JStr label /\
        rating_display c =
        match Spec.band_of_name (Str.title (Str.replace_underscores label)) with
        | Some b => Spec.band_name b
        | None => _rating_label (current_score c)
        end
  end.
Proof.
  intros Hc Hfg.
  apply read_current_inv in Hc as (m' & fg' & [= <-] & Hfg' & Hc).
  rewrite Hfg in Hfg'. injection Hfg' as <-.
  simpl in Hc. destruct Hc as (Hscore & _ & Hnorm & _).
  destruct (fg !! "rating") as [rating | ]; simpl in Hnorm.
  - destruct rating as [ | | | label | | ]; try discriminate.
    exists label. split; [reflexivity | ].
    rewrite (normalise_rating_display _ _ _ Hscore) in Hnorm.
    injection Hnorm as <-. unfold Spec.display_band.
    destruct (Spec.band_of_name _); [reflexivity | ].
    symmetry. apply rating_label_classify.
  - rewrite (normalise_rating_display _ _ _ Hscore) in Hnorm.
    injection Hnorm as <-. rewrite rating_label_classify.
    now rewrite display_band_name.
Qed.

Lemma shown_band_witness :
  match read_current Sample.libraries Sample.mislabelled with
  | Ok c => rating_display c = "Greed"
  | Raise _ => False
  end.
Proof.
  destruct (read_current Sample.libraries Sample.mislabelled) as [c | x] eqn:Hc;
    [ | vm_compute in Hc; discriminate].
  destruct (shown_band Sample.libraries _
              (list_to_map [("score", JNum (PInt 10)); ("rating", JStr "greed")])
              c Hc eq_refl) as (label & Hlabel & Hshown).
  injection Hlabel as <-. exact Hshown.
Defined.

(** ** The fetch and its cache *)

Lemma failed_reading url o text :
  failed url o text <-> reading_of url o = inl text.
Proof.
  split.
  - intros [cause | code reason body Hc | code reason msg Hc]; simpl.
    + reflexivity.
    + destruct (Z.leb_spec 400 code), (Z.ltb_spec code 600);
        simpl; [reflexivity | lia ..].
    + destruct (Z.leb_spec 400 code), (Z.ltb_spec code 600);
        simpl; [lia | reflexivity ..].
  - destruct o as [cause | code reason body]; simpl.
    + intros [= <-]. constructor.
    + destruct (Z.leb_spec 400 code), (Z.ltb_spec code 600); simpl.
      * intros [= <-]. now constructor.
      * intros ->. constructor; lia.
      * intros ->. constructor; lia.
      * intros ->. constructor; lia.
Qed.

(** One run of the body: one request, never an exception; the answer
    decides between [None] with an error message and the payload. *)
Lemma fetch_body_run start_date e w :
  fetch_body start_date e w =
  let r := fetched (request_url start_date) (internet e (requests_sent w)) in
  (Done r.1,
   {| screen := screen w ++ r.2;
      cache := cache w;
      requests_sent := S (requests_sent w) |}).
Proof.
  unfold fetch_body, fetched, St.try_except, request_url.
  unfold mbind at 1, script_bind at 1, Requests.get.
  destruct (internet e (requests_sent w)) as [cause | code reason body]; simpl.
  - reflexivity.
  - unfold mbind, script_bind, Requests.raise_for_status.
    destruct ((400 <=? code) && (code <? 600)); simpl; [reflexivity | ].
    destruct body as [msg | j]; simpl; [reflexivity | ].
    now rewrite app_nil_r.
Qed.

(** A call that finds no fresh entry sends one request and stores what
    the body returned, with the time of the call. *)
Lemma fetch_miss start_date e w :
  stale w (now e) ->
  fetch_fear_greed_data start_date e w =
  let r := fetched (request_url start_date) (internet e (requests_sent w)) in
  (Done r.1,
   {| screen := screen w ++ r.2;
      cache := Some {| cached_value := r.1;
                       cached_elements := r.2;
                       cached_at := now e |};
      requests_sent := S (requests_sent w) |}).
Proof.
  intros Hstale. unfold fetch_fear_greed_data, cache_data.
  rewrite fetch_body_run. simpl.
  destruct (cache w) as [c | ] eqn:Hc; [ | reflexivity].
  destruct (Z.ltb_spec (now e) (cached_at c + 300)); [ | reflexivity].
  specialize (Hstale c Hc). lia.
Qed.

(** A call that finds a fresh entry returns its value, replays its
    elements, and touches neither the network nor the cache. *)
Lemma fetch_hit start_date e w c :
  cache w = Some c -> now e < cached_at c + 300 ->
  fetch_fear_greed_data start_date e w =
  (Done (cached_value c), drawn w (cached_elements c)).
Proof.
  intros Hc Hfresh. unfold fetch_fear_greed_data, cache_data, drawn. rewrite Hc.
  destruct (Z.ltb_spec (now e) (cached_at c + 300)); [reflexivity | lia].
Qed.

(** C4. The cache is one slot, whatever the arguments of the run.  After
    a call at [t1] that found no fresh entry, a call at [t2] inside the
    300 seconds returns the same data, and the two calls together sent one
    request; a call at or after [t1 + 300] sends a second request, returns
    and stores what that request gave, and returns [None], not the stale
    value, when it failed. *)
Theorem cache_ttl x net (start_date start_date' : string) w (t1 t2 : Z) :
  stale w t1 ->
  let e1 := {| ext := x; now := t1; internet := net |} in
  let e2 := {| ext := x; now := t2; internet := net |} in
  let first := fetch_fear_greed_data start_date e1 w in
  let second := fetch_fear_greed_data start_date' e2 first.2 in
  let reply := fetched (request_url start_date') (net (S (requests_sent w))) in
  requests_sent first.2 = S (requests_sent w)
  /\ (t2 < t1 + 300 ->
      second.1 = first.1
      /\ requests_sent second.2 = S (requests_sent w)
      /\ cache second.2 = cache first.2)
  /\ (t1 + 300 <= t2 ->
      requests_sent second.2 = S (S (requests_sent w))
      /\ second.1 = Done reply.1
      /\ cache second.2 = Some {| cached_value := reply.1;
                                  cached_elements := reply.2;
                                  cached_at := t2 |}
      /\ forall text,
           failed (request_url start_date') (net (S (requests_sent w))) text ->
           second.1 = Done JNull).
Proof.
  intros Hstale. cbv zeta.
  rewrite (fetch_miss start_date {| ext := x; now := t1; internet := net |} w Hstale).
  simpl.
  split; [reflexivity | ].
  split.
  - intros Hin. erewrite fetch_hit; [ | reflexivity | simpl; lia ]. auto.
  - intros Hout. rewrite fetch_miss.
    + simpl. split; [reflexivity | ]. split; [reflexivity | ].
      split; [reflexivity | ].
      intros text Hfail. apply failed_reading in Hfail.
      unfold fetched. now rewrite Hfail.
    + intros c. simpl. intros [= <-]. simpl. lia.
Qed.

Lemma cache_ttl_witness :
  (fetch_fear_greed_data "2025-01-01" (Sample.env 100 (Sample.online Sample.payload))
     (fetch_fear_greed_data "2025-01-01"
        (Sample.env 0 (Sample.online Sample.payload)) fresh_world).2).1
  = Done Sample.payload.
Proof.
  destruct (cache_ttl Sample.libraries (Sample.online Sample.payload)
              "2025-01-01" "2025-01-01" fresh_world 0 100)
    as (_ & Hin & _).
  - intros c Hc. discriminate Hc.
  - destruct Hin as (Hsame & _); [lia | ].
    unfold Sample.env. rewrite Hsame. reflexivity.
Defined.

(** ** A failed fetch *)

(** C5, as stated, fails on the count of messages: when the server cannot
    be reached the page carries two messages, the error drawn inside the
    fetch and the warning drawn by the caller. *)
Lemma failure_is_reported_twice :
  run (Sample.env 0 Sample.offline) fresh_world "2025-01-01" =
    (Stopped,
     {| screen := [ title_element; caption_element;
                    fetch_error "Connection refused"; unable_warning ];
        cache := Some {| cached_value := JNull;
                         cached_elements := [fetch_error "Connection refused"];
                         cached_at := 0 |};
        requests_sent := 1 |})
  /\ length (filter is_message
               (screen (run (Sample.env 0 Sample.offline) fresh_world
                            "2025-01-01").2)) = 2%nat.
Proof. split; vm_compute; reflexivity. Qed.

(** C5, amended.  When the answer fails in one of the three ways (no
    response, a 4xx or 5xx status, a body that is not JSON) and no fresh
    entry is cached, the fetch sends one request and returns [None], no
    exception leaves it, and the run stops with the title, the caption and
    two messages on the page: the error with the cause and the warning.
    Nothing of the dashboard is drawn, and no older cached payload is
    used. *)
Theorem failed_fetch_halts x net t start_date w text :
  stale w t ->
  failed (request_url start_date) (net (requests_sent w)) text ->
  let e := {| ext := x; now := t; internet := net |} in
  let after :=
    {| cached_value := JNull;
       cached_elements := [fetch_error text];
       cached_at := t |} in
  fetch_fear_greed_data start_date e w =
    (Done JNull,
     {| screen := screen w ++ [fetch_error text];
        cache := Some after;
        requests_sent := S (requests_sent w) |})
  /\ run e w start_date =
    (Stopped,
     {| screen := [title_element; caption_element; fetch_error text;
                   unable_warning];
        cache := Some after;
        requests_sent := S (requests_sent w) |}).
Proof.
  intros Hstale Hfail. cbv zeta. apply failed_reading in Hfail.
  split.
  - rewrite fetch_miss by exact Hstale. unfold fetched. simpl.
    now rewrite Hfail.
  - unfold run, main.
    erewrite done_bind by reflexivity.
    erewrite done_bind by reflexivity.
    erewrite done_bind by (apply fetch_miss; exact Hstale).
    unfold fetched. simpl. rewrite Hfail. simpl. reflexivity.
Qed.

Lemma failed_fetch_halts_witness :
  run (Sample.env 0 (fun _ => Response 503 "Service Unavailable" (inr JNull)))
      fresh_world "2025-01-01" =
    (Stopped,
     {| screen :=
          [ title_element; caption_element;
            fetch_error
              (Requests.http_error_text 503 "Service Unavailable"
                 (request_url "2025-01-01"));
            unable_warning ];
        cache :=
          Some {| cached_value := JNull;
                  cached_elements :=
                    [fetch_error
                       (Requests.http_error_text 503 "Service Unavailable"
                          (request_url "2025-01-01"))];
                  cached_at := 0 |};
        requests_sent := 1 |}).
Proof.
  refine (proj2 (failed_fetch_halts Sample.libraries _ 0 "2025-01-01"
                   fresh_world _ _ _)).
  - intros c Hc. discriminate Hc.
  - apply error_status. lia.
Defined.

(** ** The indicator cards *)

Lemma outcome_eval {A} (r : result A) e :
  outcome (St.eval r) e = match r with Ok a => Done a | Raise x => Crashed x end.
Proof. destruct r; reflexivity. Qed.

Lemma page_eval {A} (r : result A) e : page (St.eval r) e = [].
Proof. destruct r; reflexivity. Qed.

(** One turn of the loop. *)
Lemma loop_step key label rest col data e :
  let next c := indicator_loop rest c data in
  outcome (indicator_loop ((key, label) :: rest) col data) e =
    match indicator_card data key label with
    | Raise x => Crashed x
    | Ok None => outcome (next col) e
    | Ok (Some c) => outcome (next (S col)) e
    end
  /\ page (indicator_loop ((key, label) :: rest) col data) e =
    match indicator_card data key label with
    | Raise x => []
    | Ok None => page (next col) e
    | Ok (Some c) => (RowCol (col mod cols_per_row), c) :: page (next (S col)) e
    end.
Proof.
  cbv zeta. simpl indicator_loop.
  rewrite outcome_bind, page_bind, outcome_eval, page_eval by apply _.
  destruct (indicator_card data key label) as [[c | ] | x]; simpl.
  - rewrite outcome_bind, page_bind by apply _. auto.
  - auto.
  - auto.
Qed.

Lemma truth_empty : Value.truth (JObj ∅) = false.
Proof. simpl. apply negb_false_iff, bool_decide_eq_true. reflexivity. Qed.

(** The body draws a card exactly for a key with a non-null score. *)
Lemma indicator_card_has_score m key label r :
  indicator_card (JObj m) key label = Ok r ->
  match r with
  | Some c => has_score m key = true /\
              exists text colour rating info,
                c = Card label text colour rating info
  | None => has_score m key = false
  end.
Proof.
  intros H. apply indicator_card_inv in H as (m' & [= <-] & H).
  simpl in H. unfold has_score.
  destruct (m !! key) as [indicator | ]; simpl default in H;
    [ | rewrite truth_empty in H; simpl in H; now subst r].
  destruct (Value.truth indicator) eqn:Htruth; simpl in H.
  - destruct H as (ind & -> & H).
    destruct (ind !! "score") as [score | ]; simpl in H; [ | now subst r].
    destruct (Value.is_none score); simpl; [now subst r | ].
    destruct H as (rating & text & _ & _ & ->). eauto 10.
  - subst r. destruct indicator as [ | | | | | ind]; try reflexivity.
    simpl in Htruth. apply negb_false_iff, bool_decide_eq_true in Htruth.
    subst ind. reflexivity.
Qed.

Lemma slots_from_cons col kl shown :
  slots_from col (kl :: shown) =
  (RowCol (col mod cols_per_row), kl.2) :: slots_from (S col) shown.
Proof.
  unfold slots_from. simpl. rewrite Nat.add_0_r. f_equal.
  apply imap_ext. intros i kl' _. simpl.
  now replace (col + S i)%nat with (S (col + i)) by lia.
Qed.

Lemma loop_slots keys m e : forall col,
  outcome (indicator_loop keys col (JObj m)) e = Done () ->
  Forall is_card (page (indicator_loop keys col (JObj m)) e) /\
  map slot (page (indicator_loop keys col (JObj m)) e) =
  slots_from col (filter (fun kl => has_score m kl.1) keys).
Proof.
  induction keys as [ | [key label] rest IH]; intros col Hdone.
  - split; [constructor | reflexivity].
  - destruct (loop_step key label rest col (JObj m) e) as [Hout Hpage].
    rewrite Hout in Hdone. rewrite Hpage. clear Hout Hpage.
    destruct (indicator_card (JObj m) key label) as [r | x] eqn:Hcard;
      [ | discriminate].
    apply indicator_card_has_score in Hcard.
    rewrite filter_cons. cbn [fst].
    destruct r as [c | ].
    + destruct Hcard as (-> & text & colour & rating & info & ->).
      destruct (IH (S col) Hdone) as [Hcards Hslots].
      rewrite decide_True by exact I. rewrite slots_from_cons.
      split; [constructor; [exact I | exact Hcards] | ].
      cbn [map slot fst snd]. now rewrite Hslots.
    + rewrite Hcard. rewrite decide_False by (intros []). now apply IH.
Qed.

Lemma indicator_ok_card m key label :
  indicator_ok (default (JObj ∅) (m !! key)) ->
  exists r, indicator_card (JObj m) key label = Ok r.
Proof.
  unfold indicator_card. simpl.
  intros [Hfalsy | (ind & -> & Hind)].
  - rewrite Hfalsy. simpl. eauto.
  - destruct (negb (Value.truth (JObj ind))); [eauto | ]. simpl.
    destruct Hind as [-> | (n & f & lbl & Hn & Hf & ->)]; [eauto | ].
    destruct (Value.is_none _); [eauto | ].
    rewrite (normalise_rating_display _ _ _ Hn). simpl.
    assert (Format.value_f1 (default JNull (ind !! "score"))
            = Ok (Format.float_f1 false f)) as ->; [ | simpl; eauto].
    destruct (default JNull (ind !! "score")) as [ | b | k | | | ];
      try discriminate; injection Hn as <-; unfold Format.value_f1, Format.f1;
      now rewrite Hf.
Qed.

Lemma loop_completes keys m e :
  (forall kl, In kl keys -> indicator_ok (default (JObj ∅) (m !! kl.1))) ->
  forall col, outcome (indicator_loop keys col (JObj m)) e = Done ().
Proof.
  induction keys as [ | [key label] rest IH]; intros Hok col.
  - reflexivity.
  - destruct (loop_step key label rest col (JObj m) e) as [-> _].
    destruct (indicator_ok_card m key label) as [r ->].
    + apply (Hok (key, label)). now left.
    + destruct r; apply IH; intros kl Hkl; apply Hok; now right.
Qed.

(** C6. The loop draws cards only, one for each of the seven keys that is
    present with a non-null score and none for the others, in the order
    of [INDICATOR_KEYS], filling the two columns in turn with no gap for
    a skipped key; it gets through every payload whose indicators are
    well-formed; and a payload that lacks [junk_bond_demand] and has the
    other six gets six cards, in the declared order. *)
Theorem indicator_cards (m : gmap string json) (e : env) :
  let loop := indicator_loop INDICATOR_KEYS 0 (JObj m) in
  let shown := filter (fun kl => has_score m kl.1) INDICATOR_KEYS in
  ((forall kl, In kl INDICATOR_KEYS ->
               indicator_ok (default (JObj ∅) (m !! kl.1))) ->
   outcome loop e = Done ())
  /\ (outcome loop e = Done () ->
      Forall is_card (page loop e) /\
      map slot (page loop e) = slots_from 0 shown)
  /\ (outcome loop e = Done () ->
      m !! "junk_bond_demand" = None ->
      (forall kl, In kl INDICATOR_KEYS -> kl.1 <> "junk_bond_demand" ->
                  has_score m kl.1 = true) ->
      map slot (page loop e) =
      [ (RowCol 0, "Market Momentum");
        (RowCol 1, "Stock Price Strength");
        (RowCol 0, "Stock Price Breadth");
        (RowCol 1, "Put and Call Options");
        (RowCol 0, "Market Volatility");
        (RowCol 1, "Safe Haven Demand") ]).
Proof.
  cbv zeta. split; [intros Hok; now apply loop_completes | ].
  split; [apply loop_slots | ].
  intros Hdone Hjunk Hothers.
  destruct (loop_slots INDICATOR_KEYS m e 0%nat Hdone) as [_ ->].
  assert (has_score m "junk_bond_demand" = false) as Hj
    by (unfold has_score; now rewrite Hjunk).
  assert (forall key label, In (key, label) INDICATOR_KEYS ->
            key <> "junk_bond_demand" -> has_score m key = true) as Hkey
    by (intros key label Hin Hne; exact (Hothers (key, label) Hin Hne)).
  unfold INDICATOR_KEYS in *.
  repeat (rewrite filter_cons; cbn [fst]).
  rewrite Hj.
  rewrite (Hkey "market_momentum_sp500" "Market Momentum"),
    (Hkey "stock_price_strength" "Stock Price Strength"),
    (Hkey "stock_price_breadth" "Stock Price Breadth"),
    (Hkey "put_call_options" "Put and Call Options"),
    (Hkey "market_volatility_vix" "Market Volatility"),
    (Hkey "safe_haven_demand" "Safe Haven Demand")
    by first [discriminate | simpl; tauto].
  reflexivity.
Qed.

(** The sample payload without [junk_bond_demand]: six cards. *)
Lemma six_cards_without_junk_bond_demand :
  map slot
    (page (indicator_loop INDICATOR_KEYS 0
             (Sample.without "junk_bond_demand" Sample.payload))
          (Sample.env 0 Sample.offline)) =
  [ (RowCol 0, "Market Momentum");
    (RowCol 1, "Stock Price Strength");
    (RowCol 0, "Stock Price Breadth");
    (RowCol 1, "Put and Call Options");
    (RowCol 0, "Market Volatility");
    (RowCol 1, "Safe Haven Demand") ].
Proof. vm_compute. reflexivity. Qed.

(** ** The order of the history *)

#[global] Instance date_le_trans : Transitive date_le.
Proof.
  intros [a | ] [b | ] [c | ]; unfold date_le; simpl; try congruence.
  rewrite !Z.leb_le. lia.
Qed.

#[global] Instance date_le_antisymm : AntiSymm (=) date_le.
Proof.
  intros [a | ] [b | ]; unfold date_le; simpl; try congruence.
  rewrite !Z.leb_le. intros. f_equal. lia.
Qed.

Lemma date_leb_total a b : date_leb a b = false -> date_leb b a = true.
Proof.
  destruct a as [a | ], b as [b | ]; simpl; try congruence.
  rewrite Z.leb_gt, Z.leb_le. lia.
Qed.

#[global] Instance by_date_trans : Transitive by_date.
Proof. intros p q r. unfold by_date. apply date_le_trans. Qed.

#[global] Instance before_trans : Transitive before.
Proof.
  intros p q r [Hpq Hne] [Hqr Hne']. split.
  - exact (date_le_trans _ _ _ Hpq Hqr).
  - intros Heq. rewrite Heq in Hpq. apply Hne'.
    exact (date_le_antisymm _ _ Hqr Hpq).
Qed.

Lemma sorted_before_by_date rows : Sorted before rows -> Sorted by_date rows.
Proof.
  induction 1 as [ | p rows _ IH Hhd]; constructor; [exact IH | ].
  destruct Hhd as [ | q rows [Hle _]]; constructor. exact Hle.
Qed.

(** Strictly ascending rows have pairwise different dates. *)
Lemma before_dates_differ rows :
  StronglySorted before rows ->
  forall p q, In p rows -> In q rows -> p.1 = q.1 -> p = q.
Proof.
  induction 1 as [ | r rows _ IH Hall]; intros p q Hp Hq Heq; [destruct Hp | ].
  rewrite Forall_forall in Hall.
  destruct Hp as [<- | Hp], Hq as [<- | Hq].
  - reflexivity.
  - apply list_elem_of_In, Hall in Hq. destruct Hq as [_ Hne]. contradiction.
  - apply list_elem_of_In, Hall in Hp. destruct Hp as [_ Hne].
    symmetry in Heq. contradiction.
  - now apply IH.
Qed.

Section SortValues.

Variable sort : list point -> list point.
Hypothesis sort_contract : sorts_by_date sort.

Lemma sort_strongly_sorted rows : StronglySorted by_date (sort rows).
Proof. apply Sorted_StronglySorted; [apply _ | apply sort_contract]. Qed.

(** Sorting rows that are in ascending order leaves the dates as they
    are. *)
Lemma sort_sorted_dates rows :
  Sorted by_date rows -> map fst (sort rows) = map fst rows.
Proof.
  intros Hsorted.
  apply (StronglySorted_unique date_le).
  - apply (StronglySorted_fmap fst by_date date_le); [auto | ].
    apply sort_strongly_sorted.
  - apply (StronglySorted_fmap fst by_date date_le); [auto | ].
    now apply Sorted_StronglySorted; [apply _ | ].
  - apply Permutation_map. symmetry. apply sort_contract.
Qed.

(** Sorting rows that are in strictly ascending order is a no-op. *)
Lemma sort_sorted_noop rows : Sorted before rows -> sort rows = rows.
Proof.
  intros Hstrict.
  assert (StronglySorted before rows) as Hstrong
    by (apply Sorted_StronglySorted; [apply _ | exact Hstrict]).
  destruct (sort_contract rows) as [Hperm _].
  apply (StronglySorted_unique_strong by_date).
  - intros p q Hp Hq Hpq Hqp.
    apply (before_dates_differ rows Hstrong).
    + apply list_elem_of_In. now rewrite Hperm.
    + now apply list_elem_of_In.
    + exact (date_le_antisymm _ _ Hpq Hqp).
  - apply sort_strongly_sorted.
  - apply Sorted_StronglySorted; [apply _ | ].
    now apply sorted_before_by_date.
  - now symmetry.
Qed.

End SortValues.

Lemma filter_none {A} (f : A -> bool) (l : list A) :
  Forall (fun a => f a = false) l -> List.filter f l = [].
Proof.
  induction 1 as [ | a l Ha _ IH]; simpl; [reflexivity | ].
  now rewrite Ha.
Qed.

(** *** numpy's sort *)

(** Permutations of lists given by their elements: the elements are
    brought to the front and cancelled one by one. *)
Ltac split_at a r :=
  lazymatch r with
  | a :: ?t => let T := type of a in constr:((@nil T, t))
  | ?b :: ?t =>
      let p := split_at a t in
      lazymatch p with (?l1, ?l2) => constr:((b :: l1, l2)) end
  end.

Ltac perm_cancel :=
  repeat match goal with
         | |- ?a :: ?l ≡ₚ ?r =>
             let p := split_at a r in
             lazymatch p with
             | (?l1, ?l2) => apply (Permutation_cons_app l1 l2 a); simpl
             end
         end.

Ltac perm_solve :=
  simpl; rewrite <- ?app_assoc; simpl;
  rewrite <- ?Permutation_middle; rewrite ?app_nil_r; perm_cancel;
  rewrite ?app_nil_r; reflexivity.

Section Argsort.

Context {A : Type} (key : A -> Z).



#[local] Instance key_le_trans : Transitive (key_le key).
Proof. intros a b c. unfold key_le. lia. Qed.

Lemma less_spec a b : Numpy.less key a b = true <-> key a < key b.
Proof. unfold Numpy.less. apply Z.ltb_lt. Qed.

Lemma less_false a b : Numpy.less key a b = false <-> key b <= key a.
Proof. unfold Numpy.less. apply Z.ltb_ge. Qed.

(** *** Insertion sort *)

Lemma shift_in_perm vi before : Numpy.shift_in key vi before ≡ₚ vi :: before.
Proof.
  induction before as [ | k before IH]; simpl; [reflexivity | ].
  destruct (Numpy.less key vi k); [ | reflexivity].
  rewrite IH. apply perm_swap.
Qed.

Lemma shift_in_sorted vi before :
  StronglySorted (flip (key_le key)) before ->
  StronglySorted (flip (key_le key)) (Numpy.shift_in key vi before).
Proof.
  induction 1 as [ | k before Hsorted IH Hall]; simpl.
  - repeat constructor.
  - destruct (Numpy.less key vi k) eqn:Hless.
    + constructor; [exact IH | ].
      rewrite shift_in_perm. constructor; [ | exact Hall].
      apply less_spec in Hless. unfold flip, key_le. lia.
    + apply less_false in Hless.
      constructor; [now constructor | ].
      constructor; [exact Hless | ].
      eapply Forall_impl; [exact Hall | ].
      intros a Ha. unfold flip, key_le in *. lia.
Qed.

(** An element that is not less than the one before it stays where it
    is. *)
Lemma shift_in_stays vi before :
  Forall (fun k => key k <= key vi) before ->
  Numpy.shift_in key vi before = vi :: before.
Proof.
  intros Hall. destruct before as [ | k before]; [reflexivity | ].
  simpl. apply Forall_cons in Hall as [Hk _].
  now rewrite (proj2 (less_false vi k) Hk).
Qed.

Lemma StronglySorted_rev (R : relation A) l :
  StronglySorted (flip R) l -> StronglySorted R (rev l).
Proof.
  induction 1 as [ | a l Hsorted IH Hall]; simpl; [constructor | ].
  apply StronglySorted_app_2; [ | exact IH | repeat constructor].
  intros x y Hx Hy. apply list_elem_of_singleton in Hy as ->.
  rewrite Forall_forall in Hall. apply Hall.
  apply list_elem_of_In, in_rev. now apply list_elem_of_In.
Qed.

Lemma insertion_fold seg before :
  foldl (fun before vi => Numpy.shift_in key vi before) before seg
  ≡ₚ rev seg ++ before.
Proof.
  revert before. induction seg as [ | a seg IH]; intros before; simpl;
    [reflexivity | ].
  rewrite IH, shift_in_perm, <- app_assoc. reflexivity.
Qed.

Lemma insertion_perm seg : Numpy.insertion key seg ≡ₚ seg.
Proof.
  unfold Numpy.insertion. rewrite <- Permutation_rev, insertion_fold.
  now rewrite app_nil_r, <- Permutation_rev.
Qed.

Lemma insertion_fold_sorted seg before :
  StronglySorted (flip (key_le key)) before ->
  StronglySorted (flip (key_le key))
    (foldl (fun before vi => Numpy.shift_in key vi before) before seg).
Proof.
  revert before. induction seg as [ | a seg IH]; intros before Hb; simpl;
    [exact Hb | ].
  apply IH. now apply shift_in_sorted.
Qed.

Lemma insertion_sorted seg :
  StronglySorted (key_le key) (Numpy.insertion key seg).
Proof.
  unfold Numpy.insertion. apply StronglySorted_rev, insertion_fold_sorted.
  constructor.
Qed.

(** Insertion sort leaves a segment that is in order as it is. *)
Lemma insertion_fold_stays seg before :
  StronglySorted (key_le key) (rev before ++ seg) ->
  foldl (fun before vi => Numpy.shift_in key vi before) before seg
  = rev seg ++ before.
Proof.
  revert before. induction seg as [ | a seg IH]; intros before Hsorted; simpl;
    [reflexivity | ].
  rewrite shift_in_stays.
  - rewrite IH.
    + simpl. rewrite <- app_assoc. reflexivity.
    + simpl. rewrite <- app_assoc. exact Hsorted.
  - apply StronglySorted_app in Hsorted as (Hle & _ & _).
    apply Forall_forall. intros k Hk. apply (Hle k a); [ | left].
    apply list_elem_of_In. apply -> in_rev. now apply list_elem_of_In.
Qed.

Lemma insertion_stays seg :
  StronglySorted (key_le key) seg -> Numpy.insertion key seg = seg.
Proof.
  intros Hsorted. unfold Numpy.insertion.
  rewrite insertion_fold_stays by exact Hsorted.
  now rewrite app_nil_r, rev_involutive.
Qed.

(** *** The partition *)

Lemma span_spec (f : A -> bool) l p r :
  Numpy.span f l = (p, r) ->
  l = p ++ r /\ Forall (fun a => f a = true) p /\
  match r with [] => True | a :: _ => f a = false end.
Proof.
  revert p r. induction l as [ | a l IH]; intros p r; simpl.
  - intros [= <- <-]. now repeat split.
  - destruct (f a) eqn:Hfa.
    + destruct (Numpy.span f l) as [p' r']. intros [= <- <-].
      destruct (IH p' r' eq_refl) as (-> & Hp & Hr).
      repeat split; [now constructor | exact Hr].
    + intros [= <- <-]. repeat split; [constructor | exact Hfa].
Qed.

Lemma scan_spec fuel vp mid mid' pi :
  (length mid <= fuel)%nat ->
  Numpy.scan key fuel vp mid = (mid', pi) ->
  mid' ≡ₚ mid /\ (pi <= length mid')%nat /\
  Forall (fun a => key a <= vp) (take pi mid') /\
  Forall (fun a => vp <= key a) (drop pi mid').
Proof.
  revert mid mid' pi. induction fuel as [ | fuel IH]; intros mid mid' pi Hlen.
  { destruct mid; [ | simpl in Hlen; lia]. simpl. intros [= <- <-].
    split; [reflexivity | ]. split; [simpl; lia | ]. split; constructor. }
  simpl.
  destruct (Numpy.span (fun a => key a <? vp) mid) as [lo r] eqn:Hlo.
  apply span_spec in Hlo as (-> & Hlo & Ha).
  assert (Forall (fun a => key a <= vp) lo) as Hlo'.
  { eapply Forall_impl; [exact Hlo | ]. intros a H. apply Z.ltb_lt in H. lia. }
  destruct r as [ | a rest].
  { intros [= <- <-]. rewrite app_nil_r in *.
    rewrite firstn_all, skipn_all.
    split; [reflexivity | ]. split; [lia | ]. split; [exact Hlo' | constructor]. }
  apply Z.ltb_ge in Ha.
  destruct (Numpy.span (fun b => vp <? key b) (rev rest)) as [hi r] eqn:Hhi.
  apply span_spec in Hhi as (Hrest & Hhi & Hb).
  assert (rest = rev r ++ rev hi) as ->.
  { rewrite <- rev_app_distr, <- Hrest. now rewrite rev_involutive. }
  assert (Forall (fun b => vp <= key b) (rev hi)) as Hhi'.
  { apply Forall_forall. intros b Hin.
    apply list_elem_of_In, in_rev, list_elem_of_In in Hin.
    rewrite Forall_forall in Hhi. apply Hhi in Hin. apply Z.ltb_lt in Hin. lia. }
  destruct r as [ | b inner].
  { intros [= <- <-]. simpl.
    rewrite take_app_length, drop_app_length.
    split; [reflexivity | ]. split; [rewrite length_app; lia | ].
    split; [exact Hlo' | ].
    constructor; [exact Ha | exact Hhi']. }
  apply Z.ltb_ge in Hb.
  destruct (Numpy.scan key fuel vp (rev inner)) as [inner' k] eqn:Hscan.
  intros [= <- <-].
  apply IH in Hscan as (Hperm & Hk & Htake & Hdrop).
  2:{ rewrite !length_app in Hlen. simpl in Hlen.
      rewrite !length_app, !length_rev in Hlen. simpl in Hlen.
      rewrite length_rev. lia. }
  split; [ | split; [ | split]].
  - simpl. rewrite <- app_assoc. simpl.
    apply Permutation_app_head.
    rewrite Hperm.
    rewrite <- !Permutation_middle. apply perm_swap.
  - rewrite !length_app. simpl. rewrite length_app. simpl. lia.
  - replace (length lo + 1 + k)%nat with (length lo + S k)%nat by lia.
    rewrite take_app_add. simpl.
    rewrite take_app_le by exact Hk.
    apply Forall_app. split; [exact Hlo' | ].
    constructor; [exact Hb | exact Htake].
  - replace (length lo + 1 + k)%nat with (length lo + S k)%nat by lia.
    rewrite drop_app_add. simpl.
    rewrite drop_app_le by exact Hk.
    apply Forall_app. split; [exact Hdrop | ].
    constructor; [exact Ha | exact Hhi'].
Qed.

Lemma in_order_spec a b a' b' :
  Numpy.in_order key a b = (a', b') ->
  key a' <= key b' /\ ((a' = a /\ b' = b) \/ (a' = b /\ b' = a)).
Proof.
  unfold Numpy.in_order. destruct (Numpy.less key b a) eqn:Hless.
  - apply less_spec in Hless. intros [= <- <-]. split; [lia | auto].
  - apply less_false in Hless. intros [= <- <-]. split; [lia | auto].
Qed.

Lemma partition_spec seg below p above :
  Numpy.partition key seg = Some (below, p, above) ->
  below ++ p :: above ≡ₚ seg /\
  Forall (fun a => key a <= key p) below /\
  Forall (fun a => key p <= key a) above.
Proof.
  unfold Numpy.partition.
  set (pm := ((length seg - 1) / 2)%nat).
  destruct seg as [ | l after_l]; [discriminate | ].
  destruct (drop pm (l :: after_l)) as [ | m after_m] eqn:Hm; [discriminate | ].
  destruct (rev (drop (S pm) (l :: after_l))) as [ | r [ | before_r back]] eqn:Hr;
    try discriminate.
  assert (2 * pm <= length after_l < 2 * pm + 2)%nat as Hdiv.
  { unfold pm.
    replace (length (l :: after_l) - 1)%nat with (length after_l)
      by (simpl; lia).
    pose proof (Nat.div_mod_eq (length after_l) 2) as Heq.
    pose proof (Nat.mod_upper_bound (length after_l) 2 ltac:(lia)). lia. }
  assert (pm <> 0)%nat as Hpm.
  { intros H0. apply (f_equal length) in Hr.
    rewrite length_rev, length_drop in Hr. simpl in Hr. lia. }
  assert (l :: after_l
          = l :: take (pm - 1) after_l ++ m :: rev back ++ [before_r; r])
    as Hseg.
  { rewrite <- (take_drop pm (l :: after_l)) at 1.
    destruct pm as [ | pm']; [contradiction | ]. simpl.
    rewrite Nat.sub_0_r. f_equal. f_equal.
    simpl in Hm. rewrite Hm. f_equal.
    assert (after_m = drop (S (S pm')) (l :: after_l)) as ->.
    { change (drop (S (S pm')) (l :: after_l)) with (drop (S pm') after_l).
      rewrite <- (Nat.add_1_r pm'), <- drop_drop, Hm. reflexivity. }
    rewrite <- (rev_involutive (drop _ _)), Hr. simpl.
    now rewrite <- !app_assoc. }
  set (front := take (pm - 1) after_l) in *.
  destruct (Numpy.in_order key l m) as [l1 m1] eqn:H1.
  destruct (Numpy.in_order key m1 r) as [m2 r2] eqn:H2.
  destruct (Numpy.in_order key l1 m2) as [l3 m3] eqn:H3.
  apply in_order_spec in H1 as [Hle1 H1].
  apply in_order_spec in H2 as [Hle2 H2].
  apply in_order_spec in H3 as [Hle3 H3].
  assert (key l3 <= key m3 <= key r2 /\ [l3; m3; r2] ≡ₚ [l; m; r])
    as [Hkeys Hthree].
  { destruct H1 as [[-> ->] | [-> ->]], H2 as [[-> ->] | [-> ->]],
      H3 as [[-> ->] | [-> ->]]; (split; [lia | ]);
      auto using perm_swap, Permutation_refl;
      first [ apply perm_swap
            | apply perm_skip, perm_swap
            | etransitivity; [apply perm_swap | apply perm_skip, perm_swap]
            | etransitivity; [apply perm_skip, perm_swap | apply perm_swap]
            | etransitivity; [apply perm_swap | ];
              etransitivity; [apply perm_skip, perm_swap | apply perm_swap] ]. }
  destruct (Numpy.scan key (length (l :: after_l)) (key m3)
              (front ++ before_r :: rev back)) as [mid pi] eqn:Hscan.
  apply scan_spec in Hscan as (Hperm & Hpi & Htake & Hdrop).
  2:{ rewrite Hseg. simpl. rewrite !length_app. simpl.
      rewrite !length_app. simpl. lia. }
  assert (l3 :: mid ++ [m3; r2] ≡ₚ l :: after_l) as Hall.
  { rewrite Hseg, Hperm.
    transitivity ([l3; m3; r2] ++ front ++ before_r :: rev back);
      [perm_solve | ].
    rewrite Hthree. perm_solve. }
  destruct (drop pi mid) as [ | a abv] eqn:Habove.
  - intros [= <- <- <-].
    assert (take pi mid = mid) as Hfull.
    { rewrite <- (take_drop pi mid) at 2. now rewrite Habove, app_nil_r. }
    rewrite Hfull in Htake.
    repeat split.
    + exact Hall.
    + constructor; [lia | exact Htake].
    + repeat constructor. lia.
  - intros [= <- <- <-].
    apply Forall_cons in Hdrop as [Ha Habv].
    repeat split.
    + rewrite <- Hall. rewrite <- (take_drop pi mid) at 2. rewrite Habove.
      perm_solve.
    + constructor; [lia | exact Htake].
    + apply Forall_app. split; [exact Habv | ].
      repeat constructor; lia.
Qed.



(** *** Heapsort *)

Lemma lookup_set1 (a : list A) i x c :
  (1 <= i <= length a)%nat -> (1 <= c)%nat ->
  Numpy.set1 a i x !! (c - 1)%nat
  = if decide (c = i) then Some x else a !! (c - 1)%nat.
Proof.
  intros Hi Hc. unfold Numpy.set1. destruct (decide (c = i)) as [-> | Hne].
  - apply list_lookup_insert_eq. lia.
  - apply list_lookup_insert_ne. lia.
Qed.

Lemma at1_lookup (tmp : A) a i x :
  a !! (i - 1)%nat = Some x -> Numpy.at1 tmp a i = x.
Proof. unfold Numpy.at1. now intros ->. Qed.

Lemma length_set1 (a : list A) i x : length (Numpy.set1 a i x) = length a.
Proof. apply length_insert. Qed.

Lemma sift_length fuel tmp n i j (a : list A) :
  length (Numpy.sift key fuel tmp n i j a) = length a.
Proof.
  revert i j a. induction fuel as [ | fuel IH]; intros i j a; simpl.
  - apply length_set1.
  - destruct (n <? j)%nat; [apply length_set1 | ].
    destruct (Numpy.less key tmp _); [ | apply length_set1].
    rewrite IH. apply length_set1.
Qed.

(** [tmp] put at [i] when none of the children of [i] is greater. *)
Lemma place_heap lo n i tmp (a : list A) :
  (1 <= lo)%nat -> (1 <= i <= length a)%nat ->
  sinking key lo n i tmp a ->
  (forall c x,
     child i c -> (c <= n)%nat -> a !! (c - 1)%nat = Some x ->
     key x <= key tmp) ->
  heap_from key lo n (Numpy.set1 a i tmp).
Proof.
  intros Hlo Hi [Hrest Hparent] Hchildren p c x y Hp Hchild Hc.
  assert (1 <= c /\ 1 <= p /\ p <> c)%nat as (Hc1 & Hp1 & Hpc)
    by (destruct Hchild; lia).
  rewrite !lookup_set1 by lia.
  destruct (decide (c = i)) as [-> | Hci], (decide (p = i)) as [-> | Hpi];
    try contradiction.
  - intros [= <-] Hy. now apply (Hparent p y).
  - intros Hx [= <-]. now apply (Hchildren c x).
  - intros Hx Hy. now apply (Hrest p c x y).
Qed.

Lemma sift_heap fuel tmp n lo i j (a : list A) :
  (1 <= lo <= i)%nat -> (i <= n <= length a)%nat -> j = (2 * i)%nat ->
  (n < fuel + j)%nat ->
  sinking key lo n i tmp a ->
  heap_from key lo n (Numpy.sift key fuel tmp n i j a).
Proof.
  revert i j a. induction fuel as [ | fuel IH];
    intros i j a Hlo Hi Hj Hfuel Hsink; simpl.
  { apply place_heap; [lia | lia | exact Hsink | ].
    intros c x Hchild. destruct Hchild; lia. }
  destruct (Nat.ltb_spec n j) as [Hn | Hn].
  { apply place_heap; [lia | lia | exact Hsink | ].
    intros c x Hchild. destruct Hchild; lia. }
  destruct (lookup_lt_is_Some_2 a (j - 1)) as [xj Hxj]; [lia | ].
  rewrite (at1_lookup tmp a j xj Hxj).
  (* the greater of the children *)
  assert (exists j' xj',
            (if (j <? n)%nat
                && Numpy.less key xj (Numpy.at1 tmp a (j + 1))
             then (j + 1)%nat else j) = j'
            /\ child i j' /\ (j' <= n)%nat
            /\ a !! (j' - 1)%nat = Some xj'
            /\ forall c x, child i c -> (c <= n)%nat ->
                           a !! (c - 1)%nat = Some x -> key x <= key xj')
    as (j' & xj' & -> & Hchild' & Hj'n & Hxj' & Hgreater).
  { destruct (Nat.ltb_spec j n) as [Hlt | Hge]; simpl.
    - destruct (lookup_lt_is_Some_2 a (j + 1 - 1)) as [xk Hxk]; [lia | ].
      rewrite (at1_lookup tmp a (j + 1) xk Hxk).
      destruct (Numpy.less key xj xk) eqn:Hless.
      + apply less_spec in Hless.
        exists (j + 1)%nat, xk. split; [reflexivity | ].
        split; [right; lia | ]. split; [lia | ]. split; [exact Hxk | ].
        intros c x Hchild _ Hx.
        assert (c = j \/ c = (j + 1)%nat) as [-> | ->]
          by (destruct Hchild; lia); simplify_eq; lia.
      + apply less_false in Hless.
        exists j, xj. split; [reflexivity | ].
        split; [left; lia | ]. split; [lia | ]. split; [exact Hxj | ].
        intros c x Hchild _ Hx.
        assert (c = j \/ c = (j + 1)%nat) as [-> | ->]
          by (destruct Hchild; lia); simplify_eq; lia.
    - exists j, xj. split; [reflexivity | ].
      split; [left; lia | ]. split; [lia | ]. split; [exact Hxj | ].
      intros c x Hchild Hc Hx.
      assert (c = j) as -> by (destruct Hchild; lia). simplify_eq. lia. }
  rewrite (at1_lookup tmp a j' xj' Hxj').
  assert (j <= j')%nat as Hj' by (destruct Hchild'; lia).
  destruct (Numpy.less key tmp xj') eqn:Hless.
  2:{ apply less_false in Hless.
      apply place_heap; [lia | lia | exact Hsink | ].
      intros c x Hchild Hc Hx. specialize (Hgreater c x Hchild Hc Hx). lia. }
  apply less_spec in Hless.
  apply IH; [lia | rewrite length_set1; lia | lia | lia | ].
  destruct Hsink as [Hrest Hparent]. split.
  - intros p c x y Hp Hchild Hc Hpj Hcj.
    assert (1 <= c /\ 1 <= p /\ p <> c)%nat as (Hc1 & Hp1 & Hpc)
      by (destruct Hchild; lia).
    rewrite !lookup_set1 by lia.
    destruct (decide (c = i)) as [-> | Hci], (decide (p = i)) as [-> | Hpi];
      try contradiction.
    + intros [= <-] Hy.
      destruct (Hparent p y Hp Hchild Hy) as [_ Hgrand].
      now apply (Hgrand j' xj').
    + intros Hx [= <-]. now apply (Hgreater c x).
    + intros Hx Hy. now apply (Hrest p c x y).
  - intros p y Hp Hchild.
    assert (p = i) as -> by (destruct Hchild, Hchild'; lia).
    rewrite lookup_set1 by lia. rewrite decide_True by reflexivity.
    intros [= <-]. split; [lia | ].
    intros c x Hchild2 Hc.
    assert (1 <= c /\ c <> i)%nat as [Hc1 Hci]
      by (destruct Hchild2, Hchild'; lia).
    rewrite lookup_set1 by lia. rewrite decide_False by exact Hci.
    intros Hx. apply (Hrest j' c x xj'); try assumption; lia.
Qed.

(** The sift works inside [a[1..n]]. *)
Lemma sift_app fuel tmp n i j (a rest : list A) :
  (1 <= i <= n)%nat -> (i < j)%nat -> length a = n ->
  Numpy.sift key fuel tmp n i j (a ++ rest)
  = Numpy.sift key fuel tmp n i j a ++ rest.
Proof.
  revert i j a. induction fuel as [ | fuel IH]; intros i j a Hi Hj Hlen; simpl.
  { unfold Numpy.set1. apply insert_app_l. lia. }
  destruct (Nat.ltb_spec n j) as [Hn | Hn].
  { unfold Numpy.set1. apply insert_app_l. lia. }
  assert (forall c, (1 <= c <= n)%nat ->
                    Numpy.at1 tmp (a ++ rest) c = Numpy.at1 tmp a c) as Hat.
  { intros c Hc. unfold Numpy.at1. rewrite lookup_app_l by lia. reflexivity. }
  rewrite (Hat j) by lia.
  assert ((if (j <? n)%nat
              && Numpy.less key (Numpy.at1 tmp a j)
                   (Numpy.at1 tmp (a ++ rest) (j + 1))
           then (j + 1)%nat else j)
          = (if (j <? n)%nat
                && Numpy.less key (Numpy.at1 tmp a j) (Numpy.at1 tmp a (j + 1))
             then (j + 1)%nat else j)) as ->.
  { destruct (Nat.ltb_spec j n); [ | reflexivity]. now rewrite Hat by lia. }
  set (j' := if (j <? n)%nat && _ then _ else _).
  assert (j <= j' <= n)%nat as Hj'.
  { unfold j'. destruct (Nat.ltb_spec j n); simpl; [ | lia].
    destruct (Numpy.less key _ _); lia. }
  rewrite (Hat j') by lia.
  destruct (Numpy.less key tmp _).
  - unfold Numpy.set1 at 1. rewrite insert_app_l by lia.
    apply IH; [lia | lia | ]. unfold Numpy.set1. now rewrite length_insert.
  - unfold Numpy.set1. apply insert_app_l. lia.
Qed.

Lemma sift_perm fuel tmp n i j (a : list A) :
  (1 <= i <= n)%nat -> (n <= length a)%nat -> (i < j)%nat ->
  Numpy.sift key fuel tmp n i j a ≡ₚ Numpy.set1 a i tmp.
Proof.
  revert i j a. induction fuel as [ | fuel IH]; intros i j a Hi Hn Hj; simpl;
    [reflexivity | ].
  destruct (Nat.ltb_spec n j) as [Hnj | Hnj]; [reflexivity | ].
  set (j' := if (j <? n)%nat && _ then _ else _).
  assert (j <= j' <= n)%nat as Hj'.
  { unfold j'. destruct (Nat.ltb_spec j n); simpl; [ | lia].
    destruct (Numpy.less key _ _); lia. }
  destruct (Numpy.less key tmp _); [ | reflexivity].
  destruct (lookup_lt_is_Some_2 a (j' - 1)) as [xj Hxj]; [lia | ].
  rewrite (at1_lookup tmp a j' xj Hxj).
  rewrite IH by (rewrite ?length_set1; lia).
  unfold Numpy.set1.
  rewrite <- (list_insert_insert_eq a (i - 1) xj tmp).
  apply Permutation_insert_swap.
  - apply list_lookup_insert_eq. lia.
  - rewrite list_lookup_insert_ne by lia. exact Hxj.
Qed.

Lemma child_above p c : (1 <= p)%nat -> child p c -> (p < c)%nat.
Proof. intros Hp [-> | ->]; lia. Qed.

Lemma heapify_length l n (a : list A) :
  length (Numpy.heapify key l n a) = length a.
Proof.
  revert a. induction l as [ | l IH]; intros a; simpl; [reflexivity | ].
  destruct (a !! l); [ | reflexivity].
  now rewrite IH, sift_length.
Qed.

Lemma heapify_perm l n (a : list A) :
  (l <= n <= length a)%nat -> Numpy.heapify key l n a ≡ₚ a.
Proof.
  revert a. induction l as [ | l IH]; intros a Hl; simpl; [reflexivity | ].
  destruct (a !! l) as [tmp | ] eqn:Htmp; [ | reflexivity].
  rewrite IH by (rewrite sift_length; lia).
  rewrite sift_perm by lia.
  unfold Numpy.set1. simpl. rewrite Nat.sub_0_r.
  now rewrite list_insert_id.
Qed.

Lemma heapify_heap l n (a : list A) :
  (l <= n <= length a)%nat ->
  heap_from key (l + 1) n a -> heap_from key 1 n (Numpy.heapify key l n a).
Proof.
  revert a. induction l as [ | l IH]; intros a Hl Hheap; simpl; [exact Hheap | ].
  destruct (lookup_lt_is_Some_2 a l) as [tmp Htmp]; [lia | ].
  rewrite Htmp. apply IH; [rewrite sift_length; lia | ].
  replace (l + 1)%nat with (S l) by lia.
  apply sift_heap; [lia | lia | lia | lia | ].
  split.
  - intros p c x y Hp Hchild Hc Hpl _.
    apply (Hheap p c x y); [lia | exact Hchild | exact Hc].
  - intros p y Hp Hchild. apply child_above in Hchild; lia.
Qed.

(** The first element of a heap is its greatest. *)
Lemma root_max n (a : list A) top :
  (n <= length a)%nat -> heap_from key 1 n a -> a !! 0%nat = Some top ->
  forall p x, (1 <= p <= n)%nat -> a !! (p - 1)%nat = Some x ->
              key x <= key top.
Proof.
  intros Hn Hheap Htop p. induction p as [p IH] using lt_wf_ind.
  intros x Hp Hx.
  destruct (decide (p = 1)%nat) as [-> | Hp1].
  { simpl in Hx. rewrite Htop in Hx. injection Hx as <-. lia. }
  assert (exists q, (1 <= q)%nat /\ child q p) as (q & Hq & Hchild).
  { destruct (Nat.Even_or_Odd p) as [[q ->] | [q ->]]; exists q; split;
      try lia; [now left | now right]. }
  pose proof (child_above q p Hq Hchild) as Hqp.
  destruct (lookup_lt_is_Some_2 a (q - 1)) as [y Hy]; [lia | ].
  transitivity (key y).
  - apply (Hheap q p x y); [lia | exact Hchild | lia | exact Hx | exact Hy].
  - apply (IH q); [lia | lia | exact Hy].
Qed.

Lemma extract_spec n (a : list A) :
  (n <= length a)%nat ->
  heap_from key 1 n a ->
  StronglySorted (key_le key) (drop n a) ->
  (forall x y, x ∈ take n a -> y ∈ drop n a -> key x <= key y) ->
  StronglySorted (key_le key) (Numpy.extract key n a)
  /\ Numpy.extract key n a ≡ₚ a.
Proof.
  revert a. induction n as [ | n' IH]; intros a Hn Hheap Hsorted Hle.
  { simpl. split; [exact Hsorted | reflexivity]. }
  destruct n' as [ | k].
  { simpl. split; [ | reflexivity].
    rewrite <- (take_drop 1 a).
    apply StronglySorted_app_2; [exact Hle | | exact Hsorted].
    destruct a; simpl; repeat constructor. }
  change (Numpy.extract key (S (S k)) a)
    with (match a !! S k, a !! 0%nat with
          | Some tmp, Some top =>
              Numpy.extract key (S k)
                (Numpy.sift key (S k) tmp (S k) 1 2
                   (Numpy.set1 a (S (S k)) top))
          | _, _ => a
          end).
  remember (S k) as n' eqn:Hn'.
  destruct (lookup_lt_is_Some_2 a n') as [tmp Htmp]; [lia | ].
  destruct (lookup_lt_is_Some_2 a 0) as [top Htop]; [lia | ].
  rewrite Htmp, Htop.
  (* the array in its parts *)
  assert (exists pre suf,
            a = (top :: pre) ++ tmp :: suf /\ length (top :: pre) = n'
            /\ drop (S n') a = suf /\ take (S n') a = (top :: pre) ++ [tmp])
    as (pre & suf & Ha & Hpre & Hsuf & Htake).
  { pose proof (take_drop_middle a n' tmp Htmp) as Hmid.
    destruct (take n' a) as [ | top' pre] eqn:Hpre.
    { apply (f_equal length) in Hpre. rewrite length_take in Hpre.
      simpl in Hpre. lia. }
    assert (top' = top) as ->.
    { rewrite <- Hmid in Htop. simpl in Htop. now injection Htop. }
    exists pre, (drop (S n') a). split; [now rewrite Hmid | ].
    split; [rewrite <- Hpre, length_take; lia | ].
    split; [reflexivity | ].
    rewrite (take_S_r a n' tmp Htmp). now rewrite Hpre. }
  assert (Numpy.set1 a (S n') top = (top :: pre) ++ top :: suf) as Ha1.
  { unfold Numpy.set1. simpl. rewrite Nat.sub_0_r. rewrite Ha.
    rewrite insert_app_r_alt by lia. rewrite Hpre, Nat.sub_diag. reflexivity. }
  assert (heap_from key 1 n' (Numpy.sift key n' tmp n' 1 2
                            (Numpy.set1 a (S n') top))) as Hheap'.
  { apply sift_heap; [lia | rewrite length_set1; lia | lia | lia | ].
    split.
    - intros p c x y Hp Hchild Hc Hp1 Hc1.
      assert (1 <= c /\ p < c)%nat as [? ?]
        by (split; [destruct Hchild; lia | now apply child_above]).
      rewrite !lookup_set1 by lia.
      rewrite !decide_False by lia.
      apply (Hheap p c x y); [lia | exact Hchild | lia].
    - intros p y Hp Hchild. apply child_above in Hchild; lia. }
  rewrite Ha1 in *.
  rewrite sift_app in * by (try rewrite Hpre; lia).
  set (pre' := Numpy.sift key n' tmp n' 1 2 (top :: pre)) in *.
  assert (pre' ≡ₚ tmp :: pre) as Hperm.
  { unfold pre'. rewrite sift_perm by (try rewrite Hpre; lia).
    reflexivity. }
  assert (length pre' = n') as Hlen'.
  { unfold pre'. now rewrite sift_length. }
  assert (forall x, x ∈ (top :: pre) ++ [tmp] -> key x <= key top) as Hmax.
  { intros x Hx. rewrite <- Htake in Hx.
    apply list_elem_of_lookup in Hx as [i Hi].
    apply lookup_take_Some in Hi as [Hi Hlt].
    apply (root_max (S n') a top Hn Hheap Htop (S i)); [lia | ].
    simpl. now rewrite Nat.sub_0_r. }
  destruct (IH (pre' ++ top :: suf)) as [Hs Hp].
  - rewrite length_app. simpl. lia.
  - exact Hheap'.
  - rewrite drop_app_length' by (symmetry; exact Hlen').
    constructor.
    + rewrite <- Hsuf. exact Hsorted.
    + apply Forall_forall. intros y Hy. apply Hle.
      * rewrite Htake. left.
      * now rewrite Hsuf.
  - rewrite take_app_length', drop_app_length' by (symmetry; exact Hlen').
    intros x y Hx Hy. rewrite Hperm in Hx.
    assert (x ∈ (top :: pre) ++ [tmp]) as Hx'.
    { apply elem_of_app.
      apply elem_of_cons in Hx as [-> | Hx]; [right; left | ].
      left. now right. }
    apply elem_of_cons in Hy as [-> | Hy].
    + now apply Hmax.
    + apply Hle; [now rewrite Htake | now rewrite Hsuf].
  - split; [exact Hs | ].
    rewrite Hp, Hperm, Ha. perm_solve.
Qed.

Lemma aheapsort_perm (seg : list A) : Numpy.aheapsort key seg ≡ₚ seg.
Proof.
  unfold Numpy.aheapsort.
  assert (length seg / 2 <= length seg)%nat as Hhalf
    by (pose proof (Nat.div_mod_eq (length seg) 2); lia).
  assert (heap_from key 1 (length seg)
            (Numpy.heapify key (length seg / 2) (length seg) seg)) as Hheap.
  { apply heapify_heap; [lia | ].
    intros p c x y Hp Hchild Hc.
    pose proof (Nat.div_mod_eq (length seg) 2).
    pose proof (Nat.mod_upper_bound (length seg) 2 ltac:(lia)).
    destruct Hchild; lia. }
  destruct (extract_spec (length seg)
              (Numpy.heapify key (length seg / 2) (length seg) seg))
    as [_ Hperm].
  - now rewrite heapify_length.
  - exact Hheap.
  - rewrite drop_ge by now rewrite heapify_length. constructor.
  - intros x y _ Hy.
    rewrite drop_ge in Hy by now rewrite heapify_length.
    now apply elem_of_nil in Hy.
  - rewrite Hperm. apply heapify_perm. lia.
Qed.

Lemma aheapsort_sorted (seg : list A) :
  StronglySorted (key_le key) (Numpy.aheapsort key seg).
Proof.
  unfold Numpy.aheapsort.
  assert (length seg / 2 <= length seg)%nat as Hhalf
    by (pose proof (Nat.div_mod_eq (length seg) 2); lia).
  assert (heap_from key 1 (length seg)
            (Numpy.heapify key (length seg / 2) (length seg) seg)) as Hheap.
  { apply heapify_heap; [lia | ].
    intros p c x y Hp Hchild Hc.
    pose proof (Nat.div_mod_eq (length seg) 2).
    pose proof (Nat.mod_upper_bound (length seg) 2 ltac:(lia)).
    destruct Hchild; lia. }
  destruct (extract_spec (length seg)
              (Numpy.heapify key (length seg / 2) (length seg) seg))
    as [Hsorted _].
  - now rewrite heapify_length.
  - exact Hheap.
  - rewrite drop_ge by now rewrite heapify_length. constructor.
  - intros x y _ Hy.
    rewrite drop_ge in Hy by now rewrite heapify_length.
    now apply elem_of_nil in Hy.
  - exact Hsorted.
Qed.



(** *** The introsort *)

Lemma sorted_around (below above below' above' : list A) p :
  below' ≡ₚ below -> above' ≡ₚ above ->
  Forall (fun a => key a <= key p) below ->
  Forall (fun a => key p <= key a) above ->
  StronglySorted (key_le key) below' ->
  StronglySorted (key_le key) above' ->
  StronglySorted (key_le key) (below' ++ p :: above').
Proof.
  intros Hb Ha Hbelow Habove Hsb Hsa.
  rewrite <- Hb in Hbelow. rewrite <- Ha in Habove.
  rewrite Forall_forall in Hbelow. rewrite Forall_forall in Habove.
  apply StronglySorted_app_2; [ | exact Hsb | ].
  - intros x y Hx Hy. unfold key_le.
    apply elem_of_cons in Hy as [-> | Hy]; [now apply Hbelow | ].
    specialize (Hbelow x Hx). specialize (Habove y Hy). lia.
  - constructor; [exact Hsa | ].
    apply Forall_forall. exact Habove.
Qed.

Lemma aquicksort_from_spec fuel cdepth (seg : list A) :
  (length seg < fuel)%nat ->
  Numpy.aquicksort_from key fuel cdepth seg ≡ₚ seg
  /\ StronglySorted (key_le key) (Numpy.aquicksort_from key fuel cdepth seg).
Proof.
  revert cdepth seg. induction fuel as [ | fuel IH]; intros cdepth seg Hlen;
    [lia | ].
  simpl.
  destruct (if (Numpy.SMALL_QUICKSORT <? length seg - 1)%nat
            then Numpy.partition key seg else None)
    as [[[below p] above] | ] eqn:Hpart.
  2:{ split; [apply insertion_perm | apply insertion_sorted]. }
  destruct (Numpy.SMALL_QUICKSORT <? length seg - 1)%nat; [ | discriminate].
  apply partition_spec in Hpart as (Hperm & Hbelow & Habove).
  assert (length below + S (length above) = length seg)%nat as Hlens.
  { rewrite <- Hperm, length_app. reflexivity. }
  assert (forall part, (length part < fuel)%nat ->
            (if cdepth - 1 <? 0 then Numpy.aheapsort key part
             else Numpy.aquicksort_from key fuel (cdepth - 1) part) ≡ₚ part
            /\ StronglySorted (key_le key)
                 (if cdepth - 1 <? 0 then Numpy.aheapsort key part
                  else Numpy.aquicksort_from key fuel (cdepth - 1) part))
    as Hpopped.
  { intros part Hpart. destruct (cdepth - 1 <? 0).
    - split; [apply aheapsort_perm | apply aheapsort_sorted].
    - now apply IH. }
  destruct (IH (cdepth - 1) below ltac:(lia)) as [Hbp Hbs].
  destruct (IH (cdepth - 1) above ltac:(lia)) as [Hap Has].
  destruct (Hpopped below ltac:(lia)) as [Hbp' Hbs'].
  destruct (Hpopped above ltac:(lia)) as [Hap' Has'].
  destruct (length below <? length above)%nat.
  - split.
    + now rewrite Hbp, Hap'.
    + now apply (sorted_around below above).
  - split.
    + now rewrite Hbp', Hap.
    + now apply (sorted_around below above).
Qed.

Lemma aquicksort_perm (seg : list A) : Numpy.aquicksort key seg ≡ₚ seg.
Proof. apply aquicksort_from_spec. lia. Qed.

Lemma aquicksort_sorted (seg : list A) :
  StronglySorted (key_le key) (Numpy.aquicksort key seg).
Proof. apply aquicksort_from_spec. lia. Qed.

(** Up to 17 elements that are in order stay as they are. *)
Lemma aquicksort_stays (seg : list A) :
  (length seg <= 17)%nat -> StronglySorted (key_le key) seg ->
  Numpy.aquicksort key seg = seg.
Proof.
  intros Hlen Hsorted. unfold Numpy.aquicksort. simpl.
  destruct (Nat.ltb_spec Numpy.SMALL_QUICKSORT (length seg - 1)) as [Hlt | _].
  { unfold Numpy.SMALL_QUICKSORT in Hlt. lia. }
  now apply insertion_stays.
Qed.

End Argsort.

(** *** pandas' sort of the rows *)

Lemma filter_split {A} (f : A -> bool) (l : list A) :
  List.filter f l ++ List.filter (fun a => negb (f a)) l ≡ₚ l.
Proof.
  induction l as [ | a l IH]; simpl; [reflexivity | ].
  destruct (f a); simpl; [now rewrite IH | ].
  now rewrite <- Permutation_middle, IH.
Qed.

Lemma filter_holds {A} (f : A -> bool) (l : list A) :
  Forall (fun a => f a = true) (List.filter f l).
Proof.
  apply Forall_forall. intros a Ha.
  apply list_elem_of_In, filter_In in Ha. apply Ha.
Qed.

Lemma StronglySorted_among {A} (P : A -> Prop) (R R' : relation A) l :
  Forall P l -> (forall a b, P a -> P b -> R a b -> R' a b) ->
  StronglySorted R l -> StronglySorted R' l.
Proof.
  intros HP Himp. induction 1 as [ | a l _ IH Hall]; constructor.
  - apply IH. now apply Forall_cons in HP.
  - apply Forall_cons in HP as [Ha HP].
    rewrite Forall_forall in *. intros b Hb. apply Himp; auto.
Qed.

Lemma StronglySorted_any {A} (P : A -> Prop) (R : relation A) l :
  Forall P l -> (forall a b, P a -> P b -> R a b) -> StronglySorted R l.
Proof.
  intros HP HR. induction l as [ | a l IH]; constructor.
  - apply IH. now apply Forall_cons in HP.
  - apply Forall_cons in HP as [Ha HP].
    rewrite Forall_forall in *. intros b Hb. apply HR; auto.
Qed.

Lemma dated_by_date p q :
  Pandas.dated p = true -> Pandas.dated q = true ->
  key_le Pandas.date_ns p q <-> by_date p q.
Proof.
  unfold Pandas.dated, key_le, Pandas.date_ns, by_date.
  destruct p as [[a | ] s], q as [[b | ] t]; simpl; try discriminate.
  intros _ _. now rewrite Z.leb_le.
Qed.

Lemma undated_last p q : Pandas.dated q = false -> by_date p q.
Proof.
  unfold Pandas.dated, by_date.
  destruct p as [[a | ] s], q as [[b | ] t]; simpl; try discriminate; auto.
Qed.

(** The sort returns the rows rearranged and in ascending order of date,
    the rows without date last. *)
Lemma sort_values_contract : sorts_by_date Pandas.sort_values.
Proof.
  intros rows. unfold Pandas.sort_values. split.
  - rewrite aquicksort_perm. symmetry. apply filter_split.
  - apply StronglySorted_Sorted, StronglySorted_app_2.
    + intros p q _ Hq. apply undated_last.
      apply list_elem_of_In, filter_In in Hq as [_ Hq].
      now apply negb_true_iff in Hq.
    + apply (StronglySorted_among (fun p => Pandas.dated p = true)
               (key_le Pandas.date_ns)).
      * rewrite aquicksort_perm. apply filter_holds.
      * intros p q Hp Hq. now apply dated_by_date.
      * apply aquicksort_sorted.
    + apply (StronglySorted_any (fun p => Pandas.dated p = false)).
      * eapply Forall_impl; [apply filter_holds | ].
        intros p Hp. now apply negb_true_iff in Hp.
      * intros p q _ Hq. now apply undated_last.
Qed.

(** Rows in ascending order have their dated rows first. *)
Lemma sorted_dated_first rows :
  StronglySorted by_date rows ->
  rows = List.filter Pandas.dated rows
         ++ List.filter (fun p => negb (Pandas.dated p)) rows
  /\ StronglySorted (key_le Pandas.date_ns) (List.filter Pandas.dated rows).
Proof.
  induction 1 as [ | p rows Hsorted [IHrows IHdated] Hall]; simpl;
    [split; [reflexivity | constructor] | ].
  destruct (Pandas.dated p) eqn:Hp; simpl.
  - split; [now rewrite <- IHrows | ].
    constructor; [exact IHdated | ].
    apply Forall_forall. intros q Hq.
    apply list_elem_of_In, filter_In in Hq as [Hin Hq].
    apply dated_by_date; [exact Hp | exact Hq | ].
    rewrite Forall_forall in Hall. now apply Hall, list_elem_of_In.
  - assert (Forall (fun q => Pandas.dated q = false) rows) as Hnone.
    { eapply Forall_impl; [exact Hall | ].
      unfold by_date, Pandas.dated in *.
      destruct p as [[a | ] s]; [discriminate | ].
      intros [[b | ] t]; simpl; [discriminate | reflexivity]. }
    assert (List.filter Pandas.dated rows = []) as Hempty.
    { apply filter_none. exact Hnone. }
    rewrite Hempty in *. simpl in *. split; [now rewrite <- IHrows | constructor].
Qed.

(** Up to 17 dated rows in ascending order stay as they are, and so do
    the rows without date after them. *)
Lemma sort_values_stays rows :
  Sorted by_date rows ->
  (length (List.filter Pandas.dated rows) <= 17)%nat ->
  Pandas.sort_values rows = rows.
Proof.
  intros Hsorted Hlen.
  apply Sorted_StronglySorted in Hsorted; [ | apply _].
  destruct (sorted_dated_first rows Hsorted) as [Hrows Hdated].
  unfold Pandas.sort_values.
  rewrite aquicksort_stays by assumption.
  now rewrite <- Hrows.
Qed.

(** *** The frame of the history *)

Lemma columns_of_records (rs : list (gmap string json)) (name : string) :
  name ∈ concat (map (fun r => map fst (map_to_list r)) rs)
  <-> exists r, r ∈ rs /\ is_Some (r !! name).
Proof.
  rewrite list_elem_of_In, in_concat. split.
  - intros (l & Hl & Hname). apply in_map_iff in Hl as (r & <- & Hr).
    exists r. split; [now apply list_elem_of_In | ].
    apply in_map_iff in Hname as ([k v] & <- & Hkv).
    apply list_elem_of_In, elem_of_map_to_list in Hkv. simpl. eauto.
  - intros (r & Hr & [v Hv]).
    exists (map fst (map_to_list r)). split.
    + apply in_map_iff. exists r. split; [reflexivity | ].
      now apply list_elem_of_In.
    + apply in_map_iff. exists (name, v). split; [reflexivity | ].
      now apply list_elem_of_In, elem_of_map_to_list.
Qed.

(** The frame of a list of points with [x] and [y] and without [score]:
    the dates are the converted [x] cells, the scores the [y] cells, point
    by point in the order of the payload. *)
Lemma history_frame_points x points rs dates :
  Pandas.records points = Some rs ->
  (exists r, r ∈ rs /\ is_Some (r !! "x")) ->
  (exists r, r ∈ rs /\ is_Some (r !! "y")) ->
  (forall r, r ∈ rs -> r !! "score" = None) ->
  to_datetime x (map (fun r => r !! "x") rs) = Ok dates ->
  length dates = length rs ->
  history_frame x (JArr points)
  = Ok (zip dates (map (fun r => r !! "y") rs)).
Proof.
  intros Hrs Hx Hy Hscore Hdates Hlen.
  unfold history_frame, Pandas.DataFrame. rewrite Hrs. simpl.
  unfold Pandas.column. simpl.
  set (cols := concat (map (fun r => map fst (map_to_list r)) rs)).
  assert (bool_decide ("x" ∈ cols) = true) as ->
    by (apply bool_decide_eq_true_2; now apply columns_of_records).
  assert (bool_decide ("y" ∈ cols) = true) as ->
    by (apply bool_decide_eq_true_2; now apply columns_of_records).
  assert (bool_decide ("score" ∈ cols) = false) as ->.
  { apply bool_decide_eq_false_2. unfold cols. rewrite columns_of_records.
    intros (r & Hr & [v Hv]). rewrite (Hscore r Hr) in Hv. discriminate. }
  simpl. rewrite Hdates. simpl.
  now rewrite Hlen, Nat.eqb_refl.
Qed.

(** A chart that is built shows the sorted rows of the frame. *)
Lemma build_history_chart_built x m fig :
  build_history_chart x (JObj m) = Ok (Some fig) ->
  exists h hist rows,
    default (JObj ∅) (m !! "fear_and_greed_historical") = JObj h
    /\ default JNull (h !! "data") = hist
    /\ Value.truth hist = true
    /\ history_frame x hist = Ok rows
    /\ trace fig = Pandas.sort_values rows.
Proof.
  unfold build_history_chart. intros H.
  apply bind_ok in H as (hval & Hhval & H).
  apply bind_ok in H as (hist & Hhist & H).
  injection Hhval as <-.
  apply get_ok in Hhist as (h & Hh & ->).
  destruct (Value.truth (default JNull (h !! "data"))) eqn:Htruth;
    [ | discriminate].
  simpl in H. apply bind_ok in H as (rows & Hrows & [= <-]).
  exists h, (default JNull (h !! "data")), rows. auto.
Qed.

(** C7 fails, as stated, for its round trip: 18 points in ascending order
    of time, the ninth and the tenth at the same time.  The frame has
    them in the order of the payload, which is ascending; the sort leaves
    every date in its place and swaps the two rows: the tenth point, with
    its score 10, is shown before the ninth. *)
Lemma tied_points_change_places :
  exists fig,
    build_history_chart Sample.libraries Sample.tied = Ok (Some fig)
    /\ history_frame Sample.libraries (JArr Sample.tied_points)
       = Ok Sample.tied_rows
    /\ Sorted by_date Sample.tied_rows
    /\ trace fig = Pandas.sort_values Sample.tied_rows
    /\ map fst (trace fig) = map fst Sample.tied_rows
    /\ Sample.tied_rows !! 8%nat
       = Some (Some 9000000000, Some (JNum (PInt 9)))
    /\ trace fig !! 8%nat = Some (Some 9000000000, Some (JNum (PInt 10)))
    /\ Sample.tied_rows !! 9%nat
       = Some (Some 9000000000, Some (JNum (PInt 10)))
    /\ trace fig !! 9%nat = Some (Some 9000000000, Some (JNum (PInt 9))).
Proof.
  eexists. split; [vm_compute; reflexivity | ].
  split; [vm_compute; reflexivity | ].
  split; [unfold Sample.tied_rows; repeat constructor | ].
  split; [vm_compute; reflexivity | ].
  split; [vm_compute; reflexivity | ].
  repeat split; vm_compute; reflexivity.
Qed.

(** C7, amended.  A history chart that is built shows the rows of the
    frame rearranged into ascending order of date, the rows without date
    last, whatever their order in the payload.  Rows that come in
    ascending order keep every date in its place; they are left exactly
    as they are when no two of them have the same date, and also when at
    most 17 of them have a date.  And for a payload whose historical
    array is a non-empty list of points with [x] and [y] and without
    [score], whose [x] cells pandas converts, the chart is built: its
    rows are the converted [x] cells with the [y] cells, point by point,
    sorted. *)
Theorem history_sorted x m :
  (forall fig,
     build_history_chart x (JObj m) = Ok (Some fig) ->
     exists h hist rows,
       default (JObj ∅) (m !! "fear_and_greed_historical") = JObj h
       /\ default JNull (h !! "data") = hist
       /\ history_frame x hist = Ok rows
       /\ trace fig = Pandas.sort_values rows
       /\ Permutation rows (trace fig)
       /\ StronglySorted by_date (trace fig)
       /\ (Sorted by_date rows -> map fst (trace fig) = map fst rows)
       /\ (Sorted before rows -> trace fig = rows)
       /\ (Sorted by_date rows ->
           (length (List.filter Pandas.dated rows) <= 17)%nat ->
           trace fig = rows))
  /\ (forall h points rs dates,
        default (JObj ∅) (m !! "fear_and_greed_historical") = JObj h ->
        h !! "data" = Some (JArr points) ->
        points <> [] ->
        Pandas.records points = Some rs ->
        (exists r, r ∈ rs /\ is_Some (r !! "x")) ->
        (exists r, r ∈ rs /\ is_Some (r !! "y")) ->
        (forall r, r ∈ rs -> r !! "score" = None) ->
        to_datetime x (map (fun r => r !! "x") rs) = Ok dates ->
        length dates = length rs ->
        exists fig,
          build_history_chart x (JObj m) = Ok (Some fig)
          /\ trace fig
             = Pandas.sort_values (zip dates (map (fun r => r !! "y") rs))).
Proof.
  split.
  - intros fig Hfig.
    apply build_history_chart_built in Hfig
      as (h & hist & rows & Hh & Hhist & _ & Hrows & Htrace).
    exists h, hist, rows. rewrite Htrace.
    split; [exact Hh | ]. split; [exact Hhist | ]. split; [exact Hrows | ].
    split; [reflexivity | ].
    split; [apply sort_values_contract | ].
    split; [apply sort_strongly_sorted, sort_values_contract | ].
    split; [apply sort_sorted_dates, sort_values_contract | ].
    split; [apply sort_sorted_noop, sort_values_contract | ].
    apply sort_values_stays.
  - intros h points rs dates Hh Hdata Hne Hrs Hx Hy Hscore Hdates Hlen.
    eexists. split.
    + unfold build_history_chart. simpl. rewrite Hh. simpl.
      rewrite Hdata. simpl.
      destruct points; [contradiction | ]. simpl.
      rewrite (history_frame_points x _ rs dates) by assumption.
      reflexivity.
    + reflexivity.
Qed.

Lemma history_sorted_witness :
  exists fig,
    build_history_chart Sample.libraries Sample.payload = Ok (Some fig) /\
    trace fig =
    [ (Some 1000000000, Some (JNum (PInt 60)));
      (Some 2000000000, Some (JNum (PInt 50)));
      (Some 3000000000, Some (JNum (PInt 40))) ].
Proof.
  destruct (proj2 (history_sorted Sample.libraries Sample.payload_fields)
              (list_to_map [("data", JArr Sample.history_points)])
              Sample.history_points
              (map (fun xy => list_to_map [("x", JNum (PInt xy.1));
                                           ("y", JNum (PInt xy.2))])
                   [(3000, 40); (1000, 60); (2000, 50)])
              (map fst Sample.history_rows)
              eq_refl eq_refl ltac:(discriminate) eq_refl)
    as (fig & Hbuilt & Htrace).
  - eexists. split; [left | now exists (JNum (PInt 3000))].
  - eexists. split; [left | now exists (JNum (PInt 40))].
  - intros r Hr. repeat (apply elem_of_cons in Hr as [-> | Hr]);
      [reflexivity .. | now apply elem_of_nil in Hr].
  - reflexivity.
  - reflexivity.
  - exists fig. split; [exact Hbuilt | ].
    rewrite Htrace. vm_compute. reflexivity.
Defined.

(** ** The delta against the previous close *)

(** A finite number minus itself is zero, and shows as [+0.0]. *)
Lemma sub_self s :
  Py.is_finite s = true ->
  exists d, Py.sub s s = Ok d /\ Py.is_zero d = true /\
            Py.round1 d = d /\ Format.f1 true d = Ok "+0.0".
Proof.
  destruct s as [z | [sg | sg | | sg m e]]; try discriminate; intros _.
  - exists (PInt 0). simpl. rewrite Z.sub_diag. now repeat split.
  - exists (PFloat (S754_zero false)). destruct sg; now repeat split.
  - exists (PFloat (S754_zero false)). split; [ | now repeat split].
    simpl. unfold SFsub. cbv zeta. now rewrite Z.sub_diag.
Qed.

Lemma top_row_run c d value_text delta_text e w :
  delta_of c = Ok d ->
  Format.f1 false (current_score c) = Ok value_text ->
  Format.f1 true d = Ok delta_text ->
  top_row c e w =
  (Done (),
   drawn w
     ([ (ColGauge, Gauge (build_gauge (current_score c) "Current Index"));
        (ColInfo, Markdown "### Sentiment");
        (ColInfo, Heading (color c) (rating_display c));
        (ColInfo, Metric "Score" value_text (delta_text +:+ " vs prev close")) ]
      ++ (if String.eqb (last_updated c) "" then []
          else [(ColInfo, Caption ("Last updated: " +:+ last_updated c))])
      ++ [(ColInfo, Markdown sentiment_table)])).
Proof.
  intros Hd Hv Ht. unfold top_row, mbind, script_bind, St.draw, St.eval. simpl.
  rewrite Hd, Hv, Ht. unfold drawn.
  destruct (String.eqb (last_updated c) ""); simpl;
    now rewrite <- !app_assoc.
Qed.

(** C8, as stated, fails for a score that is not finite: a literal too
    large for a binary64 is read as [inf], the previous close defaults to
    it, and [inf - inf] is a NaN, shown as [+nan]. *)
Lemma delta_of_infinite_score :
  exists c d,
    read_current Sample.libraries Sample.overflowing = Ok c /\
    previous_close c = JNum (current_score c) /\
    delta_of c = Ok d /\
    Py.is_zero d = false /\
    Format.f1 true d = Ok "+nan".
Proof.
  eexists. eexists. split; [vm_compute; reflexivity | ].
  split; [reflexivity | ]. split; [vm_compute; reflexivity | ].
  split; reflexivity.
Qed.

(** C8, amended.  When the current reading has no [previous_close], the
    previous close is the current score itself, and for a finite score the
    delta is zero and shows as [+0.0]; when [previous_close] is there, the
    delta is the current score minus it, rounded to the one decimal it is
    shown with.  The metric drawn in the top row shows that delta. *)
Theorem previous_close_default x m fg c :
  read_current x (JObj m) = Ok c ->
  fear_and_greed m = JObj fg ->
  (fg !! "previous_close" = None ->
     Value.as_number (previous_close c) = Ok (current_score c)
     /\ (Py.is_finite (current_score c) = true ->
         exists d, delta_of c = Ok d /\ Py.is_zero d = true /\
                   Format.f1 true d = Ok "+0.0"))
  /\ (forall v pc,
        fg !! "previous_close" = Some v -> Value.as_number v = Ok pc ->
        previous_close c = v /\
        delta_of c = (d ← Py.sub (current_score c) pc; Ok (Py.round1 d)))
  /\ (forall d value_text delta_text e,
        delta_of c = Ok d ->
        Format.f1 false (current_score c) = Ok value_text ->
        Format.f1 true d = Ok delta_text ->
        outcome (top_row c) e = Done () /\
        In (ColInfo, Metric "Score" value_text (delta_text +:+ " vs prev close"))
           (page (top_row c) e)).
Proof.
  intros Hc Hfg.
  apply read_current_inv in Hc as (m' & fg' & [= <-] & Hfg' & Hc).
  rewrite Hfg in Hfg'. injection Hfg' as <-.
  simpl in Hc. destruct Hc as (Hscore & Hpc & _).
  split; [ | split].
  - intros Habsent. rewrite Habsent in Hpc. simpl in Hpc.
    assert (Value.as_number (previous_close c) = Ok (current_score c)) as Hsame
      by now rewrite Hpc.
    split; [exact Hsame | ].
    intros Hfinite. destruct (sub_self _ Hfinite) as (d & Hsub & Hzero & Hround & Htext).
    exists d. unfold delta_of. rewrite Hsame. simpl. rewrite Hsub. simpl.
    now rewrite Hround.
  - intros v pc Hv Hnum. rewrite Hv in Hpc. simpl in Hpc.
    split; [exact Hpc | ].
    unfold delta_of. rewrite Hpc, Hnum. reflexivity.
  - intros d value_text delta_text e Hd Hv Ht.
    unfold outcome, page.
    rewrite (top_row_run c d value_text delta_text e fresh_world Hd Hv Ht).
    split; [reflexivity | ]. simpl. tauto.
Qed.

Lemma previous_close_default_witness :
  match read_current Sample.libraries Sample.mislabelled with
  | Ok c => Value.as_number (previous_close c) = Ok (current_score c)
  | Raise _ => False
  end.
Proof.
  destruct (read_current Sample.libraries Sample.mislabelled) as [c | ] eqn:Hc;
    [ | vm_compute in Hc; discriminate].
  refine (proj1 (proj1 (previous_close_default Sample.libraries _
                          (list_to_map [("score", JNum (PInt 10));
                                        ("rating", JStr "greed")])
                          c Hc eq_refl) eq_refl)).
Defined.

(** With a previous close: 72.3 against 70.1 shows [+2.2]. *)
Lemma delta_shown :
  match read_current Sample.libraries Sample.payload with
  | Ok c => (d ← delta_of c; Format.f1 true d) = Ok "+2.2"
  | Raise _ => False
  end.
Proof. vm_compute. reflexivity. Qed.


(** ** The page, section by section *)

#[global] Instance sections_drawing x data c : Drawing (sections x data c).
Proof. unfold sections. apply _. Qed.

#[global] Instance dashboard_drawing data : Drawing (dashboard data).
Proof.
  apply drawing_intro. intros e. unfold dashboard.
  destruct (read_current (ext e) data) as [c | err].
  - exists (outcome (sections (ext e) data c) e),
           (page (sections (ext e) data c) e).
    intros w. apply sections_drawing.
  - exists (Crashed err), []. intros w. now rewrite drawn_nil.
Qed.

Lemma dashboard_read data e :
  outcome (dashboard data) e = Done () ->
  exists c, read_current (ext e) data = Ok c /\
            outcome (sections (ext e) data c) e = Done () /\
            page (dashboard data) e = page (sections (ext e) data c) e.
Proof.
  unfold outcome at 1, page at 1, dashboard.
  destruct (read_current (ext e) data) as [c | err]; [ | discriminate].
  intros H. exists c. split; [reflexivity | ]. split; [exact H | reflexivity].
Qed.

Lemma dashboard_built data e c :
  read_current (ext e) data = Ok c ->
  outcome (dashboard data) e = outcome (sections (ext e) data c) e /\
  page (dashboard data) e = page (sections (ext e) data c) e.
Proof. intros H. unfold outcome, page, dashboard. now rewrite H. Qed.

(** Two scripts in a row. *)
Lemma then_done {A B} (m : script A) (k : script B) e b :
  Drawing m -> Drawing k ->
  outcome (m ;; k) e = Done b ->
  (exists a, outcome m e = Done a) /\ outcome k e = Done b /\
  page (m ;; k) e = page m e ++ page k e.
Proof.
  intros Hm Hk. rewrite outcome_bind, page_bind by (intros; apply _).
  destruct (outcome m e) as [a | | err]; try discriminate. eauto.
Qed.

Lemma done_then {A B} (m : script A) (k : script B) e a :
  Drawing m -> Drawing k ->
  outcome m e = Done a ->
  outcome (m ;; k) e = outcome k e /\
  page (m ;; k) e = page m e ++ page k e.
Proof.
  intros Hm Hk Ha. rewrite outcome_bind, page_bind by (intros; apply _).
  now rewrite Ha.
Qed.

(** A page that came out well is its four sections one after another. *)
Lemma sections_done x data c e :
  outcome (sections x data c) e = Done () <->
  outcome (top_row c) e = Done () /\
  outcome (history_section x data) e = Done () /\
  outcome (indicator_section data) e = Done ().
Proof.
  unfold sections. split.
  - intros H. apply then_done in H as ([[] Htop] & H & _); try apply _.
    apply then_done in H as ([[] Hhist] & H & _); try apply _.
    apply then_done in H as ([[] Hind] & _ & _); try apply _. auto.
  - intros (Htop & Hhist & Hind).
    rewrite (proj1 (done_then _ _ _ _ _ _ Htop)).
    rewrite (proj1 (done_then _ _ _ _ _ _ Hhist)).
    rewrite (proj1 (done_then _ _ _ _ _ _ Hind)). reflexivity.
Qed.

Lemma sections_page x data c e :
  outcome (sections x data c) e = Done () ->
  page (sections x data c) e =
  page (top_row c) e ++ page (history_section x data) e ++
  page (indicator_section data) e ++ page footer e.
Proof.
  unfold sections. intros H.
  apply then_done in H as (_ & H & ->); try apply _.
  apply then_done in H as (_ & H & ->); try apply _.
  apply then_done in H as (_ & _ & ->); try apply _. reflexivity.
Qed.

Lemma history_section_run x data e :
  outcome (history_section x data) e =
    match build_history_chart x data with
    | Ok _ => Done ()
    | Raise err => Crashed err
    end
  /\ page (history_section x data) e =
    (Page, Divider) ::
    match build_history_chart x data with
    | Ok (Some fig) => [(Page, History fig)]
    | Ok None => [history_unavailable]
    | Raise _ => []
    end.
Proof.
  unfold outcome, page, history_section, mbind, script_bind, St.draw, St.eval.
  simpl. destruct (build_history_chart x data) as [[fig | ] | err]; now split.
Qed.

Lemma indicator_section_run data e :
  outcome (indicator_section data) e
    = outcome (indicator_loop INDICATOR_KEYS 0 data) e
  /\ page (indicator_section data) e =
    [(Page, Divider); (Page, Subheader "Component Indicators")]
    ++ page (indicator_loop INDICATOR_KEYS 0 data) e.
Proof.
  unfold indicator_section.
  rewrite !outcome_bind, !page_bind by (intros; apply _). now split.
Qed.

Lemma footer_page e : Forall (fun el => el.1 = Page) (page footer e).
Proof. repeat constructor. Qed.

(** A top row that came out well computed its delta and its two texts. *)
Lemma top_row_done c e :
  outcome (top_row c) e = Done () ->
  exists d value_text delta_text,
    delta_of c = Ok d /\
    Format.f1 false (current_score c) = Ok value_text /\
    Format.f1 true d = Ok delta_text.
Proof.
  unfold outcome, top_row, mbind, script_bind, St.draw, St.eval. simpl.
  destruct (delta_of c) as [d | ]; [ | discriminate].
  destruct (Format.f1 false (current_score c)) as [vt | ]; [ | discriminate].
  destruct (Format.f1 true d) as [dt | ] eqn:Hdt; [ | discriminate].
  intros _. exists d, vt, dt. auto.
Qed.

(** *** Each section reads its own part of the payload *)

Lemma read_current_ext x m m' :
  m' !! "fear_and_greed" = m !! "fear_and_greed" ->
  read_current x (JObj m') = read_current x (JObj m).
Proof. intros H. unfold read_current. simpl. now rewrite H. Qed.

Lemma build_history_chart_ext x m m' :
  m' !! "fear_and_greed_historical" = m !! "fear_and_greed_historical" ->
  build_history_chart x (JObj m') = build_history_chart x (JObj m).
Proof. intros H. unfold build_history_chart. simpl. now rewrite H. Qed.

Lemma indicator_card_ext m m' key label :
  m' !! key = m !! key ->
  indicator_card (JObj m') key label = indicator_card (JObj m) key label.
Proof. intros H. unfold indicator_card. simpl. now rewrite H. Qed.

Lemma indicator_card_absent m key label :
  Value.truth (default (JObj ∅) (m !! key)) = false ->
  indicator_card (JObj m) key label = Ok None.
Proof. intros H. unfold indicator_card. simpl. now rewrite H. Qed.

Lemma indicator_card_deleted m key label :
  indicator_card (JObj (delete key m)) key label = Ok None.
Proof.
  apply indicator_card_absent. rewrite lookup_delete_eq. apply truth_empty.
Qed.

(** *** The loop without one of its keys *)

Lemma loop_widgets_col keys data e : forall col col',
  outcome (indicator_loop keys col data) e
    = outcome (indicator_loop keys col' data) e
  /\ widgets (page (indicator_loop keys col data) e)
    = widgets (page (indicator_loop keys col' data) e).
Proof.
  induction keys as [ | [key label] rest IH]; intros col col'; [now split | ].
  destruct (loop_step key label rest col data e) as [-> ->].
  destruct (loop_step key label rest col' data e) as [-> ->].
  destruct (indicator_card data key label) as [[c | ] | err].
  - destruct (IH (S col) (S col')) as [-> Hpage]. unfold widgets in *. simpl.
    now rewrite Hpage.
  - apply IH.
  - now split.
Qed.

Lemma loop_ext keys m m' e :
  (forall kl, In kl keys -> m' !! kl.1 = m !! kl.1) ->
  forall col,
    outcome (indicator_loop keys col (JObj m')) e
      = outcome (indicator_loop keys col (JObj m)) e
    /\ page (indicator_loop keys col (JObj m')) e
      = page (indicator_loop keys col (JObj m)) e.
Proof.
  induction keys as [ | [key label] rest IH]; intros Hkeys col; [now split | ].
  destruct (loop_step key label rest col (JObj m) e) as [-> ->].
  destruct (loop_step key label rest col (JObj m') e) as [-> ->].
  rewrite (indicator_card_ext m m') by (apply (Hkeys (key, label)); now left).
  assert (forall kl, In kl rest -> m' !! kl.1 = m !! kl.1) as Hrest
    by (intros kl Hkl; apply Hkeys; now right).
  destruct (indicator_card (JObj m) key label) as [[c | ] | err].
  - destruct (IH Hrest (S col)) as [-> ->]. now split.
  - now apply IH.
  - now split.
Qed.

Lemma loop_delete keys m key label e :
  (forall kl, In kl keys ->
     (kl.1 = key -> kl.2 = label) /\ (kl.1 <> key -> kl.2 <> label)) ->
  forall col,
    outcome (indicator_loop keys col (JObj m)) e = Done () ->
    outcome (indicator_loop keys col (JObj (delete key m))) e = Done ()
    /\ widgets (page (indicator_loop keys col (JObj (delete key m))) e)
      = List.filter (other_than_card label)
          (widgets (page (indicator_loop keys col (JObj m)) e)).
Proof.
  induction keys as [ | [key' label'] rest IH]; intros Hkeys col; [now split | ].
  assert (forall kl, In kl rest ->
            (kl.1 = key -> kl.2 = label) /\ (kl.1 <> key -> kl.2 <> label))
    as Hrest by (intros kl Hkl; apply Hkeys; now right).
  destruct (Hkeys (key', label') ltac:(now left)) as [Hsame Hother].
  simpl in Hsame, Hother.
  destruct (loop_step key' label' rest col (JObj m) e) as [-> ->].
  destruct (loop_step key' label' rest col (JObj (delete key m)) e) as [-> ->].
  destruct (decide (key' = key)) as [-> | Hne].
  - rewrite indicator_card_deleted. rewrite (Hsame eq_refl) in *.
    destruct (indicator_card (JObj m) key label) as [r | err] eqn:Hcard;
      [ | discriminate].
    apply indicator_card_has_score in Hcard.
    destruct r as [c | ]; [ | now apply IH].
    destruct Hcard as (_ & text & colour & rating & info & ->).
    intros Hdone. unfold widgets at 2. simpl. rewrite String.eqb_refl. simpl.
    destruct (IH Hrest (S col) Hdone) as [Hout Hpage].
    destruct (loop_widgets_col rest (JObj (delete key m)) e col (S col))
      as [-> ->].
    now split.
  - rewrite (indicator_card_ext m (delete key m))
      by (apply lookup_delete_ne; congruence).
    destruct (indicator_card (JObj m) key' label') as [r | err] eqn:Hcard;
      [ | discriminate].
    apply indicator_card_has_score in Hcard.
    destruct r as [c | ]; [ | now apply IH].
    destruct Hcard as (_ & text & colour & rating & info & ->).
    intros Hdone.
    destruct (IH Hrest (S col) Hdone) as [Hout Hpage].
    split; [exact Hout | ]. unfold widgets in *. simpl.
    rewrite (proj2 (String.eqb_neq _ _) (Hother Hne)). simpl.
    now rewrite Hpage.
Qed.

(** ** A payload with a part missing *)

Lemma history_missing x m hm :
  default (JObj ∅) (m !! "fear_and_greed_historical") = JObj hm ->
  Value.truth (default JNull (hm !! "data")) = false ->
  build_history_chart x (JObj m) = Ok None.
Proof.
  intros Hh Hdata. unfold build_history_chart. simpl. rewrite Hh. simpl.
  now rewrite Hdata.
Qed.

Lemma indicator_keys_apart key label :
  In (key, label) INDICATOR_KEYS ->
  key <> "fear_and_greed" /\ key <> "fear_and_greed_historical".
Proof.
  unfold INDICATOR_KEYS. simpl.
  intros H; repeat destruct H as [[= <- <-] | H]; now try split.
Qed.

Lemma indicator_keys_labels key label kl :
  In (key, label) INDICATOR_KEYS -> In kl INDICATOR_KEYS ->
  (kl.1 = key -> kl.2 = label) /\ (kl.1 <> key -> kl.2 <> label).
Proof.
  unfold INDICATOR_KEYS. simpl. intros H H'.
  repeat destruct H as [[= <- <-] | H]; try contradiction;
    repeat destruct H' as [<- | H']; try contradiction;
    simpl; split; congruence.
Qed.

(** Without the history the page is the same, with the notice in the
    place of the chart. *)
Lemma history_removed m e :
  outcome (dashboard (JObj m)) e = Done () ->
  outcome (dashboard (JObj (delete "fear_and_greed_historical" m))) e = Done ()
  /\ exists pre old post,
       page (dashboard (JObj m)) e = pre ++ [old] ++ post /\
       page (dashboard (JObj (delete "fear_and_greed_historical" m))) e
       = pre ++ [history_unavailable] ++ post.
Proof.
  intros Hdone. set (m' := delete "fear_and_greed_historical" m).
  apply dashboard_read in Hdone as (c & Hc & Hdone & ->).
  pose proof (sections_page _ _ _ _ Hdone) as Hpage.
  apply sections_done in Hdone as (Htop & Hhist & Hind).
  assert (read_current (ext e) (JObj m') = Ok c) as Hc'.
  { rewrite <- Hc. apply read_current_ext. now apply lookup_delete_ne. }
  destruct (dashboard_built _ _ _ Hc') as [-> ->].
  assert (build_history_chart (ext e) (JObj m') = Ok None) as Hnone.
  { apply (history_missing _ _ ∅); [ | reflexivity].
    unfold m'. now rewrite lookup_delete_eq. }
  destruct (history_section_run (ext e) (JObj m') e) as [Hhist' Hhpage'].
  rewrite Hnone in Hhist', Hhpage'.
  destruct (indicator_section_run (JObj m') e) as [Hind' Hipage'].
  destruct (indicator_section_run (JObj m) e) as [Hind0 Hipage].
  destruct (loop_ext INDICATOR_KEYS m m' e) with (col := 0%nat) as [Hlo Hlp].
  { intros kl Hkl. apply lookup_delete_ne.
    destruct kl as [key label]. apply indicator_keys_apart in Hkl as [_ Hkl].
    simpl. congruence. }
  rewrite Hlo, <- Hind0 in Hind'. rewrite Hlp, <- Hipage in Hipage'.
  assert (outcome (sections (ext e) (JObj m') c) e = Done ()) as Hdone'
    by (apply sections_done; now rewrite Hhist', Hind').
  split; [exact Hdone' | ].
  rewrite (sections_page _ _ _ _ Hdone'), Hpage, Hhpage', Hipage'.
  destruct (history_section_run (ext e) (JObj m) e) as [Hho ->].
  rewrite Hho in Hhist.
  exists (page (top_row c) e ++ [(Page, Divider)]).
  destruct (build_history_chart (ext e) (JObj m)) as [[fig | ] | ];
    [ | | discriminate];
    eexists; exists (page (indicator_section (JObj m)) e ++ page footer e);
    rewrite <- !app_assoc; simpl; split; reflexivity.
Qed.

Lemma widgets_app a b : widgets (a ++ b) = widgets a ++ widgets b.
Proof. apply map_app. Qed.

Lemma filter_all {A} (f : A -> bool) (l : list A) :
  Forall (fun a => f a = true) l -> List.filter f l = l.
Proof.
  induction 1 as [ | a l Ha _ IH]; simpl; [reflexivity | ].
  now rewrite Ha, IH.
Qed.

Lemma top_row_widgets c e label :
  outcome (top_row c) e = Done () ->
  Forall (fun wd => other_than_card label wd = true)
         (widgets (page (top_row c) e)).
Proof.
  intros Hdone. apply top_row_done in Hdone as (d & vt & dt & Hd & Hv & Ht).
  unfold page. rewrite (top_row_run c d vt dt e fresh_world Hd Hv Ht).
  unfold widgets. simpl.
  destruct (String.eqb (last_updated c) ""); repeat constructor.
Qed.

Lemma history_widgets x data e label :
  Forall (fun wd => other_than_card label wd = true)
         (widgets (page (history_section x data) e)).
Proof.
  destruct (history_section_run x data e) as [_ ->].
  destruct (build_history_chart x data) as [[fig | ] | ]; repeat constructor.
Qed.

(** Without one indicator the page has the same widgets in the same
    order, less the card of that indicator. *)
Lemma indicator_removed m e key label :
  In (key, label) INDICATOR_KEYS ->
  outcome (dashboard (JObj m)) e = Done () ->
  outcome (dashboard (JObj (delete key m))) e = Done ()
  /\ widgets (page (dashboard (JObj (delete key m))) e)
     = List.filter (other_than_card label)
         (widgets (page (dashboard (JObj m)) e)).
Proof.
  intros Hkey Hdone. set (m' := delete key m).
  destruct (indicator_keys_apart _ _ Hkey) as [Hfg Hhist].
  apply dashboard_read in Hdone as (c & Hc & Hdone & ->).
  pose proof (sections_page _ _ _ _ Hdone) as Hpage.
  apply sections_done in Hdone as (Htop & Hhistory & Hind).
  assert (read_current (ext e) (JObj m') = Ok c) as Hc'.
  { rewrite <- Hc. apply read_current_ext. now apply lookup_delete_ne. }
  destruct (dashboard_built _ _ _ Hc') as [-> ->].
  assert (build_history_chart (ext e) (JObj m')
          = build_history_chart (ext e) (JObj m)) as Hsame
    by (apply build_history_chart_ext; now apply lookup_delete_ne).
  destruct (history_section_run (ext e) (JObj m') e) as [Hhist' Hhpage'].
  destruct (history_section_run (ext e) (JObj m) e) as [Hhist0 Hhpage].
  rewrite Hsame, <- Hhist0 in Hhist'. rewrite Hsame, <- Hhpage in Hhpage'.
  destruct (indicator_section_run (JObj m') e) as [Hind' Hipage'].
  destruct (indicator_section_run (JObj m) e) as [Hind0 Hipage].
  rewrite Hind0 in Hind.
  destruct (loop_delete INDICATOR_KEYS m key label e) with (col := 0%nat)
    as [Hlo Hlp];
    [intros kl Hkl; now apply indicator_keys_labels | exact Hind | ].
  fold m' in Hlo, Hlp.
  assert (outcome (sections (ext e) (JObj m') c) e = Done ()) as Hdone'
    by (apply sections_done; now rewrite Hhist', Hind', Hlo).
  split; [exact Hdone' | ].
  rewrite (sections_page _ _ _ _ Hdone'), Hpage, Hhpage', Hipage', Hipage.
  rewrite !widgets_app, !List.filter_app, Hlp.
  rewrite (filter_all (other_than_card label) _ (top_row_widgets c e label Htop)).
  rewrite (filter_all (other_than_card label) _
             (history_widgets (ext e) (JObj m) e label)).
  reflexivity.
Qed.

(** The reading of a payload from which the timestamp is taken away. *)
Lemma read_current_without_timestamp x m fg c :
  fear_and_greed m = JObj fg ->
  read_current x (JObj m) = Ok c ->
  read_current x
    (JObj (<["fear_and_greed" := JObj (delete "timestamp" fg)]> m))
  = Ok {| current_score := current_score c;
          rating_display := rating_display c;
          color := color c;
          previous_close := previous_close c;
          last_updated := "" |}.
Proof.
  intros Hfg Hc.
  apply read_current_inv in Hc as (m' & fg' & [= <-] & Hfg' & Hc).
  rewrite Hfg in Hfg'. injection Hfg' as <-.
  simpl in Hc. destruct Hc as (Hscore & Hpc & Hnorm & Hcolor & _).
  unfold read_current. simpl. rewrite lookup_insert_eq. simpl.
  rewrite !lookup_delete_ne by discriminate. rewrite lookup_delete_eq.
  unfold rating_label_of. rewrite Hscore. simpl.
  rewrite ?lookup_delete_ne by discriminate. rewrite Hnorm. simpl.
  now rewrite Hpc, Hcolor.
Qed.

Lemma top_row_without_timestamp c e :
  outcome (top_row c) e = Done () ->
  let c' := {| current_score := current_score c;
               rating_display := rating_display c;
               color := color c;
               previous_close := previous_close c;
               last_updated := "" |} in
  outcome (top_row c') e = Done () /\
  page (top_row c') e = List.filter other_than_last_updated (page (top_row c) e).
Proof.
  intros Hdone. apply top_row_done in Hdone as (d & vt & dt & Hd & Hv & Ht).
  cbv zeta. unfold outcome, page.
  rewrite (top_row_run c d vt dt e fresh_world Hd Hv Ht).
  rewrite (top_row_run _ d vt dt e fresh_world); [ | exact Hd | exact Hv | exact Ht].
  simpl. destruct (String.eqb (last_updated c) ""); now split.
Qed.

Lemma indicator_loop_places m e :
  outcome (indicator_loop INDICATOR_KEYS 0 (JObj m)) e = Done () ->
  Forall (fun el => other_than_last_updated el = true)
         (page (indicator_loop INDICATOR_KEYS 0 (JObj m)) e).
Proof.
  intros Hdone. apply loop_slots in Hdone as [Hcards _].
  eapply Forall_impl; [exact Hcards | ].
  intros [[ | | | i] []] Hcard; try destruct Hcard; reflexivity.
Qed.

(** Without the timestamp the page is the same, less the last-updated
    caption. *)
Lemma timestamp_removed m e fg :
  fear_and_greed m = JObj fg ->
  outcome (dashboard (JObj m)) e = Done () ->
  outcome (dashboard
             (JObj (<["fear_and_greed" := JObj (delete "timestamp" fg)]> m))) e
  = Done ()
  /\ page (dashboard
             (JObj (<["fear_and_greed" := JObj (delete "timestamp" fg)]> m))) e
     = List.filter other_than_last_updated (page (dashboard (JObj m)) e).
Proof.
  intros Hfg Hdone.
  set (m' := <["fear_and_greed" := JObj (delete "timestamp" fg)]> m).
  apply dashboard_read in Hdone as (c & Hc & Hdone & ->).
  pose proof (sections_page _ _ _ _ Hdone) as Hpage.
  apply sections_done in Hdone as (Htop & Hhistory & Hind).
  pose proof (read_current_without_timestamp (ext e) m fg c Hfg Hc) as Hc'.
  fold m' in Hc'.
  destruct (dashboard_built _ _ _ Hc') as [-> ->].
  destruct (top_row_without_timestamp c e Htop) as [Htop' Htpage'].
  assert (build_history_chart (ext e) (JObj m')
          = build_history_chart (ext e) (JObj m)) as Hsame
    by (apply build_history_chart_ext; now apply lookup_insert_ne).
  destruct (history_section_run (ext e) (JObj m') e) as [Hhist' Hhpage'].
  destruct (history_section_run (ext e) (JObj m) e) as [Hhist0 Hhpage].
  rewrite Hsame, <- Hhist0 in Hhist'. rewrite Hsame, <- Hhpage in Hhpage'.
  destruct (indicator_section_run (JObj m') e) as [Hind' Hipage'].
  destruct (indicator_section_run (JObj m) e) as [Hind0 Hipage].
  destruct (loop_ext INDICATOR_KEYS m m' e) with (col := 0%nat) as [Hlo Hlp].
  { intros kl Hkl. apply lookup_insert_ne.
    destruct kl as [key label]. apply indicator_keys_apart in Hkl as [Hkl _].
    simpl. congruence. }
  rewrite Hlo, <- Hind0 in Hind'. rewrite Hlp, <- Hipage in Hipage'.
  assert (outcome (sections (ext e) (JObj m')
                     {| current_score := current_score c;
                        rating_display := rating_display c;
                        color := color c;
                        previous_close := previous_close c;
                        last_updated := "" |}) e = Done ()) as Hdone'
    by (apply sections_done; now rewrite Hhist', Hind').
  split; [exact Hdone' | ].
  rewrite (sections_page _ _ _ _ Hdone'), Hpage, Htpage', Hhpage', Hipage'.
  rewrite !List.filter_app. f_equal. f_equal; [ | f_equal].
  - symmetry. apply filter_all. rewrite Hhpage.
    destruct (build_history_chart (ext e) (JObj m)) as [[fig | ] | ];
      repeat constructor.
  - symmetry. apply filter_all. rewrite Hipage. apply Forall_app. split.
    + repeat constructor.
    + apply indicator_loop_places. now rewrite <- Hind0.
Qed.

(** X22. A missing part raises nothing and only its own widget gives way.
    A history that is absent, or an object whose [data] is absent, null
    or empty, draws the notice in place of the chart; an indicator that is
    absent or null draws no card; a reading without timestamp draws no
    last-updated caption.  And on a payload that renders, taking the
    history, one indicator or the timestamp away leaves a payload that
    renders too, with the same page except for the notice in place of the
    chart, the card that is gone, the caption that is gone. *)
Theorem graceful_degradation (m : gmap string json) (e : env) :
  (forall hm,
     default (JObj ∅) (m !! "fear_and_greed_historical") = JObj hm ->
     Value.truth (default JNull (hm !! "data")) = false ->
     outcome (history_section (ext e) (JObj m)) e = Done () /\
     page (history_section (ext e) (JObj m)) e
     = [(Page, Divider); history_unavailable])
  /\ (forall key label,
        Value.truth (default (JObj ∅) (m !! key)) = false ->
        indicator_card (JObj m) key label = Ok None)
  /\ (forall fg c,
        fear_and_greed m = JObj fg ->
        fg !! "timestamp" = None ->
        read_current (ext e) (JObj m) = Ok c ->
        last_updated c = "" /\
        (outcome (top_row c) e = Done () ->
         Forall (fun el => other_than_last_updated el = true)
                (page (top_row c) e)))
  /\ (outcome (dashboard (JObj m)) e = Done () ->
      (outcome (dashboard (JObj (delete "fear_and_greed_historical" m))) e
       = Done ()
       /\ exists pre old post,
            page (dashboard (JObj m)) e = pre ++ [old] ++ post /\
            page (dashboard (JObj (delete "fear_and_greed_historical" m))) e
            = pre ++ [history_unavailable] ++ post)
      /\ (forall key label,
            In (key, label) INDICATOR_KEYS ->
            outcome (dashboard (JObj (delete key m))) e = Done () /\
            widgets (page (dashboard (JObj (delete key m))) e)
            = List.filter (other_than_card label)
                (widgets (page (dashboard (JObj m)) e)))
      /\ (forall fg,
            fear_and_greed m = JObj fg ->
            let m' := <["fear_and_greed" := JObj (delete "timestamp" fg)]> m in
            outcome (dashboard (JObj m')) e = Done () /\
            page (dashboard (JObj m')) e
            = List.filter other_than_last_updated
                (page (dashboard (JObj m)) e))).
Proof.
  split; [ | split; [ | split]].
  - intros hm Hh Hdata.
    destruct (history_section_run (ext e) (JObj m) e) as [-> ->].
    now rewrite (history_missing _ _ _ Hh Hdata).
  - intros key label. apply indicator_card_absent.
  - intros fg c Hfg Htime Hc.
    apply read_current_inv in Hc as (m' & fg' & [= <-] & Hfg' & Hc).
    rewrite Hfg in Hfg'. injection Hfg' as <-.
    simpl in Hc. rewrite Htime in Hc. simpl in Hc.
    destruct Hc as (_ & _ & _ & _ & Hlast).
    split; [exact Hlast | ].
    intros Hdone. apply top_row_done in Hdone as (d & vt & dt & Hd & Hv & Ht).
    unfold page. rewrite (top_row_run c d vt dt e fresh_world Hd Hv Ht).
    rewrite Hlast. repeat constructor.
  - intros Hdone. split; [now apply history_removed | ].
    split.
    + intros key label Hkey. now apply indicator_removed.
    + intros fg Hfg. cbv zeta. now apply timestamp_removed.
Qed.

(** C9, at a history that is [null].  Line 93 takes the [null] that
    [data.get("fear_and_greed_historical", {})] returns and calls [get]
    on it: AttributeError.  The run ends after the top row and the
    divider: no notice is drawn, and nothing of the indicators or the
    footer.  The paths beside it take a missing part in their stride:
    without the key, with an empty object for the history, or with
    [null] for its [data], the notice is drawn and the run completes; an
    indicator that is [null] has no card and a timestamp that is [null]
    no caption, and the run completes. *)
Theorem null_history_is_not_tolerated :
  let e := Sample.env 0 Sample.offline in
  let messages data := List.filter is_message (page (dashboard data) e) in
  build_history_chart Sample.libraries Sample.null_history
  = Raise Py.AttributeError
  /\ outcome (dashboard Sample.null_history) e = Crashed Py.AttributeError
  /\ messages Sample.null_history = []
  /\ last (page (dashboard Sample.null_history) e) = Some (Page, Divider)
  /\ outcome (dashboard (Sample.reading_and [])) e = Done ()
  /\ messages (Sample.reading_and []) = [history_unavailable]
  /\ outcome (dashboard
                (Sample.reading_and
                   [("fear_and_greed_historical", Sample.obj [])])) e
     = Done ()
  /\ messages (Sample.reading_and
                 [("fear_and_greed_historical", Sample.obj [])])
     = [history_unavailable]
  /\ outcome (dashboard
                (Sample.reading_and
                   [("fear_and_greed_historical",
                     Sample.obj [("data", JNull)])])) e
     = Done ()
  /\ messages (Sample.reading_and
                 [("fear_and_greed_historical",
                   Sample.obj [("data", JNull)])])
     = [history_unavailable]
  /\ outcome (dashboard (Sample.reading_and [("junk_bond_demand", JNull)])) e
     = Done ()
  /\ outcome (dashboard
                (Sample.obj
                   [("fear_and_greed",
                     Sample.obj [("score", JNum (PInt 50));
                                 ("timestamp", JNull)])])) e
     = Done ().
Proof. cbv zeta. repeat split; vm_compute; reflexivity. Qed.

(** The sample payload renders, and so it does without its history, its
    last indicator and its timestamp; what is left of the top row, the
    notice and six cards are on the page. *)
Lemma degraded_sample_page :
  outcome (dashboard Sample.payload) (Sample.env 0 Sample.offline) = Done ()
  /\ outcome (dashboard Sample.degraded) (Sample.env 0 Sample.offline) = Done ()
  /\ map slot (List.filter (fun el => negb (other_than_last_updated el))
                 (page (dashboard Sample.degraded) (Sample.env 0 Sample.offline)))
     = []
  /\ In history_unavailable
        (page (dashboard Sample.degraded) (Sample.env 0 Sample.offline))
  /\ length (List.filter (fun wd => match wd with Card _ _ _ _ _ => true | _ => false end)
               (widgets (page (dashboard Sample.degraded)
                              (Sample.env 0 Sample.offline)))) = 6%nat.
Proof.
  split; [vm_compute; reflexivity | ].
  split; [vm_compute; reflexivity | ].
  split; [vm_compute; reflexivity | ].
  split; [vm_compute; tauto | vm_compute; reflexivity].
Qed.

(** ** A reading without a score *)




(** * Further properties *)

(** ** The classifier and the colours *)

Lemma leb_le_value s t q r k :
  Py.value s = Some q -> Py.value t = Some r -> (q <= r)%Q ->
  Py.leb t (PInt k) = true -> Py.leb s (PInt k) = true.
Proof.
  intros Hq Hr Hle. rewrite (leb_value s q k Hq), (leb_value t r k Hr).
  intros Hk. now apply (Qle_trans _ r).
Qed.

(** X1. The classifier is monotone: of two finite scores, the one with
    the larger real value never gets a label that comes earlier in the
    order from Extreme Fear to Extreme Greed. *)
Theorem rating_label_monotone (s t : number) (q r : Q) :
  Py.value s = Some q -> Py.value t = Some r -> (q <= r)%Q ->
  exists i j,
    rank (_rating_label s) = Some i /\ rank (_rating_label t) = Some j /\
    (i <= j)%nat.
Proof.
  intros Hq Hr Hle.
  pose proof (leb_le_value s t q r 25 Hq Hr Hle) as H25.
  pose proof (leb_le_value s t q r 45 Hq Hr Hle) as H45.
  pose proof (leb_le_value s t q r 55 Hq Hr Hle) as H55.
  pose proof (leb_le_value s t q r 75 Hq Hr Hle) as H75.
  unfold _rating_label.
  destruct (Py.leb t (PInt 25)); [rewrite H25 by reflexivity | ].
  { eexists; eexists;
      (split; [reflexivity | split; [reflexivity | simpl; lia]]). }
  destruct (Py.leb t (PInt 45)); [rewrite H45 by reflexivity | ].
  { destruct (Py.leb s (PInt 25)); eexists; eexists;
      (split; [reflexivity | split; [reflexivity | simpl; lia]]). }
  destruct (Py.leb t (PInt 55)); [rewrite H55 by reflexivity | ].
  { destruct (Py.leb s (PInt 25)), (Py.leb s (PInt 45)); eexists; eexists;
      (split; [reflexivity | split; [reflexivity | simpl; lia]]). }
  destruct (Py.leb t (PInt 75)); [rewrite H75 by reflexivity | ].
  { destruct (Py.leb s (PInt 25)), (Py.leb s (PInt 45)), (Py.leb s (PInt 55));
      eexists; eexists;
      (split; [reflexivity | split; [reflexivity | simpl; lia]]). }
  destruct (Py.leb s (PInt 25)), (Py.leb s (PInt 45)), (Py.leb s (PInt 55)),
    (Py.leb s (PInt 75)); eexists; eexists;
    (split; [reflexivity | split; [reflexivity | simpl; lia]]).
Qed.

Lemma rating_label_monotone_witness :
  exists i j,
    rank (_rating_label (Py.dec 449 1)) = Some i /\
    rank (_rating_label (PInt 46)) = Some j /\ (i <= j)%nat.
Proof.
  refine (rating_label_monotone (Py.dec 449 1) (PInt 46) _ _ eq_refl eq_refl _).
  vm_compute. discriminate.
Defined.

(** The step of the gauge, or the band of the history chart, a score
    falls into: above its lower bound and up to its upper bound, the first
    one reaching down from 0 and the last one up from 100. *)
Lemma zone_colour (s : number) lo hi colour :
  In (lo, hi, colour) GAUGE_STEPS ->
  lo = 0 \/ Py.ltb (PInt lo) s = true ->
  hi = 100 \/ Py.leb s (PInt hi) = true ->
  RATING_COLORS !! _rating_label s = Some colour.
Proof.
  unfold GAUGE_STEPS. simpl.
  intros Hin Hlo Hhi.
  repeat destruct Hin as [[= <- <- <-] | Hin]; try contradiction;
    destruct Hlo as [Hlo | Hlo]; try discriminate Hlo;
    destruct Hhi as [Hhi | Hhi]; try discriminate Hhi.
  all: first
    [ now rewrite (in_band_label s Spec.ExtremeFear Hhi)
    | now rewrite (in_band_label s Spec.Fear (conj Hlo Hhi))
    | now rewrite (in_band_label s Spec.Neutral (conj Hlo Hhi))
    | now rewrite (in_band_label s Spec.Greed (conj Hlo Hhi))
    | now rewrite (in_band_label s Spec.ExtremeGreed Hlo) ].
Qed.

(** X2. The colours agree.  The step of the gauge under the needle has
    the colour [RATING_COLORS] gives to the classifier's label of the
    score, and so has the band of the history chart at the height of the
    score: a step or band is taken above its lower bound and up to its
    upper bound, the first one down from 0 and the last one up from 100.
    The needle and the threshold marker are at the score, on the axis
    from 0 to 100. *)
Theorem gauge_colours_agree (s : number) (title : string) :
  let fig := build_gauge s title in
  gauge_value fig = s /\ gauge_threshold fig = s /\ gauge_axis fig = (0, 100)
  /\ (forall lo hi colour,
        In (lo, hi, colour) (gauge_steps fig) ->
        lo = 0 \/ Py.ltb (PInt lo) s = true ->
        hi = 100 \/ Py.leb s (PInt hi) = true ->
        RATING_COLORS !! _rating_label s = Some colour)
  /\ (forall x data chart lo hi colour,
        build_history_chart x data = Ok (Some chart) ->
        In (lo, hi, colour) (hrects chart) ->
        lo = 0 \/ Py.ltb (PInt lo) s = true ->
        hi = 100 \/ Py.leb s (PInt hi) = true ->
        RATING_COLORS !! _rating_label s = Some colour).
Proof.
  cbv zeta. split; [reflexivity | ]. split; [reflexivity | ].
  split; [reflexivity | ]. split.
  - intros lo hi colour. apply zone_colour.
  - intros x data chart lo hi colour Hchart.
    unfold build_history_chart in Hchart.
    apply bind_ok in Hchart as (h & _ & Hchart).
    apply bind_ok in Hchart as (hist & _ & Hchart).
    destruct (negb (Value.truth hist)); [discriminate | ].
    apply bind_ok in Hchart as (df & _ & [= <-]). simpl.
    apply zone_colour.
Qed.

(** The rating a normalisation returns is one of the five labels. *)
Lemma normalise_rating_band rating score r :
  normalise_rating rating score = Ok r -> exists b, r = Spec.band_name b.
Proof.
  unfold normalise_rating. intros H.
  apply bind_ok in H as (label & Hlabel & H).
  rewrite rating_colors_bands in H.
  destruct (Spec.band_of_name _) as [b | ] eqn:Hb; simpl in H.
  - injection H as <-. exists b. now apply band_of_name_Some.
  - unfold rating_label_of in H. apply bind_ok in H as (s & _ & [= <-]).
    exists (Spec.classify s). apply rating_label_classify.
Qed.

Lemma band_colour b :
  exists colour,
    RATING_COLORS !! Spec.band_name b = Some colour /\
    dict_get RATING_COLORS (Spec.band_name b) "#666" = colour /\
    colour <> "#666".
Proof. destruct b; eexists; (split; [reflexivity | split; [reflexivity | discriminate]]). Qed.

Lemma indicator_description key label :
  In (key, label) INDICATOR_KEYS ->
  exists info,
    INDICATOR_INFO !! label = Some info /\
    dict_get INDICATOR_INFO label "" = info /\
    info <> "".
Proof.
  unfold INDICATOR_KEYS. simpl. intros Hkey.
  repeat destruct Hkey as [[= <- <-] | Hkey]; try contradiction;
    eexists; (split; [reflexivity | split; [reflexivity | discriminate]]).
Qed.

(** X3. The defaults of the colour and description lookups are never
    used: the rating shown for the index is a key of [RATING_COLORS] and
    its heading has that colour, never [#666]; and a card of one of the
    seven indicators has the colour of its rating and the description
    [INDICATOR_INFO] holds for its label, never the empty one. *)
Theorem lookups_never_default :
  (forall x data c,
     read_current x data = Ok c ->
     RATING_COLORS !! rating_display c = Some (color c) /\ color c <> "#666")
  /\ (forall data key label card,
        In (key, label) INDICATOR_KEYS ->
        indicator_card data key label = Ok (Some card) ->
        exists text colour rating info,
          card = Card label text colour rating info /\
          RATING_COLORS !! rating = Some colour /\ colour <> "#666" /\
          INDICATOR_INFO !! label = Some info /\ info <> "").
Proof.
  split.
  - intros x data c Hc.
    apply read_current_inv in Hc as (m & fg & _ & _ & Hc). simpl in Hc.
    destruct Hc as (_ & _ & Hnorm & -> & _).
    apply normalise_rating_band in Hnorm as [b ->].
    destruct (band_colour b) as (colour & Hlookup & -> & Hne). now split.
  - intros data key label card Hkey Hcard.
    apply indicator_card_inv in Hcard as (m & -> & Hcard). simpl in Hcard.
    destruct (negb (Value.truth _)); [discriminate | ].
    destruct Hcard as (ind & _ & Hcard).
    destruct (Value.is_none _); [discriminate | ].
    destruct Hcard as (rating & text & Hnorm & _ & [= ->]).
    apply normalise_rating_band in Hnorm as [b ->].
    destruct (band_colour b) as (colour & Hlookup & -> & Hne).
    destruct (indicator_description key label Hkey) as (info & Hinfo & -> & Hne').
    exists text, colour, (Spec.band_name b), info. auto.
Qed.

(** *** Labels are matched without regard to case *)

Lemma lower_cases c :
  Str.upper (Str.lower c) = Str.upper c /\
  Str.is_cased (Str.lower c) = Str.is_cased c /\
  Str.lower (Str.lower c) = Str.lower c.
Proof.
  destruct c as [[] [] [] [] [] [] [] []]; vm_compute; repeat split.
Qed.

Lemma title_from_lowercase p s :
  Str.title_from p (lowercase s) = Str.title_from p s.
Proof.
  revert p. induction s as [ | c s IH]; intros p; [reflexivity | ].
  simpl. destruct (lower_cases c) as (Hu & Hc & Hl).
  rewrite Hu, Hc, Hl, IH. reflexivity.
Qed.

(** X4. Labels are matched without regard to the case of their letters
    and with underscores for spaces: two labels that are the same once
    lowercased and with [_] replaced by a space are normalised to the same
    rating, whatever the score. *)
Theorem labels_match_caselessly (label label' : string) (score : json) :
  label_key label = label_key label' ->
  normalise_rating (JStr label) score = normalise_rating (JStr label') score.
Proof.
  unfold label_key, normalise_rating. intros Hkey. simpl.
  unfold Str.title.
  rewrite <- (title_from_lowercase false (Str.replace_underscores label)).
  rewrite <- (title_from_lowercase false (Str.replace_underscores label')).
  now rewrite Hkey.
Qed.

Lemma labels_match_caselessly_witness :
  normalise_rating (JStr "EXTREME_fear") (JNum (PInt 90))
  = normalise_rating (JStr "extreme Fear") (JNum (PInt 90)).
Proof.
  apply (labels_match_caselessly "EXTREME_fear" "extreme Fear").
  reflexivity.
Defined.

(** ** One run of the script *)

Lemma stale_fresh w t : stale w t <-> fresh w t = false.
Proof.
  unfold stale, fresh. destruct (cache w) as [c | ].
  - rewrite Z.ltb_ge. split.
    + intros H. now apply H.
    + intros H c' [= <-]. exact H.
  - split; [reflexivity | discriminate].
Qed.

(** Lines 166-272, on what the fetch returned. *)
Lemma after_fetch data e w :
  ((if Value.is_none data
    then St.draw Page
           (StWarning "Unable to load Fear & Greed data. Please try again later.");;
         St.stop
    else mret ());;
   dashboard data) e w
  = if Value.is_none data
    then (Stopped, drawn w [unable_warning])
    else (outcome (dashboard data) e, drawn w (page (dashboard data) e)).
Proof.
  destruct (Value.is_none data).
  - reflexivity.
  - erewrite done_bind by reflexivity. apply dashboard_drawing.
Qed.

(** A run that finds no fresh entry. *)
Lemma run_miss start_date e w :
  stale w (now e) ->
  run e w start_date =
  let r := fetched (request_url start_date) (internet e (requests_sent w)) in
  let w' := {| screen := [title_element; caption_element] ++ r.2;
               cache := Some {| cached_value := r.1;
                                cached_elements := r.2;
                                cached_at := now e |};
               requests_sent := S (requests_sent w) |} in
  if Value.is_none r.1
  then (Stopped, drawn w' [unable_warning])
  else (outcome (dashboard r.1) e, drawn w' (page (dashboard r.1) e)).
Proof.
  intros Hstale. unfold run, main.
  erewrite done_bind by reflexivity.
  erewrite done_bind by reflexivity.
  erewrite done_bind by (apply fetch_miss; exact Hstale).
  cbv zeta. rewrite after_fetch. reflexivity.
Qed.

(** A run that finds a fresh entry. *)
Lemma run_hit start_date e w c :
  cache w = Some c -> now e < cached_at c + 300 ->
  run e w start_date =
  let w' := {| screen := [title_element; caption_element] ++ cached_elements c;
               cache := Some c;
               requests_sent := requests_sent w |} in
  if Value.is_none (cached_value c)
  then (Stopped, drawn w' [unable_warning])
  else (outcome (dashboard (cached_value c)) e,
        drawn w' (page (dashboard (cached_value c)) e)).
Proof.
  intros Hc Hfresh. unfold run, main.
  erewrite done_bind by reflexivity.
  erewrite done_bind by reflexivity.
  erewrite done_bind by (apply (fetch_hit _ _ _ c); [exact Hc | exact Hfresh]).
  rewrite after_fetch. cbv zeta. unfold drawn. simpl. rewrite Hc. reflexivity.
Qed.

(** *** What is drawn after the fetch does not depend on the clock or on
    the network *)

#[global] Instance ret_closed {A} (a : A) : Closed (mret a : script A).
Proof. intros e e' w. reflexivity. Qed.

#[global] Instance eval_closed {A} (r : result A) : Closed (St.eval r).
Proof. intros e e' w. reflexivity. Qed.

#[global] Instance draw_closed c x : Closed (St.draw c x).
Proof. intros e e' w. reflexivity. Qed.

#[global] Instance bind_closed {A B} (m : script A) (k : A -> script B) :
  Closed m -> (forall a, Closed (k a)) -> Closed (m ≫= k).
Proof.
  intros Hm Hk e e' w. unfold mbind, script_bind. rewrite (Hm e e' w).
  destruct (m e' w) as [[a | | err] w1]; [apply Hk | reflexivity ..].
Qed.

#[global] Instance if_closed {A} (b : bool) (m1 m2 : script A) :
  Closed m1 -> Closed m2 -> Closed (if b then m1 else m2).
Proof. destruct b; auto. Qed.

#[global] Instance option_closed {A B} (o : option A) (m1 : A -> script B)
  (m2 : script B) :
  (forall a, Closed (m1 a)) -> Closed m2 ->
  Closed (match o with Some a => m1 a | None => m2 end).
Proof. destruct o; auto. Qed.

#[global] Instance indicator_loop_closed keys col data :
  Closed (indicator_loop keys col data).
Proof.
  revert col. induction keys as [ | [key label] rest IH]; intros col; simpl.
  - apply _.
  - apply bind_closed; [apply _ | ]. intros [c | ]; [ | apply IH].
    apply bind_closed; [apply _ | intros _; apply IH].
Qed.

#[global] Instance sections_closed x data c : Closed (sections x data c).
Proof.
  unfold sections, top_row, history_section, indicator_section, footer.
  apply _.
Qed.

Lemma dashboard_env data e e' w :
  ext e' = ext e -> dashboard data e' w = dashboard data e w.
Proof.
  intros Hext. unfold dashboard. rewrite Hext.
  unfold mbind, script_bind, St.eval.
  destruct (read_current (ext e) data) as [c | err]; [ | reflexivity].
  apply sections_closed.
Qed.

(** X5. Everything after the fetch is presentation: whatever the
    payload, lines 171-272 only add elements to the page.  They leave the
    cache and the count of requests as they are and keep what is already
    on the page, and what they add and how they end depends on the
    payload and on pandas and datetime, not on the clock, the network or
    the page so far. *)
Theorem dashboard_only_draws (data : json) (e : env) (w : world) :
  let after := dashboard data e w in
  cache after.2 = cache w
  /\ requests_sent after.2 = requests_sent w
  /\ screen after.2 = screen w ++ page (dashboard data) e
  /\ after.1 = outcome (dashboard data) e
  /\ (forall e' w', ext e' = ext e ->
        (dashboard data e' w').1 = after.1 /\
        screen (dashboard data e' w').2 = screen w' ++ page (dashboard data) e).
Proof.
  cbv zeta. rewrite (dashboard_drawing data e w). simpl.
  repeat split; try reflexivity.
  - rewrite (dashboard_env data e e' w' H), (dashboard_drawing data e w').
    reflexivity.
  - rewrite (dashboard_env data e e' w' H), (dashboard_drawing data e w').
    reflexivity.
Qed.

(** X6. One request at most.  A run sends no request when the cache
    holds an entry younger than 300 seconds and exactly one otherwise,
    however the run ends; in the first case the entry stays as it is, in
    the second it is replaced by what the request gave, stamped with the
    time of the run. *)
Theorem one_request_a_run (e : env) (w : world) (start_date : string) :
  let after := (run e w start_date).2 in
  if fresh w (now e)
  then requests_sent after = requests_sent w /\ cache after = cache w
  else requests_sent after = S (requests_sent w) /\
       exists c, cache after = Some c /\ cached_at c = now e /\
                 (cached_value c, cached_elements c) =
                 fetched (request_url start_date) (internet e (requests_sent w)).
Proof.
  cbv zeta. destruct (fresh w (now e)) eqn:Hfresh.
  - unfold fresh in Hfresh.
    destruct (cache w) as [c | ] eqn:Hc; [ | discriminate].
    apply Z.ltb_lt in Hfresh.
    rewrite (run_hit start_date e w c Hc Hfresh). cbv zeta.
    destruct (Value.is_none _); simpl; auto.
  - apply stale_fresh in Hfresh.
    rewrite (run_miss start_date e w Hfresh). cbv zeta.
    destruct (Value.is_none _); simpl; (split; [reflexivity | ]);
      eexists; (split; [reflexivity | ]); simpl;
      (split; [reflexivity | ]);
      now destruct (fetched _ _).
Qed.

(** X7. A fetch that succeeds: when no fresh entry is cached and the
    answer has a status outside 400-599 and a JSON body other than
    [null], the run sends one request, draws the title, the caption and
    then the dashboard of that body, with no message from the fetch, and
    ends as the dashboard ends; the body is cached with the time of the
    run. *)
Theorem fetched_payload_is_rendered x net t start_date w code reason data :
  stale w t ->
  net (requests_sent w) = Response code reason (inr data) ->
  ~ 400 <= code < 600 ->
  Value.is_none data = false ->
  let e := {| ext := x; now := t; internet := net |} in
  run e w start_date =
    (outcome (dashboard data) e,
     {| screen := [title_element; caption_element] ++ page (dashboard data) e;
        cache := Some {| cached_value := data;
                         cached_elements := [];
                         cached_at := t |};
        requests_sent := S (requests_sent w) |}).
Proof.
  intros Hstale Hnet Hcode Hdata. cbv zeta.
  rewrite run_miss by exact Hstale. simpl. rewrite Hnet.
  unfold fetched, reading_of.
  destruct (Z.leb_spec 400 code), (Z.ltb_spec code 600); simpl;
    try lia; rewrite Hdata; reflexivity.
Qed.

Lemma fetched_payload_is_rendered_witness :
  run (Sample.env 0 (Sample.online Sample.payload)) fresh_world "2025-01-01" =
    (outcome (dashboard Sample.payload)
       (Sample.env 0 (Sample.online Sample.payload)),
     {| screen := [title_element; caption_element]
                  ++ page (dashboard Sample.payload)
                       (Sample.env 0 (Sample.online Sample.payload));
        cache := Some {| cached_value := Sample.payload;
                         cached_elements := [];
                         cached_at := 0 |};
        requests_sent := 1 |}).
Proof.
  apply (fetched_payload_is_rendered Sample.libraries
           (Sample.online Sample.payload) 0 "2025-01-01" fresh_world
           200 "OK" Sample.payload).
  - intros c Hc. discriminate Hc.
  - reflexivity.
  - lia.
  - reflexivity.
Defined.

(** X8. A body that is the JSON [null]: [resp.json()] returns [None],
    which the caller takes for a failed fetch.  The run stops with the
    title, the caption and the warning alone, without the error message of
    a failure, and the [None] is cached like any other result. *)
Theorem null_body_only_warns x net t start_date w code reason :
  stale w t ->
  net (requests_sent w) = Response code reason (inr JNull) ->
  ~ 400 <= code < 600 ->
  run {| ext := x; now := t; internet := net |} w start_date =
    (Stopped,
     {| screen := [title_element; caption_element; unable_warning];
        cache := Some {| cached_value := JNull;
                         cached_elements := [];
                         cached_at := t |};
        requests_sent := S (requests_sent w) |}).
Proof.
  intros Hstale Hnet Hcode.
  rewrite run_miss by exact Hstale. simpl. rewrite Hnet.
  unfold fetched, reading_of.
  destruct (Z.leb_spec 400 code), (Z.ltb_spec code 600); simpl;
    try lia; reflexivity.
Qed.

Lemma null_body_only_warns_witness :
  run (Sample.env 0 (Sample.online JNull)) fresh_world "2025-01-01" =
    (Stopped,
     {| screen := [title_element; caption_element; unable_warning];
        cache := Some {| cached_value := JNull;
                         cached_elements := [];
                         cached_at := 0 |};
        requests_sent := 1 |}).
Proof.
  apply (null_body_only_warns Sample.libraries (Sample.online JNull) 0
           "2025-01-01" fresh_world 200 "OK").
  - intros c Hc. discriminate Hc.
  - reflexivity.
  - lia.
Defined.

(** ** The cache over several runs *)

(** X9. A failure is cached too.  After a run whose fetch failed, a run
    inside the next 300 seconds sends no request, whatever the network
    would answer by then: it replays the same error message, adds the
    warning and stops, and leaves the entry as it is. *)
Theorem failed_fetch_is_replayed x net net' t1 t2 start_date start_date' w text :
  stale w t1 ->
  failed (request_url start_date) (net (requests_sent w)) text ->
  t2 < t1 + 300 ->
  let first := run {| ext := x; now := t1; internet := net |} w start_date in
  run {| ext := x; now := t2; internet := net' |} first.2 start_date' =
    (Stopped,
     {| screen := [title_element; caption_element; fetch_error text;
                   unable_warning];
        cache := cache first.2;
        requests_sent := S (requests_sent w) |})
  /\ cache first.2 = Some {| cached_value := JNull;
                             cached_elements := [fetch_error text];
                             cached_at := t1 |}.
Proof.
  intros Hstale Hfail Hin. cbv zeta. apply failed_reading in Hfail.
  rewrite (run_miss start_date {| ext := x; now := t1; internet := net |} w
             Hstale).
  simpl. unfold fetched.
  rewrite Hfail. simpl. split; [ | reflexivity].
  erewrite run_hit; [ | reflexivity | simpl; lia]. reflexivity.
Qed.

Lemma failed_fetch_is_replayed_witness :
  run (Sample.env 200 (Sample.online Sample.payload))
      (run (Sample.env 0 Sample.offline) fresh_world "2025-01-01").2
      "2025-01-01" =
    (Stopped,
     {| screen := [title_element; caption_element;
                   fetch_error "Connection refused"; unable_warning];
        cache := cache (run (Sample.env 0 Sample.offline) fresh_world
                            "2025-01-01").2;
        requests_sent := 1 |}).
Proof.
  refine (proj1 (failed_fetch_is_replayed Sample.libraries Sample.offline
                   (Sample.online Sample.payload) 0 200
                   "2025-01-01" "2025-01-01" fresh_world
                   "Connection refused" _ _ _)).
  - intros c Hc. discriminate Hc.
  - constructor.
  - lia.
Defined.

Lemma session_hits x net start_date times r : forall w,
  w = r.2 ->
  (exists c t0, cache w = Some c /\ cached_at c = t0 /\
                Forall (fun t => t < t0 + 300) times) ->
  (forall t, run {| ext := x; now := t; internet := net |} w start_date = r
             \/ ~ t < default 0 (cached_at <$> cache w) + 300) ->
  Forall (fun r' => r' = r) (session x net start_date times w).
Proof.
  induction times as [ | t rest IH]; intros w Hw Hc Hrun; [constructor | ].
  simpl. destruct Hc as (c & t0 & Hc & Ht0 & Htimes).
  inversion Htimes as [ | ? ? Ht Hrest]; subst.
  destruct (Hrun t) as [Hr | Hout].
  - rewrite Hr. constructor; [reflexivity | ].
    apply IH; [reflexivity | eauto | exact Hrun].
  - rewrite Hc in Hout. simpl in Hout. contradiction.
Qed.

(** X10. One fetch serves every run of the next 300 seconds.  After a
    run that found no fresh entry, every run inside the 300 seconds that
    follow returns exactly what that run returned: it ends the same way,
    draws the same page, sends no request and leaves the entry with the
    time of the fetch, however many runs there are.  A run at or after
    the 300 seconds sends the second request. *)
Theorem one_fetch_serves_the_session x net start_date start_date' w t0 times :
  stale w t0 ->
  Forall (fun t => t < t0 + 300) times ->
  let first := run {| ext := x; now := t0; internet := net |} w start_date in
  Forall (fun r => r = first) (session x net start_date' times first.2)
  /\ (forall t, t0 + 300 <= t ->
        requests_sent
          (run {| ext := x; now := t; internet := net |} first.2 start_date').2
        = S (S (requests_sent w))).
Proof.
  intros Hstale Htimes. cbv zeta.
  pose proof (run_miss start_date {| ext := x; now := t0; internet := net |}
                w Hstale) as Hfirst.
  cbv zeta in Hfirst. simpl in Hfirst.
  set (r := fetched (request_url start_date) (net (requests_sent w))) in *.
  set (first := run {| ext := x; now := t0; internet := net |} w start_date) in *.
  assert (cache first.2 = Some {| cached_value := r.1;
                                  cached_elements := r.2;
                                  cached_at := t0 |}
          /\ requests_sent first.2 = S (requests_sent w)) as [Hc Hn].
  { rewrite Hfirst. destruct (Value.is_none r.1); now split. }
  split.
  - apply (session_hits x net start_date' times first first.2 eq_refl).
    + eexists. exists t0. split; [exact Hc | ]. split; [reflexivity | exact Htimes].
    + intros t. rewrite Hc. simpl.
      destruct (Z.lt_ge_cases t (t0 + 300)) as [Hin | Hout]; [left | right; lia].
      rewrite (run_hit start_date' _ first.2 _ Hc) by (simpl; lia).
      cbv zeta. simpl. rewrite Hn, Hfirst.
      destruct (Value.is_none r.1); [reflexivity | ].
      unfold outcome, page.
      rewrite (dashboard_env r.1 {| ext := x; now := t0; internet := net |}
                 {| ext := x; now := t; internet := net |} fresh_world eq_refl).
      reflexivity.
  - intros t Ht.
    rewrite (run_miss start_date' {| ext := x; now := t; internet := net |}
               first.2).
    + cbv zeta.
      match goal with |- context [if ?b then _ else _] => destruct b end;
        simpl; now rewrite Hn.
    + intros c. rewrite Hc. intros [= <-]. simpl. lia.
Qed.

Lemma one_fetch_serves_the_session_witness :
  Forall (fun r => r = run (Sample.env 0 (Sample.online Sample.payload))
                           fresh_world "2025-01-01")
    (session Sample.libraries (Sample.online Sample.payload) "2025-01-02"
       [10; 299; 150]
       (run (Sample.env 0 (Sample.online Sample.payload))
            fresh_world "2025-01-01").2).
Proof.
  refine (proj1 (one_fetch_serves_the_session Sample.libraries
                   (Sample.online Sample.payload) "2025-01-01" "2025-01-02"
                   fresh_world 0 [10; 299; 150] _ _)).
  - intros c Hc. discriminate Hc.
  - repeat constructor.
Defined.

(** ** Malformed payloads *)

(** A reading that raises: nothing of the dashboard is drawn. *)
Lemma dashboard_unread data e err :
  read_current (ext e) data = Raise err ->
  outcome (dashboard data) e = Crashed err /\ page (dashboard data) e = [].
Proof.
  intros H. unfold outcome, page, dashboard, mbind, script_bind, St.eval.
  rewrite H. split; reflexivity.
Qed.

(** The four sections in a row, however they end. *)
Lemma sections_run x data c e :
  outcome (sections x data c) e =
    match outcome (top_row c) e with
    | Done _ =>
        match outcome (history_section x data) e with
        | Done _ =>
            match outcome (indicator_section data) e with
            | Done _ => Done ()
            | Stopped => Stopped
            | Crashed err => Crashed err
            end
        | Stopped => Stopped
        | Crashed err => Crashed err
        end
    | Stopped => Stopped
    | Crashed err => Crashed err
    end
  /\ page (sections x data c) e =
    page (top_row c) e ++
    match outcome (top_row c) e with
    | Done _ =>
        page (history_section x data) e ++
        match outcome (history_section x data) e with
        | Done _ =>
            page (indicator_section data) e ++
            match outcome (indicator_section data) e with
            | Done _ => page footer e
            | _ => []
            end
        | _ => []
        end
    | _ => []
    end.
Proof.
  unfold sections.
  rewrite !outcome_bind, !page_bind by (intros; apply _).
  destruct (outcome (top_row c) e) as [[] | | ]; [ | now split ..].
  destruct (outcome (history_section x data) e) as [[] | | ]; [ | now split ..].
  destruct (outcome (indicator_section data) e) as [[] | | ]; now split.
Qed.

(** X11. The score must be a number, even next to a valid rating: the
    default of the rating lookup, [_rating_label(current_score)], is
    computed before the lookup.  A score that is [null], a string, a list
    or an object makes the script raise TypeError before anything of the
    dashboard is drawn. *)
Theorem score_must_be_a_number (m fg : gmap string json) (v : json) (e : env) :
  fear_and_greed m = JObj fg ->
  fg !! "score" = Some v ->
  is_number v = false ->
  read_current (ext e) (JObj m) = Raise Py.TypeError
  /\ outcome (dashboard (JObj m)) e = Crashed Py.TypeError
  /\ page (dashboard (JObj m)) e = [].
Proof.
  intros Hfg Hscore Hv.
  assert (read_current (ext e) (JObj m) = Raise Py.TypeError) as Hread.
  { unfold read_current. unfold fear_and_greed in Hfg. simpl. rewrite Hfg.
    simpl. rewrite Hscore. simpl. now destruct v. }
  split; [exact Hread | now apply dashboard_unread].
Qed.

Lemma score_must_be_a_number_witness :
  outcome (dashboard
             (Sample.obj [("fear_and_greed",
                           Sample.obj [("score", JNull);
                                       ("rating", JStr "Greed")])]))
          (Sample.env 0 Sample.offline)
  = Crashed Py.TypeError.
Proof.
  refine (proj1 (proj2 (score_must_be_a_number
                          (list_to_map
                             [("fear_and_greed",
                               Sample.obj [("score", JNull);
                                           ("rating", JStr "Greed")])])
                          (list_to_map [("score", JNull);
                                        ("rating", JStr "Greed")])
                          JNull (Sample.env 0 Sample.offline) _ _ _)));
    reflexivity.
Defined.

(** X12. The rating must be a string when it is there: a rating that is
    [null], a number, a list or an object is not replaced by the
    classifier's label.  [rating.replace] raises AttributeError, for the
    index before anything of the dashboard is drawn, for an indicator
    with a score in the body of the loop. *)
Theorem rating_must_be_a_string (v : json) :
  is_string v = false ->
  (forall m fg e,
     fear_and_greed m = JObj fg ->
     is_number (default (JNum (PInt 0)) (fg !! "score")) = true ->
     fg !! "rating" = Some v ->
     read_current (ext e) (JObj m) = Raise Py.AttributeError
     /\ outcome (dashboard (JObj m)) e = Crashed Py.AttributeError
     /\ page (dashboard (JObj m)) e = [])
  /\ (forall m ind key label score,
        m !! key = Some (JObj ind) ->
        ind !! "score" = Some score -> Value.is_none score = false ->
        ind !! "rating" = Some v ->
        indicator_card (JObj m) key label = Raise Py.AttributeError).
Proof.
  intros Hv. split.
  - intros m fg e Hfg Hscore Hrating.
    assert (read_current (ext e) (JObj m) = Raise Py.AttributeError) as Hread.
    { unfold read_current. unfold fear_and_greed in Hfg. simpl. rewrite Hfg.
      simpl. unfold rating_label_of.
      destruct (Value.as_number (default (JNum (PInt 0)) (fg !! "score")))
        as [s | ] eqn:Hs;
        [ | now destruct (default (JNum (PInt 0)) (fg !! "score"))].
      simpl. rewrite Hrating. simpl. unfold normalise_rating.
      now destruct v. }
    split; [exact Hread | now apply dashboard_unread].
  - intros m ind key label score Hkey Hscore Hnone Hrating.
    unfold indicator_card. simpl. rewrite Hkey. simpl.
    assert (bool_decide (ind = ∅) = false) as ->.
    { apply bool_decide_eq_false. intros ->. now rewrite lookup_empty in Hscore. }
    simpl. rewrite Hscore, Hrating. simpl. rewrite Hnone.
    unfold normalise_rating. now destruct v.
Qed.

Lemma rating_must_be_a_string_witness :
  indicator_card
    (Sample.obj [("junk_bond_demand",
                  Sample.obj [("score", JNum (PInt 70)); ("rating", JNull)])])
    "junk_bond_demand" "Junk Bond Demand"
  = Raise Py.AttributeError.
Proof.
  refine (proj2 (rating_must_be_a_string JNull eq_refl)
            (list_to_map
               [("junk_bond_demand",
                 Sample.obj [("score", JNum (PInt 70)); ("rating", JNull)])])
            (list_to_map [("score", JNum (PInt 70)); ("rating", JNull)])
            "junk_bond_demand" "Junk Bond Demand" (JNum (PInt 70))
            _ _ _ _);
    reflexivity.
Defined.

(** X13. The body must be an object.  A JSON body that is neither
    [null] nor an object (a list, a string, a number, a boolean) is
    returned by the fetch and cached, and the first [data.get] raises
    AttributeError: the run ends with the title and the caption alone.
    The same holds inside the dashboard for a [fear_and_greed] that is
    there and is not an object, [null] included. *)
Theorem body_must_be_an_object x net t start_date w code reason data :
  stale w t ->
  net (requests_sent w) = Response code reason (inr data) ->
  ~ 400 <= code < 600 ->
  let e := {| ext := x; now := t; internet := net |} in
  (Value.is_none data = false -> is_object data = false ->
   run e w start_date =
     (Crashed Py.AttributeError,
      {| screen := [title_element; caption_element];
         cache := Some {| cached_value := data;
                          cached_elements := [];
                          cached_at := t |};
         requests_sent := S (requests_sent w) |}))
  /\ (forall m v,
        data = JObj m -> m !! "fear_and_greed" = Some v ->
        is_object v = false ->
        run e w start_date =
          (Crashed Py.AttributeError,
           {| screen := [title_element; caption_element];
              cache := Some {| cached_value := data;
                               cached_elements := [];
                               cached_at := t |};
              requests_sent := S (requests_sent w) |})).
Proof.
  intros Hstale Hnet Hcode. cbv zeta.
  assert (fetched (request_url start_date) (net (requests_sent w)) = (data, []))
    as Hfetched.
  { rewrite Hnet. unfold fetched, reading_of.
    destruct (Z.leb_spec 400 code), (Z.ltb_spec code 600); simpl;
      try lia; reflexivity. }
  assert (forall err,
            Value.is_none data = false ->
            read_current x data = Raise err ->
            run {| ext := x; now := t; internet := net |} w start_date =
              (Crashed err,
               {| screen := [title_element; caption_element];
                  cache := Some {| cached_value := data;
                                   cached_elements := [];
                                   cached_at := t |};
                  requests_sent := S (requests_sent w) |})) as Hrun.
  { intros err Hnone Hread. rewrite run_miss by exact Hstale. simpl.
    rewrite Hfetched. simpl. rewrite Hnone.
    destruct (dashboard_unread data {| ext := x; now := t; internet := net |}
                err Hread) as [-> ->].
    reflexivity. }
  split.
  - intros Hnone Hobj. apply Hrun; [exact Hnone | ].
    now destruct data.
  - intros m v -> Hfg Hobj. apply Hrun; [reflexivity | ].
    unfold read_current. simpl. rewrite Hfg. simpl. now destruct v.
Qed.

Lemma body_must_be_an_object_witness :
  run (Sample.env 0 (Sample.online (JArr []))) fresh_world "2025-01-01" =
    (Crashed Py.AttributeError,
     {| screen := [title_element; caption_element];
        cache := Some {| cached_value := JArr [];
                         cached_elements := [];
                         cached_at := 0 |};
        requests_sent := 1 |}).
Proof.
  refine (proj1 (body_must_be_an_object Sample.libraries
                   (Sample.online (JArr [])) 0 "2025-01-01" fresh_world
                   200 "OK" (JArr []) _ _ _) _ _).
  - intros c Hc. discriminate Hc.
  - reflexivity.
  - lia.
  - reflexivity.
  - reflexivity.
Defined.

(** The top row when the delta cannot be computed. *)
Lemma top_row_without_delta c e err :
  delta_of c = Raise err ->
  outcome (top_row c) e = Crashed err /\ page (top_row c) e = top_row_head c.
Proof.
  intros H. unfold outcome, page, top_row, mbind, script_bind, St.draw, St.eval.
  simpl. rewrite H. split; reflexivity.
Qed.

(** X14. The previous close must be a number when it is there.  With a
    [previous_close] that is [null], a string, a list or an object, the
    subtraction of line 201 raises TypeError after the gauge, the heading
    of the panel and the rating have been drawn: these three elements are
    all the dashboard shows. *)
Theorem previous_close_must_be_a_number m fg v c e :
  read_current (ext e) (JObj m) = Ok c ->
  fear_and_greed m = JObj fg ->
  fg !! "previous_close" = Some v ->
  is_number v = false ->
  outcome (dashboard (JObj m)) e = Crashed Py.TypeError
  /\ page (dashboard (JObj m)) e =
     [ (ColGauge, Gauge (build_gauge (current_score c) "Current Index"));
       (ColInfo, Markdown "### Sentiment");
       (ColInfo, Heading (color c) (rating_display c)) ].
Proof.
  intros Hc Hfg Hpc Hv.
  destruct (dashboard_built _ _ _ Hc) as [-> ->].
  apply read_current_inv in Hc as (m' & fg' & [= <-] & Hfg' & Hc).
  rewrite Hfg in Hfg'. injection Hfg' as <-.
  simpl in Hc. destruct Hc as (_ & Hprev & _).
  rewrite Hpc in Hprev. simpl in Hprev.
  assert (delta_of c = Raise Py.TypeError) as Hdelta.
  { unfold delta_of. rewrite Hprev. now destruct v. }
  destruct (sections_run (ext e) (JObj m) c e) as [-> ->].
  destruct (top_row_without_delta c e _ Hdelta) as [-> ->].
  split; [reflexivity | ]. unfold top_row_head. now rewrite app_nil_r.
Qed.

Lemma previous_close_must_be_a_number_witness :
  outcome (dashboard
             (Sample.obj [("fear_and_greed",
                           Sample.obj [("score", JNum (PInt 50));
                                       ("previous_close", JNull)])]))
          (Sample.env 0 Sample.offline)
  = Crashed Py.TypeError.
Proof.
  destruct (read_current Sample.libraries
              (Sample.obj [("fear_and_greed",
                            Sample.obj [("score", JNum (PInt 50));
                                        ("previous_close", JNull)])]))
    as [c | ] eqn:Hc; [ | vm_compute in Hc; discriminate].
  refine (proj1 (previous_close_must_be_a_number
                   (list_to_map
                      [("fear_and_greed",
                        Sample.obj [("score", JNum (PInt 50));
                                    ("previous_close", JNull)])])
                   (list_to_map [("score", JNum (PInt 50));
                                 ("previous_close", JNull)])
                   JNull c (Sample.env 0 Sample.offline) Hc _ _ _));
    reflexivity.
Defined.

(** *** The timestamp *)

(** Two payloads that differ in their [fear_and_greed] only and are read
    alike give the same dashboard. *)
Lemma dashboard_same_reading m m' e :
  read_current (ext e) (JObj m') = read_current (ext e) (JObj m) ->
  (forall key, key <> "fear_and_greed" -> m' !! key = m !! key) ->
  outcome (dashboard (JObj m')) e = outcome (dashboard (JObj m)) e
  /\ page (dashboard (JObj m')) e = page (dashboard (JObj m)) e.
Proof.
  intros Hread Hkeys.
  destruct (read_current (ext e) (JObj m)) as [c | err] eqn:Hc.
  - destruct (dashboard_built _ _ _ Hc) as [-> ->].
    destruct (dashboard_built _ _ _ Hread) as [-> ->].
    destruct (sections_run (ext e) (JObj m) c e) as [-> ->].
    destruct (sections_run (ext e) (JObj m') c e) as [-> ->].
    destruct (history_section_run (ext e) (JObj m) e) as [-> ->].
    destruct (history_section_run (ext e) (JObj m') e) as [-> ->].
    rewrite (build_history_chart_ext (ext e) m m')
      by (apply Hkeys; discriminate).
    destruct (indicator_section_run (JObj m) e) as [-> ->].
    destruct (indicator_section_run (JObj m') e) as [-> ->].
    destruct (loop_ext INDICATOR_KEYS m m' e) with (col := 0%nat) as [-> ->].
    + intros [key label] Hkl. apply Hkeys.
      apply indicator_keys_apart in Hkl as [Hkl _]. exact Hkl.
    + now split.
  - destruct (dashboard_unread _ _ _ Hc) as [-> ->].
    destruct (dashboard_unread _ _ _ Hread) as [-> ->].
    now split.
Qed.

(** X15. A timestamp that is falsy is no timestamp.  With a [timestamp]
    of 0 (the epoch itself), 0.0, [false], an empty string, list or
    object, or [null], the payload is read as it is without the field:
    datetime is not called, no last-updated caption is drawn, and the
    dashboard is the one of the payload without [timestamp]. *)
Theorem falsy_timestamp_is_hidden m fg v e :
  fear_and_greed m = JObj fg ->
  fg !! "timestamp" = Some v ->
  Value.truth v = false ->
  let m' := <["fear_and_greed" := JObj (delete "timestamp" fg)]> m in
  read_current (ext e) (JObj m) = read_current (ext e) (JObj m')
  /\ (forall c, read_current (ext e) (JObj m) = Ok c -> last_updated c = "")
  /\ outcome (dashboard (JObj m)) e = outcome (dashboard (JObj m')) e
  /\ page (dashboard (JObj m)) e = page (dashboard (JObj m')) e.
Proof.
  intros Hfg Htime Hfalsy. cbv zeta.
  assert (read_current (ext e) (JObj m) =
          read_current (ext e)
            (JObj (<["fear_and_greed" := JObj (delete "timestamp" fg)]> m)))
    as Hread.
  { unfold read_current. unfold fear_and_greed in Hfg. simpl.
    rewrite Hfg, lookup_insert_eq. simpl.
    rewrite !lookup_delete_ne by discriminate.
    rewrite lookup_delete_eq, Htime. simpl. rewrite Hfalsy.
    destruct (rating_label_of _) as [label | ]; simpl; [ | reflexivity].
    rewrite lookup_delete_ne by discriminate. reflexivity. }
  split; [exact Hread | ]. split.
  - intros c Hc.
    apply read_current_inv in Hc as (m' & fg' & [= <-] & Hfg' & Hc).
    rewrite Hfg in Hfg'. injection Hfg' as <-.
    simpl in Hc. rewrite Htime in Hc. simpl in Hc. rewrite Hfalsy in Hc.
    apply Hc.
  - symmetry in Hread.
    destruct (dashboard_same_reading m _ e Hread) as [-> ->]; [ | now split].
    intros key Hkey. now apply lookup_insert_ne.
Qed.

Lemma falsy_timestamp_is_hidden_witness :
  page (dashboard
          (Sample.obj [("fear_and_greed",
                        Sample.obj [("score", JNum (PInt 50));
                                    ("timestamp", JNum (PInt 0))])]))
       (Sample.env 0 Sample.offline)
  = page (dashboard
            (JObj (<["fear_and_greed" :=
                       JObj (delete "timestamp"
                               (list_to_map [("score", JNum (PInt 50));
                                             ("timestamp", JNum (PInt 0))]))]>
                     (list_to_map
                        [("fear_and_greed",
                          Sample.obj [("score", JNum (PInt 50));
                                      ("timestamp", JNum (PInt 0))])]))))
         (Sample.env 0 Sample.offline).
Proof.
  refine (proj2 (proj2 (proj2 (falsy_timestamp_is_hidden
                                 (list_to_map
                                    [("fear_and_greed",
                                      Sample.obj [("score", JNum (PInt 50));
                                                  ("timestamp", JNum (PInt 0))])])
                                 (list_to_map [("score", JNum (PInt 50));
                                               ("timestamp", JNum (PInt 0))])
                                 (JNum (PInt 0))
                                 (Sample.env 0 Sample.offline) _ _ _))));
    reflexivity.
Defined.

Lemma read_current_timestamp x m fg v err :
  fear_and_greed m = JObj fg ->
  is_number (default (JNum (PInt 0)) (fg !! "score")) = true ->
  rating_ok fg ->
  fg !! "timestamp" = Some v ->
  Value.truth v = true ->
  (ms ← Value.as_number v; utc_strftime x ms) = Raise err ->
  read_current x (JObj m) = Raise err.
Proof.
  intros Hfg Hscore Hrating Htime Htruthy Hconv.
  unfold read_current. unfold fear_and_greed in Hfg. simpl.
  rewrite Hfg. simpl. unfold rating_label_of.
  destruct (Value.as_number (default (JNum (PInt 0)) (fg !! "score")))
    as [s | ] eqn:Hs;
    [ | now destruct (default (JNum (PInt 0)) (fg !! "score"))].
  simpl.
  assert (exists label, default (JStr (_rating_label s)) (fg !! "rating")
                        = JStr label) as [label ->].
  { destruct Hrating as [-> | [label ->]]; simpl; eauto. }
  rewrite (normalise_rating_display _ _ _ Hs). simpl.
  rewrite Htime. simpl. rewrite Htruthy, Hconv. reflexivity.
Qed.

(** X16. A timestamp that cannot be read ends the run before the top
    row.  With a truthy [timestamp] that is not a number (a string, a
    list, an object) the division by 1000 raises TypeError; with a number
    datetime refuses, the exception of datetime goes through.  In both
    cases nothing of the dashboard is drawn. *)
Theorem unreadable_timestamp_crashes m fg v e :
  fear_and_greed m = JObj fg ->
  is_number (default (JNum (PInt 0)) (fg !! "score")) = true ->
  rating_ok fg ->
  fg !! "timestamp" = Some v ->
  Value.truth v = true ->
  (is_number v = false ->
   read_current (ext e) (JObj m) = Raise Py.TypeError
   /\ outcome (dashboard (JObj m)) e = Crashed Py.TypeError
   /\ page (dashboard (JObj m)) e = [])
  /\ (forall ms err,
        Value.as_number v = Ok ms -> utc_strftime (ext e) ms = Raise err ->
        read_current (ext e) (JObj m) = Raise err
        /\ outcome (dashboard (JObj m)) e = Crashed err
        /\ page (dashboard (JObj m)) e = []).
Proof.
  intros Hfg Hscore Hrating Htime Htruthy. split.
  - intros Hv.
    assert (read_current (ext e) (JObj m) = Raise Py.TypeError) as Hread.
    { apply (read_current_timestamp _ m fg v); try assumption.
      now destruct v. }
    split; [exact Hread | now apply dashboard_unread].
  - intros ms err Hms Herr.
    assert (read_current (ext e) (JObj m) = Raise err) as Hread.
    { apply (read_current_timestamp _ m fg v); try assumption.
      rewrite Hms. exact Herr. }
    split; [exact Hread | now apply dashboard_unread].
Qed.

Lemma unreadable_timestamp_crashes_witness :
  outcome (dashboard
             (Sample.obj [("fear_and_greed",
                           Sample.obj [("score", JNum (PInt 50));
                                       ("timestamp", JStr "2024-01-01")])]))
          (Sample.env 0 Sample.offline)
  = Crashed Py.TypeError.
Proof.
  refine (proj1 (proj2 (proj1 (unreadable_timestamp_crashes
                                 (list_to_map
                                    [("fear_and_greed",
                                      Sample.obj [("score", JNum (PInt 50));
                                                  ("timestamp", JStr "2024-01-01")])])
                                 (list_to_map [("score", JNum (PInt 50));
                                               ("timestamp", JStr "2024-01-01")])
                                 (JStr "2024-01-01")
                                 (Sample.env 0 Sample.offline) _ _ _ _ _) _)));
    try reflexivity.
  now left.
Defined.

(** *** The history and the indicators *)

(** X17. The history must be an object when it is there.  A
    [fear_and_greed_historical] that is [null], a list, a string or a
    number is not taken for a missing history: [.get("data")] raises
    AttributeError.  The run ends after the top row and the divider, with
    neither chart nor notice, and without the indicators and the
    footer. *)
Theorem history_must_be_an_object m v c e :
  m !! "fear_and_greed_historical" = Some v ->
  is_object v = false ->
  build_history_chart (ext e) (JObj m) = Raise Py.AttributeError
  /\ (read_current (ext e) (JObj m) = Ok c ->
      outcome (top_row c) e = Done () ->
      outcome (dashboard (JObj m)) e = Crashed Py.AttributeError /\
      page (dashboard (JObj m)) e = page (top_row c) e ++ [(Page, Divider)]).
Proof.
  intros Hhist Hv.
  assert (build_history_chart (ext e) (JObj m) = Raise Py.AttributeError)
    as Hchart.
  { unfold build_history_chart. simpl. rewrite Hhist. simpl. now destruct v. }
  split; [exact Hchart | ].
  intros Hc Htop.
  destruct (dashboard_built _ _ _ Hc) as [-> ->].
  destruct (sections_run (ext e) (JObj m) c e) as [-> ->].
  destruct (history_section_run (ext e) (JObj m) e) as [-> ->].
  rewrite Htop, Hchart. split; [reflexivity | ]. now rewrite app_nil_r.
Qed.

Lemma history_must_be_an_object_witness :
  build_history_chart Sample.libraries
    (Sample.obj [("fear_and_greed_historical", JNull)])
  = Raise Py.AttributeError.
Proof.
  refine (proj1 (history_must_be_an_object
                   (list_to_map [("fear_and_greed_historical", JNull)])
                   JNull
                   {| current_score := PInt 0; rating_display := "";
                      color := ""; previous_close := JNull;
                      last_updated := "" |}
                   (Sample.env 0 Sample.offline) _ _));
    reflexivity.
Defined.

(** X18. A malformed indicator raises.  An indicator that is truthy and
    not an object (a number, a string, a non-empty list) has no [get]:
    AttributeError.  An indicator object whose score is neither [null]
    nor a number raises in the classifier (TypeError) when its rating is
    absent or not one of the five labels, and in the formatting of the
    score when the rating is one of them: ValueError for a string,
    TypeError for a list or an object. *)
Theorem malformed_indicator (m : gmap string json) (key label : string) :
  (forall v,
     m !! key = Some v -> Value.truth v = true -> is_object v = false ->
     indicator_card (JObj m) key label = Raise Py.AttributeError)
  /\ (forall ind score rating,
        m !! key = Some (JObj ind) ->
        ind !! "score" = Some score ->
        Value.is_none score = false -> is_number score = false ->
        default (JStr "") (ind !! "rating") = JStr rating ->
        indicator_card (JObj m) key label =
        Raise match Spec.band_of_name
                      (Str.title (Str.replace_underscores rating)) with
              | None => Py.TypeError
              | Some _ => if is_string score then Py.ValueError
                          else Py.TypeError
              end).
Proof.
  split.
  - intros v Hkey Htruthy Hv. unfold indicator_card. simpl.
    rewrite Hkey. simpl. rewrite Htruthy. simpl. now destruct v.
  - intros ind score rating Hkey Hscore Hnone Hnum Hrating.
    unfold indicator_card. simpl. rewrite Hkey. simpl.
    assert (bool_decide (ind = ∅) = false) as ->.
    { apply bool_decide_eq_false. intros ->. now rewrite lookup_empty in Hscore. }
    simpl. rewrite Hscore. simpl. rewrite Hnone, Hrating.
    unfold normalise_rating. simpl. rewrite rating_colors_bands.
    destruct (Spec.band_of_name _) as [b | ]; simpl.
    + now destruct score.
    + now destruct score.
Qed.

(** X19. An exception in the body of the loop ends the loop there: the
    cards of the indicators before stay on the page, and nothing is drawn
    for the ones after.  On the page of the script the footer is missing
    as well. *)
Theorem failing_indicator_stops_the_loop pre key label post data e err :
  indicator_card data key label = Raise err ->
  (forall col,
     outcome (indicator_loop pre col data) e = Done () ->
     outcome (indicator_loop (pre ++ (key, label) :: post) col data) e
     = Crashed err
     /\ page (indicator_loop (pre ++ (key, label) :: post) col data) e
        = page (indicator_loop pre col data) e)
  /\ (forall c,
        pre ++ (key, label) :: post = INDICATOR_KEYS ->
        read_current (ext e) data = Ok c ->
        outcome (top_row c) e = Done () ->
        outcome (history_section (ext e) data) e = Done () ->
        outcome (indicator_loop pre 0 data) e = Done () ->
        outcome (dashboard data) e = Crashed err
        /\ page (dashboard data) e =
           page (top_row c) e ++ page (history_section (ext e) data) e
           ++ [(Page, Divider); (Page, Subheader "Component Indicators")]
           ++ page (indicator_loop pre 0 data) e).
Proof.
  intros Hcard.
  assert (forall col,
            outcome (indicator_loop pre col data) e = Done () ->
            outcome (indicator_loop (pre ++ (key, label) :: post) col data) e
            = Crashed err
            /\ page (indicator_loop (pre ++ (key, label) :: post) col data) e
               = page (indicator_loop pre col data) e) as Hloop.
  { induction pre as [ | [key' label'] rest IH]; intros col Hdone.
    - destruct (loop_step key label post col data e) as [Hout Hpage].
      simpl app. rewrite Hout, Hpage, Hcard. now split.
    - simpl app.
      destruct (loop_step key' label' (rest ++ (key, label) :: post) col data e)
        as [-> ->].
      destruct (loop_step key' label' rest col data e) as [Hout ->].
      rewrite Hout in Hdone.
      destruct (indicator_card data key' label') as [[card | ] | ];
        [ | now apply IH | discriminate].
      destruct (IH (S col) Hdone) as [-> ->]. now split. }
  split; [exact Hloop | ].
  intros c Hkeys Hc Htop Hhist Hpre.
  destruct (dashboard_built _ _ _ Hc) as [-> ->].
  destruct (sections_run (ext e) data c e) as [-> ->].
  destruct (indicator_section_run data e) as [-> ->].
  rewrite Htop, Hhist, <- Hkeys.
  destruct (Hloop 0%nat Hpre) as [-> ->].
  split; [reflexivity | ]. now rewrite app_nil_r.
Qed.

Lemma failing_indicator_stops_the_loop_witness :
  outcome (indicator_loop INDICATOR_KEYS 0
             (Sample.obj [("market_momentum_sp500", Sample.indicator (PInt 50) "");
                          ("stock_price_strength", JNum (PInt 61))]))
          (Sample.env 0 Sample.offline)
  = Crashed Py.AttributeError.
Proof.
  refine (proj1 (proj1 (failing_indicator_stops_the_loop
                          [("market_momentum_sp500", "Market Momentum")]
                          "stock_price_strength" "Stock Price Strength"
                          [ ("stock_price_breadth", "Stock Price Breadth");
                            ("put_call_options", "Put and Call Options");
                            ("market_volatility_vix", "Market Volatility");
                            ("safe_haven_demand", "Safe Haven Demand");
                            ("junk_bond_demand", "Junk Bond Demand") ]
                          _ (Sample.env 0 Sample.offline) Py.AttributeError _)
                   0%nat _));
    reflexivity.
Defined.

(** ** The page of a run that completes *)

Lemma slots_from_length col shown : length (slots_from col shown) = length shown.
Proof. unfold slots_from. apply length_imap. Qed.

(** X20. The layout of a page that completes.  Top to bottom: the gauge
    in the left column; in the right column the heading of the panel, the
    rating in its colour, the score with its delta, the last-updated
    caption when there is a timestamp, and the table of the bands; a
    divider; the chart, or the notice when there is no history; a
    divider and the subheader; at most seven cards; a divider and the
    footer.  The only message such a page can carry is the notice: it
    has no error and no warning. *)
Theorem completed_page (data : json) (e : env) :
  outcome (dashboard data) e = Done () ->
  exists c value_text delta_text chart cards,
    read_current (ext e) data = Ok c
    /\ page (dashboard data) e =
       [ (ColGauge, Gauge (build_gauge (current_score c) "Current Index"));
         (ColInfo, Markdown "### Sentiment");
         (ColInfo, Heading (color c) (rating_display c));
         (ColInfo, Metric "Score" value_text (delta_text +:+ " vs prev close")) ]
       ++ (if String.eqb (last_updated c) "" then []
           else [(ColInfo, Caption ("Last updated: " +:+ last_updated c))])
       ++ [ (ColInfo, Markdown sentiment_table);
            (Page, Divider);
            chart;
            (Page, Divider);
            (Page, Subheader "Component Indicators") ]
       ++ cards
       ++ page footer e
    /\ match build_history_chart (ext e) data with
       | Ok (Some fig) => chart = (Page, History fig)
       | _ => chart = history_unavailable
       end
    /\ Forall is_card cards /\ (length cards <= 7)%nat
    /\ List.filter is_message (page (dashboard data) e)
       = List.filter is_message [chart].
Proof.
  intros Hdone.
  apply dashboard_read in Hdone as (c & Hc & Hdone & ->).
  pose proof (sections_page _ _ _ _ Hdone) as Hpage.
  apply sections_done in Hdone as (Htop & Hhist & Hind).
  apply top_row_done in Htop as (d & vt & dt & Hd & Hv & Ht).
  pose proof (top_row_run c d vt dt e fresh_world Hd Hv Ht) as Hrow.
  assert (page (top_row c) e =
          [ (ColGauge, Gauge (build_gauge (current_score c) "Current Index"));
            (ColInfo, Markdown "### Sentiment");
            (ColInfo, Heading (color c) (rating_display c));
            (ColInfo, Metric "Score" vt (dt +:+ " vs prev close")) ]
          ++ (if String.eqb (last_updated c) "" then []
              else [(ColInfo, Caption ("Last updated: " +:+ last_updated c))])
          ++ [(ColInfo, Markdown sentiment_table)]) as Htoppage
    by (unfold page; now rewrite Hrow).
  destruct (history_section_run (ext e) data e) as [Hho Hhp].
  destruct (indicator_section_run data e) as [Hio Hip].
  rewrite Hio in Hind.
  apply read_current_inv in Hc as Hinv. destruct Hinv as (m & fg & -> & _).
  destruct (loop_slots INDICATOR_KEYS m e 0%nat Hind) as [Hcards Hslots].
  exists c, vt, dt.
  exists (match build_history_chart (ext e) (JObj m) with
          | Ok (Some fig) => (Page, History fig)
          | _ => history_unavailable
          end).
  exists (page (indicator_loop INDICATOR_KEYS 0 (JObj m)) e).
  split; [exact Hc | ].
  match goal with |- ?layout /\ _ => assert layout as Hlayout end;
    [ | split; [exact Hlayout | ]].
  { rewrite Hpage, Htoppage, Hhp, Hip. rewrite Hho in Hhist.
    destruct (build_history_chart (ext e) (JObj m)) as [[fig | ] | ];
      [ | | discriminate]; rewrite <- !app_assoc; reflexivity. }
  split.
  { now destruct (build_history_chart (ext e) (JObj m)) as [[fig | ] | ]. }
  split; [exact Hcards | ].
  split.
  { rewrite <- (length_map slot), Hslots, slots_from_length.
    etransitivity; [apply length_filter | ]. reflexivity. }
  rewrite Hlayout. rewrite !List.filter_app.
  assert (List.filter is_message
            (page (indicator_loop INDICATOR_KEYS 0 (JObj m)) e) = []) as ->.
  { apply filter_none. eapply Forall_impl; [exact Hcards | ].
    intros [[ | | | i] []] Hcard; try destruct Hcard; reflexivity. }
  destruct (String.eqb (last_updated c) ""); simpl;
    destruct (build_history_chart (ext e) (JObj m)) as [[fig | ] | ];
    reflexivity.
Qed.

Lemma completed_page_witness :
  exists c value_text delta_text chart cards,
    read_current Sample.libraries Sample.payload = Ok c
    /\ page (dashboard Sample.payload) (Sample.env 0 Sample.offline) =
       [ (ColGauge, Gauge (build_gauge (current_score c) "Current Index"));
         (ColInfo, Markdown "### Sentiment");
         (ColInfo, Heading (color c) (rating_display c));
         (ColInfo, Metric "Score" value_text (delta_text +:+ " vs prev close")) ]
       ++ (if String.eqb (last_updated c) "" then []
           else [(ColInfo, Caption ("Last updated: " +:+ last_updated c))])
       ++ [ (ColInfo, Markdown sentiment_table);
            (Page, Divider);
            chart;
            (Page, Divider);
            (Page, Subheader "Component Indicators") ]
       ++ cards
       ++ page footer (Sample.env 0 Sample.offline)
    /\ (length cards <= 7)%nat.
Proof.
  destruct (completed_page Sample.payload (Sample.env 0 Sample.offline))
    as (c & vt & dt & chart & cards & Hc & Hpage & _ & _ & Hlen & _).
  - vm_compute. reflexivity.
  - exists c, vt, dt, chart, cards. auto.
Defined.

(** ** The start date *)

Section Dates.

Import Datetime.

Lemma all_from_spec fuel : forall n f,
  all_from fuel n f = true -> forall i, n <= i < n + Z.of_nat fuel -> f i = true.
Proof.
  induction fuel as [ | k IH]; intros n f H i Hi; [lia | ].
  simpl in H. apply andb_true_iff in H as [Hn Hrest].
  destruct (Z.eq_dec i n) as [-> | Hne]; [exact Hn | ].
  apply (IH (n + 1) f Hrest). lia.
Qed.

Lemma days_before_next_year y :
  _days_before_year (y + 1) = _days_before_year y + year_days y.
Proof.
  unfold _days_before_year, year_days, _is_leap. cbv zeta.
  replace (y + 1 - 1) with (y - 1 + 1) by lia.
  destruct (Z.eqb_spec (y mod 4) 0), (Z.eqb_spec (y mod 100) 0),
    (Z.eqb_spec (y mod 400) 0); simpl; Z.div_mod_to_equations; lia.
Qed.

Lemma year_split y :
  1 <= y ->
  exists a b c e,
    0 <= a /\ 0 <= b <= 3 /\ 0 <= c <= 24 /\ 0 <= e <= 3 /\
    y - 1 = 400 * a + 100 * b + 4 * c + e /\
    _days_before_year y = 146097 * a + 36524 * b + 1461 * c + 365 * e /\
    _is_leap y = (e =? 3) && (negb (c =? 24) || (b =? 3)).
Proof.
  intros Hy.
  exists ((y - 1) / 400), ((y - 1) mod 400 / 100), ((y - 1) mod 100 / 4),
         ((y - 1) mod 4).
  repeat split; try (Z.div_mod_to_equations; lia).
  - unfold _days_before_year. cbv zeta. Z.div_mod_to_equations. lia.
  - unfold _is_leap.
    destruct (Z.eqb_spec (y mod 4) 0), (Z.eqb_spec (y mod 100) 0),
      (Z.eqb_spec (y mod 400) 0), (Z.eqb_spec ((y - 1) mod 4) 3),
      (Z.eqb_spec ((y - 1) mod 100 / 4) 24),
      (Z.eqb_spec ((y - 1) mod 400 / 100) 3); simpl;
      try reflexivity; exfalso; Z.div_mod_to_equations; lia.
Qed.

Ltac divmod_is t d q r :=
  let H := fresh in
  assert (t / d = q /\ t mod d = r) as H;
  [ | destruct H as [-> ->] ].

Lemma fromordinal_year_day y k :
  1 <= y -> 0 <= k < year_days y ->
  fromordinal (_days_before_year y + k + 1) =
  {| year := y;
     month := (_ord2md (_is_leap y) k).1;
     day := (_ord2md (_is_leap y) k).2 |}.
Proof.
  intros Hy Hk.
  destruct (year_split y Hy)
    as (a & b & c & e & Ha & Hb & Hc & He & Hyear & Hdays & Hleap).
  unfold year_days in Hk. rewrite Hleap in *. rewrite Hdays.
  unfold fromordinal. cbv zeta.
  replace (146097 * a + 36524 * b + 1461 * c + 365 * e + k + 1 - 1)
    with ((36524 * b + 1461 * c + 365 * e + k) + a * 146097) by lia.
  assert (0 <= 36524 * b + 1461 * c + 365 * e + k < 146097) as Hr1.
  { destruct (Z.eqb_spec e 3), (Z.eqb_spec c 24), (Z.eqb_spec b 3);
      simpl in Hk; lia. }
  rewrite Z.div_add, Z.mod_add by lia.
  rewrite (Z.div_small _ 146097), (Z.mod_small _ 146097) by exact Hr1.
  rewrite Z.add_0_l.
  destruct (Z.eq_dec k 365) as [-> | Hk365].
  - (* the last day of a leap year *)
    assert (e = 3 /\ (c <> 24 \/ b = 3)) as [-> Hcb].
    { destruct (Z.eqb_spec e 3), (Z.eqb_spec c 24), (Z.eqb_spec b 3);
        simpl in Hk; lia. }
    assert ((3 =? 3) && (negb (c =? 24) || (b =? 3)) = true) as ->.
    { destruct (Z.eqb_spec c 24), (Z.eqb_spec b 3); simpl; auto; lia. }
    change (_ord2md true 365) with (12, 31). simpl fst. simpl snd.
    destruct (Z.eq_dec c 24) as [-> | Hc24].
    + assert (b = 3) as -> by lia.
      change (36524 * 3 + 1461 * 24 + 365 * 3 + 365) with (4 * 36524).
      change (if (0 =? 4) || (4 =? 4)
              then {| year := a * 400 + 1 + 4 * 100 + 0 * 4 + 0 - 1;
                      month := 12; day := 31 |}
              else _) with {| year := a * 400 + 1 + 4 * 100 + 0 * 4 + 0 - 1;
                              month := 12; day := 31 |}.
      f_equal. Z.div_mod_to_equations. lia.
    + divmod_is (36524 * b + 1461 * c + 365 * 3 + 365) 36524 b
                (1461 * c + 365 * 3 + 365);
        [Z.div_mod_to_equations; lia | ].
      divmod_is (1461 * c + 365 * 3 + 365) 1461 c (365 * 3 + 365);
        [Z.div_mod_to_equations; lia | ].
      change ((365 * 3 + 365) / 365) with 4.
      change (4 =? 4) with true. simpl orb. cbv iota.
      f_equal. lia.
  - divmod_is (36524 * b + 1461 * c + 365 * e + k) 36524 b
              (1461 * c + 365 * e + k).
    { destruct (Z.eqb_spec e 3), (Z.eqb_spec c 24), (Z.eqb_spec b 3);
        simpl in Hk; Z.div_mod_to_equations; lia. }
    assert (k < 365) as Hk364.
    { destruct (Z.eqb_spec e 3), (Z.eqb_spec c 24), (Z.eqb_spec b 3);
        simpl in Hk; lia. }
    divmod_is (1461 * c + 365 * e + k) 1461 c (365 * e + k);
      [Z.div_mod_to_equations; lia | ].
    divmod_is (365 * e + k) 365 e k; [Z.div_mod_to_equations; lia | ].
    destruct (Z.eqb_spec e 4); [lia | ].
    destruct (Z.eqb_spec b 4); [lia | ].
    simpl orb. cbv iota. f_equal. lia.
Qed.

Lemma month_day_table :
  forallb (fun leap =>
    all_from 12 1 (fun m => all_from 31 1 (check_month_day leap m)))
    [true; false] = true.
Proof. vm_compute. reflexivity. Qed.

Lemma ord2md_month_day leap m d :
  1 <= m <= 12 -> 1 <= d <= _days_in_month leap m ->
  let k := _days_before_month leap m + d - 1 in
  0 <= k < (if leap then 366 else 365) /\ _ord2md leap k = (m, d).
Proof.
  intros Hm Hd.
  assert (d <= 31) as Hd31.
  { unfold _days_in_month in Hd.
    assert (m = 1 \/ m = 2 \/ m = 3 \/ m = 4 \/ m = 5 \/ m = 6 \/ m = 7 \/
            m = 8 \/ m = 9 \/ m = 10 \/ m = 11 \/ m = 12) as Hcases by lia.
    destruct leap;
      repeat destruct Hcases as [-> | Hcases]; try subst m; simpl in Hd; lia. }
  pose proof month_day_table as Htable.
  pose proof (proj1 (forallb_forall _ _) Htable leap) as Hleap.
  assert (In leap [true; false]) as Hin by (destruct leap; simpl; auto).
  specialize (Hleap Hin).
  pose proof (all_from_spec _ _ _ Hleap m ltac:(lia)) as Hmonth.
  pose proof (all_from_spec _ _ _ Hmonth d ltac:(lia)) as Hday.
  unfold check_month_day in Hday. cbv zeta in *.
  destruct (Z.leb_spec 1 d), (Z.leb_spec d (_days_in_month leap m));
    try lia.
  simpl in Hday.
  apply andb_true_iff in Hday as [Hday Hd2].
  apply andb_true_iff in Hday as [Hday Hm2].
  apply andb_true_iff in Hday as [Hk0 Hk1].
  apply Z.leb_le in Hk0. apply Z.ltb_lt in Hk1.
  apply Z.eqb_eq in Hm2, Hd2.
  split; [lia | ].
  clear Htable Hleap Hmonth.
  destruct (_ord2md leap _) as [m' d']. cbn [fst snd] in Hm2, Hd2. congruence.
Qed.

Lemma fromordinal_toordinal d :
  valid d = true -> fromordinal (toordinal d) = d.
Proof.
  unfold valid. destruct d as [y m dd]. simpl. intros Hvalid.
  repeat (apply andb_true_iff in Hvalid as [Hvalid ?]).
  repeat match goal with
         | H : (_ <=? _) = true |- _ => apply Z.leb_le in H
         end.
  destruct (ord2md_month_day (_is_leap y) m dd) as [Hk Hmd]; [lia | lia | ].
  unfold toordinal. simpl.
  replace (_days_before_year y + _days_before_month (_is_leap y) m + dd)
    with (_days_before_year y + (_days_before_month (_is_leap y) m + dd - 1) + 1)
    by lia.
  rewrite fromordinal_year_day; [ | lia | exact Hk].
  now rewrite Hmd.
Qed.


Lemma valid_inv y m d :
  valid {| year := y; month := m; day := d |} = true <->
  1 <= y <= 9999 /\ 1 <= m <= 12 /\ 1 <= d <= _days_in_month (_is_leap y) m.
Proof.
  unfold valid. simpl. rewrite !andb_true_iff, !Z.leb_le. tauto.
Qed.

Lemma months (m : Z) :
  1 <= m <= 12 ->
  m = 1 \/ m = 2 \/ m = 3 \/ m = 4 \/ m = 5 \/ m = 6 \/ m = 7 \/
  m = 8 \/ m = 9 \/ m = 10 \/ m = 11 \/ m = 12.
Proof. lia. Qed.

Lemma days_before_next_month leap m :
  1 <= m < 12 ->
  _days_before_month leap (m + 1)
  = _days_before_month leap m + _days_in_month leap m.
Proof.
  intros Hm. pose proof (months m ltac:(lia)) as Hcases.
  destruct leap; repeat destruct Hcases as [-> | Hcases]; try subst m;
    try reflexivity; lia.
Qed.

Lemma december leap :
  _days_before_month leap 12 + _days_in_month leap 12
  = if leap then 366 else 365.
Proof. destruct leap; reflexivity. Qed.

Lemma tomorrow_ordinal d :
  valid d = true -> year d < 9999 ->
  valid (tomorrow d) = true /\ toordinal (tomorrow d) = toordinal d + 1.
Proof.
  destruct d as [y m dd]. intros Hvalid Hy. simpl in Hy.
  apply valid_inv in Hvalid as (Hyear & Hm & Hd).
  unfold tomorrow. simpl.
  destruct (Z.ltb_spec dd (_days_in_month (_is_leap y) m)).
  - split; [apply valid_inv; lia | unfold toordinal; simpl; lia].
  - destruct (Z.ltb_spec m 12).
    + split.
      * apply valid_inv. repeat split; try lia.
        pose proof (months (m + 1) ltac:(lia)) as Hcases.
        destruct (_is_leap y);
          repeat destruct Hcases as [-> | Hcases]; try rewrite Hcases;
          vm_compute; discriminate.
      * unfold toordinal. simpl.
        rewrite days_before_next_month by lia. lia.
    + assert (m = 12) as -> by lia.
      split.
      * apply valid_inv. repeat split; try lia.
        destruct (_is_leap (y + 1)); vm_compute; discriminate.
      * unfold toordinal. simpl.
        rewrite days_before_next_year. unfold year_days.
        pose proof (december (_is_leap y)) as Hdec.
        change (_days_before_month (_is_leap (y + 1)) 1) with 0.
        destruct (_is_leap y); lia.
Qed.

Lemma not_leap_twice y : _is_leap y = true -> _is_leap (y - 1) = false.
Proof.
  unfold _is_leap.
  destruct (Z.eqb_spec (y mod 4) 0), (Z.eqb_spec ((y - 1) mod 4) 0);
    simpl; try discriminate; try reflexivity.
  exfalso. Z.div_mod_to_equations. lia.
Qed.

Lemma year_day_of_date y m d :
  1 <= m <= 12 -> 1 <= d <= _days_in_month (_is_leap y) m ->
  1 <= _days_before_month (_is_leap y) m + d <= year_days y.
Proof.
  intros Hm Hd. unfold year_days.
  destruct (ord2md_month_day (_is_leap y) m d Hm Hd) as [Hk _]. lia.
Qed.

Lemma toordinal_range d : valid d = true -> 1 <= toordinal d <= _MAXORDINAL.
Proof.
  destruct d as [y m dd]. intros Hvalid.
  apply valid_inv in Hvalid as (Hy & Hm & Hd).
  pose proof (year_day_of_date y m dd Hm Hd) as Hk.
  unfold toordinal, _MAXORDINAL. simpl.
  set (K := _days_before_month (_is_leap y) m) in *.
  unfold year_days in Hk. unfold _days_before_year. cbv zeta.
  destruct (_is_leap y) eqn:Hleap.
  - unfold _is_leap in Hleap. apply andb_true_iff in Hleap as [Hfour _].
    apply Z.eqb_eq in Hfour. Z.div_mod_to_equations. lia.
  - Z.div_mod_to_equations. lia.
Qed.

Lemma a_year_back_ordinal today :
  valid today = true -> 2 <= year today ->
  valid (a_year_back today) = true /\
  toordinal (a_year_back today) = toordinal today - 365.
Proof.
  destruct today as [y m dd]. intros Hvalid Hy. simpl in Hy.
  apply valid_inv in Hvalid as (Hyear & Hm & Hd).
  unfold a_year_back. simpl.
  assert (_days_before_year y = _days_before_year (y - 1) + year_days (y - 1))
    as Hdby.
  { rewrite <- days_before_next_year. f_equal. lia. }
  destruct ((m =? 2) && (dd =? 29)) eqn:Hfeb29.
  - apply andb_true_iff in Hfeb29 as [->%Z.eqb_eq ->%Z.eqb_eq].
    assert (_is_leap y = true) as Hleap.
    { destruct (_is_leap y); [reflexivity | ].
      change (_days_in_month false 2) with 28 in Hd. lia. }
    pose proof (not_leap_twice y Hleap) as Hprev.
    split.
    { apply valid_inv. rewrite Hprev.
      change (_days_in_month false 3) with 31. lia. }
    unfold toordinal. simpl. rewrite Hdby. unfold year_days.
    rewrite Hleap, Hprev.
    change (_days_before_month true 2) with 31.
    change (_days_before_month false 3) with 59. lia.
  - assert (1 <= dd <= _days_in_month (_is_leap (y - 1)) m) as Hd'.
    { unfold _days_in_month in *.
      destruct (Z.eqb_spec m 2) as [-> | ]; simpl in *; [ | lia].
      destruct (Z.eqb_spec dd 29); [discriminate | ].
      destruct (_is_leap y), (_is_leap (y - 1)); simpl in *; lia. }
    assert (valid {| year := y - 1; month := m; day := dd |} = true) as Hsame
      by (apply valid_inv; lia).
    assert (toordinal {| year := y - 1; month := m; day := dd |}
            + (if (if 2 <? m then _is_leap y else _is_leap (y - 1))
               then 1 else 0)
            = toordinal {| year := y; month := m; day := dd |} - 365) as Hdiff.
    { unfold toordinal. simpl. rewrite Hdby.
      unfold year_days, _days_before_month.
      pose proof (not_leap_twice y) as Htwice.
      destruct (Z.ltb_spec 2 m), (_is_leap y), (_is_leap (y - 1)); simpl;
        try lia; specialize (Htwice eq_refl); discriminate. }
    destruct (if 2 <? m then _is_leap y else _is_leap (y - 1)).
    + destruct (tomorrow_ordinal _ Hsame) as [Hv Ho]; [simpl; lia | ].
      split; [exact Hv | lia].
    + split; [exact Hsame | lia].
Qed.

Lemma string_length_app (a b : string) :
  String.length (a +:+ b) = (String.length a + String.length b)%nat.
Proof. induction a as [ | c a IH]; simpl; [reflexivity | now rewrite IH]. Qed.

Lemma zfill_table :
  all_from (Z.to_nat 9999) 1 (fun n => Nat.eqb (String.length (zfill 4 n)) 4) = true
  /\ all_from 31 1 (fun n => Nat.eqb (String.length (zfill 2 n)) 2) = true.
Proof. split; vm_compute; reflexivity. Qed.

Lemma isoformat_length d : valid d = true -> String.length (isoformat d) = 10%nat.
Proof.
  destruct d as [y m dd]. intros Hvalid.
  apply valid_inv in Hvalid as (Hy & Hm & Hd).
  assert (dd <= 31) as Hd31.
  { pose proof (months m Hm) as Hcases.
    destruct (_is_leap y);
      repeat destruct Hcases as [-> | Hcases]; try subst m;
      unfold _days_in_month in Hd; simpl in Hd; lia. }
  destruct zfill_table as [H4 H2].
  pose proof (all_from_spec _ _ _ H4 y ltac:(lia)) as Hyl.
  pose proof (all_from_spec _ _ _ H2 m ltac:(lia)) as Hml.
  pose proof (all_from_spec _ _ _ H2 dd ltac:(lia)) as Hdl.
  apply Nat.eqb_eq in Hyl, Hml, Hdl.
  unfold isoformat. simpl year. simpl month. simpl day.
  rewrite !string_length_app, Hyl, Hml, Hdl. reflexivity.
Qed.

Lemma sub_days_365 today :
  valid today = true -> 2 <= year today ->
  sub_days today 365 = Ok (a_year_back today).
Proof.
  intros Hvalid Hy.
  destruct (a_year_back_ordinal today Hvalid Hy) as [Hv Ho].
  pose proof (toordinal_range _ Hv) as Hrange.
  unfold sub_days. cbv zeta. rewrite <- Ho.
  destruct (Z.ltb_spec 0 (toordinal (a_year_back today))); [ | lia].
  destruct (Z.leb_spec (toordinal (a_year_back today)) _MAXORDINAL); [ | lia].
  simpl. now rewrite fromordinal_toordinal.
Qed.

(** X21. The request starts 365 days back, not a calendar year: for every
    date from year 2 on, the start date is the same day of the year
    before, or the day after it when a 29 February lies between the two
    (1 March for a 29 February).  It is a date of the calendar, exactly
    365 days before today; its text has the ten characters of
    [YYYY-MM-DD]; computing it raises nothing, so that the function with
    its first line is the fetch for that text. *)
Theorem start_date_a_year_back (today : date) :
  valid today = true -> 2 <= year today ->
  let start := a_year_back today in
  valid start = true
  /\ toordinal start = toordinal today - 365
  /\ start_date today = Ok (isoformat start)
  /\ String.length (isoformat start) = 10%nat
  /\ (forall e w,
        fetch_today today e w = fetch_fear_greed_data (isoformat start) e w).
Proof.
  intros Hvalid Hy. cbv zeta.
  destruct (a_year_back_ordinal today Hvalid Hy) as [Hv Ho].
  assert (start_date today = Ok (isoformat (a_year_back today))) as Hstart
    by (unfold start_date; now rewrite sub_days_365).
  split; [exact Hv | ]. split; [exact Ho | ]. split; [exact Hstart | ].
  split; [now apply isoformat_length | ].
  intros e w. unfold fetch_today, fetch_fear_greed_data, cache_data.
  rewrite Hstart. reflexivity.
Qed.

Lemma start_date_a_year_back_witness :
  start_date {| year := 2024; month := 3; day := 1 |} = Ok "2023-03-02"
  /\ start_date {| year := 2024; month := 2; day := 29 |} = Ok "2023-03-01"
  /\ start_date {| year := 2026; month := 11; day := 4 |} = Ok "2025-11-04".
Proof.
  split; [ | split].
  - exact (proj1 (proj2 (proj2 (start_date_a_year_back
                                  {| year := 2024; month := 3; day := 1 |}
                                  eq_refl ltac:(simpl; lia))))).
  - exact (proj1 (proj2 (proj2 (start_date_a_year_back
                                  {| year := 2024; month := 2; day := 29 |}
                                  eq_refl ltac:(simpl; lia))))).
  - exact (proj1 (proj2 (proj2 (start_date_a_year_back
                                  {| year := 2026; month := 11; day := 4 |}
                                  eq_refl ltac:(simpl; lia))))).
Defined.

End Dates.
